(** * CLI_Chat: the architecture-diagram generator (generate_architecture.py)

    A shallow embedding of [analyze_codebase], [get_module_description] and
    [generate_mermaid_diagram], with the properties of the scanner, the
    description resolver and the diagram emitter.

    Python values are modelled as follows.
    - A [str] is the list of its Unicode code points ([N]); [py] turns an
      ASCII literal into such a list.
    - A [dict] is a finite map ([gmap]).
    - [print] appends a line to the standard output, which is threaded
      through the [io] monad together with the raised exception, if any;
      it raises [UnicodeEncodeError] on a line that the encoding of the
      standard output has no bytes for.
    - The directory tree read by the scanner is a finite map from a path to
      the entries of the directory; [ast.parse] is a parameter, and a syntax
      tree is a node with the children [ast.iter_child_nodes] gives.
    - The [platform] holds what the operating system and the terminal
      decide: the [OSError] that [Path.exists] lets through, and the
      characters the standard output encodes.

    - [update_architecture_diagram] runs on a world of printed lines and
      written files; what the operating system makes of the output file is
      a parameter, and so is [load_dotenv] for the module [config.py]. The
      orchestrator iterates over [modules], so it runs the scanner on a
      [dict] kept in insertion order, which agrees with the finite map.

    The definitions come first: the strings, the resolver, the trees, the
    scanner, the emitter, the orchestrator and the configuration module as
    the source has them, then the vocabulary of the properties and the
    sample inputs. The properties follow. *)

From Equations Require Import Equations.
From Stdlib Require Import Ascii String NArith.
From stdpp Require Import gmap list pretty.

Set Warnings "-register-all".

Local Open Scope N_scope.
Local Open Scope nat_scope.

(** ** Python strings *)

Module PyStr.

Abbreviation char := N (only parsing).
Abbreviation str := (list N) (only parsing).

(** An ASCII literal as a Python string. *)
Definition py (s : string) : str :=
  map N_of_ascii (list_ascii_of_string s).
Arguments py s%_string : simpl never.

(** [chr(34)] and [chr(39)]: the two quote characters. *)
Definition dquote : char := 34%N.
Definition squote : char := 39%N.

(** [str.isspace] on one character: the code points CPython's
    [_PyUnicode_IsWhitespace] accepts, which are the ones [str.strip()]
    removes. *)
Definition isspace (c : char) : bool :=
  ((0x09 <=? c) && (c <=? 0x0D) || (0x1C <=? c) && (c <=? 0x20)
   || (c =? 0x85) || (c =? 0xA0) || (c =? 0x1680)
   || (0x2000 <=? c) && (c <=? 0x200A)
   || (c =? 0x2028) || (c =? 0x2029) || (c =? 0x202F) || (c =? 0x205F)
   || (c =? 0x3000))%N.

Fixpoint lstrip (s : str) : str :=
  match s with
  | [] => []
  | c :: r => if isspace c then lstrip r else s
  end.

Definition rstrip (s : str) : str := rev (lstrip (rev s)).

(** [s.strip()] *)
Definition strip (s : str) : str := rstrip (lstrip s).

(** [s.startswith(p)] *)
Fixpoint startswith (p s : str) : bool :=
  match p, s with
  | [], _ => true
  | _ :: _, [] => false
  | a :: p', c :: s' => (a =? c)%N && startswith p' s'
  end.

(** [s.endswith(p)] *)
Definition endswith (p s : str) : bool := startswith (rev p) (rev s).

(** [p in s] *)
Fixpoint contains (p s : str) : bool :=
  startswith p s || match s with [] => false | _ :: r => contains p r end.

(** [s.split(sep)] for a separator of one character. *)
Fixpoint split (sep : char) (s : str) : list str :=
  match s with
  | [] => [[]]
  | c :: r =>
      if (c =? sep)%N then [] :: split sep r
      else match split sep r with
           | l :: ls => (c :: l) :: ls
           | [] => [[c]]
           end
  end.

(** [s.replace(old, new)] for a non-empty [old]: the occurrences of [old]
    are found from left to right and do not overlap. After a match at
    [c :: r] the scan resumes [len(old)] characters further, that is
    [len(old) - 1] characters into [r]. *)
Equations? replace_from (old new s : str) : str by wf (length s) lt :=
  replace_from old new [] := [];
  replace_from old new (c :: r) with startswith old (c :: r) => {
    | true := new ++ replace_from old new (drop (Nat.pred (length old)) r);
    | false := c :: replace_from old new r }.
Proof.
  all: simpl; try rewrite length_drop; lia.
Qed.

(** [s.replace(old, new)]; with an empty [old], Python puts [new] before
    every character and at the end. *)
Definition replace (old new s : str) : str :=
  match old with
  | [] => new ++ flat_map (fun c => c :: new) s
  | _ :: _ => replace_from old new s
  end.

(** [rfind(c)], as an offset from the start; [None] is Python's [-1]. *)
Fixpoint rfind (c : char) (s : str) : option nat :=
  match s with
  | [] => None
  | a :: r =>
      match rfind c r with
      | Some i => Some (S i)
      | None => if (a =? c)%N then Some 0 else None
      end
  end.

(** [sep.join(lines)] for a separator of one character. *)
Fixpoint join (sep : char) (lines : list str) : str :=
  match lines with
  | [] => []
  | [l] => l
  | l :: rest => l ++ sep :: join sep rest
  end.

End PyStr.
Import PyStr.

(** ** The description resolver *)

(** The markers [chr(34)*3] and [chr(39)*3] of a docstring. *)
Definition triple_dquote : str := [dquote; dquote; dquote].
Definition triple_squote : str := [squote; squote; squote].

(** The fallback table of [get_module_description]. *)
Definition descriptions : gmap str str :=
  list_to_map
    [ (py "cli", py "CLI with argument parsing");
      (py "config", py "Configuration & environment");
      (py "data_loader", py "Data ingestion & parsing");
      (py "index_manager", py "Vector indexing & storage");
      (py "ageny", py "AI agent & query engines");
      (py "google_llm_init", py "Google Gemini LLM setup");
      (py "custom_console", py "Console UI & formatting") ].

(** [desc[:40] + "..." if len(desc) > 40 else desc] *)
Definition shorten (desc : str) : str :=
  if 40 <? length desc then take 40 desc ++ py "..." else desc.

(** The [for] loop of [get_module_description]: [Some d] when the loop
    returns [d], [None] when it runs to its end. *)
Fixpoint docstring_loop (lines : list str) : option str :=
  match lines with
  | [] => None
  | line :: lines' =>
      let line := strip line in
      if contains triple_dquote line || contains triple_squote line then
        let desc :=
          strip (replace triple_squote [] (replace triple_dquote [] line)) in
        Some (shorten desc)
      else docstring_loop lines'
  end.

Definition get_module_description (content module_name : str) : str :=
  let lines := take 5 (split 10 content) in
  match docstring_loop lines with
  | Some desc => desc
  | None => default (module_name ++ py " module") (descriptions !! module_name)
  end.

(** ** Syntax trees *)

Module PyAst.

(** The class of a node of the [ast] module. [ast.AsyncFunctionDef] is a
    class of its own, not a subclass of [ast.FunctionDef]; every class the
    scanner does not test for is [OtherNode]. *)
Inductive node_kind :=
| FunctionDef (name : str)
| AsyncFunctionDef (name : str)
| ClassDef (name : str)
| OtherNode.

(** A node with its children in the order of [ast.iter_child_nodes]. *)
Inductive node := Node (kind : node_kind) (children : list node).

Definition kind (n : node) : node_kind := let 'Node k _ := n in k.
Definition children (n : node) : list node := let 'Node _ cs := n in cs.

Fixpoint node_size (n : node) : nat :=
  match n with
  | Node _ cs => S (sum_list_with node_size cs)
  end.

(** The loop of [ast.walk]: [todo] is the deque; a node is taken from the
    left, its children are added on the right, and the node is yielded. *)
Equations? walk_queue (todo : list node) : list node
  by wf (sum_list_with node_size todo) lt :=
  walk_queue [] := [];
  walk_queue (n :: todo) := n :: walk_queue (todo ++ children n).
Proof.
  destruct n as [k cs]. rewrite sum_list_with_app. simpl. lia.
Qed.

(** [ast.walk(tree)] *)
Definition walk (tree : node) : list node := walk_queue [tree].

(** Every node of a tree: the node, then the nodes of its subtrees. *)
Fixpoint subnodes (n : node) : list node :=
  match n with
  | Node _ cs => n :: flat_map subnodes cs
  end.

(** [node.name] when [isinstance(node, ast.FunctionDef)]. *)
Definition function_name (n : node) : option str :=
  match kind n with FunctionDef name => Some name | _ => None end.

(** [node.name] when [isinstance(node, ast.ClassDef)]. *)
Definition class_name (n : node) : option str :=
  match kind n with ClassDef name => Some name | _ => None end.

End PyAst.
Import PyAst.

(** ** Paths and the directory tree *)

Module PyPath.

(** [PurePath.stem] of a file name: the name up to its last dot, unless
    that dot is the first or the last character. *)
Definition stem (name : str) : str :=
  match rfind 46 name with
  | Some i => if (0 <? i) && (i <? length name - 1) then take i name else name
  | None => name
  end.

(** The root of a POSIX path: two leading slashes are kept, one or three
    and more make one. *)
Definition path_root (p : str) : str :=
  if startswith (py "///") p then py "/"
  else if startswith (py "//") p then py "//"
  else if startswith (py "/") p then py "/"
  else [].

(** The parts of a path after its root: what stands between the slashes,
    without the empty parts and the parts ".". *)
Definition path_parts (p : str) : list str :=
  filter (fun part => part <> [] /\ part <> py ".") (split 47 p).

(** [str(Path(src_dir) / name)] for an entry [name] of the directory, as
    [glob] yields it: the root and the parts of [Path(src_dir)], then the
    name, with one slash between them. *)
Definition path_str (src_dir name : str) : str :=
  path_root src_dir ++ join 47 (path_parts src_dir ++ [name]).

End PyPath.
Import PyPath.

(** An exception, known by the text that [str(e)] gives. *)
Inductive exn := Exception (message : str).
Definition message (e : exn) : str := let 'Exception m := e in m.

Inductive result (A : Type) :=
| Ok (a : A)
| Raise (e : exn).
Arguments Ok {A} a.
Arguments Raise {A} e.

(** An entry of a directory: its name and what [open(...).read()] gives on
    it, the decoded text or the exception raised ([IsADirectoryError],
    [PermissionError], [UnicodeDecodeError], ...). *)
Record dir_entry := DirEntry { name : str; contents : result str }.

(** The directory tree: the entries of every path that [stat] finds, in
    the order the operating system lists them. *)
Abbreviation filesystem := (gmap str (list dir_entry)) (only parsing).

(** What the operating system and the terminal decide.
    - [stat_error p] is the [OSError] that [os.stat] raises on a path it
      does not find and that [Path.exists] lets through: any but [ENOENT],
      [ENOTDIR], [EBADF] and [ELOOP], such as [ENAMETOOLONG] or [EACCES].
    - [encodes c] tells whether the encoding and the error handler of
      [sys.stdout] have bytes for a character beyond ASCII, and
      [encode_error line] is the [UnicodeEncodeError] raised on a line they
      have no bytes for. Every encoding of a text stream has the ASCII
      characters. *)
Record platform := Platform {
  stat_error : str -> option exn;
  encodes : char -> bool;
  encode_error : str -> exn
}.

(** [Path(p).exists()] *)
Definition path_exists (pf : platform) (fs : filesystem) (p : str)
  : result bool :=
  match fs !! p with
  | Some _ => Ok true
  | None =>
      match stat_error pf p with
      | Some e => Raise e
      | None => Ok false
      end
  end.

(** [Path(p).glob("*" + suffix)]: the entries directly inside [p] whose
    name ends with [suffix]; a leading dot is not special to [pathlib], and
    a path that is no directory lists nothing. *)
Definition glob_suffix (fs : filesystem) (p suffix : str) : list dir_entry :=
  filter (fun f => endswith suffix (name f) = true) (default [] (fs !! p)).

(** ** Output and exceptions *)

(** A computation that prints and may raise: from the lines printed so far
    to the outcome and the lines printed after it. *)
Record io (A : Type) := IO { run : list str -> result A * list str }.
Arguments IO {A} run.
Arguments run {A} _ _.

#[export] Instance io_ret : MRet io := fun A a => IO (fun out => (Ok a, out)).
#[export] Instance io_bind : MBind io := fun A B k m =>
  IO (fun out =>
        match run m out with
        | (Ok a, out') => run (k a) out'
        | (Raise e, out') => (Raise e, out')
        end).

(** Whether the standard output has bytes for every character of a line. *)
Definition stdout_accepts (pf : platform) (line : str) : bool :=
  forallb (fun c => (c <? 128)%N || encodes pf c) line.

(** [print(line)]: the line is encoded as a whole before any of it is
    written. *)
Definition print (pf : platform) (line : str) : io unit :=
  IO (fun out =>
        if stdout_accepts pf line then (Ok tt, out ++ [line])
        else (Raise (encode_error pf line), out)).

(** The outcome of a call that does not print. *)
Definition lift {A} (r : result A) : io A := IO (fun out => (r, out)).

(** [try: body  except Exception as e: handler(e)] *)
Definition try_except {A} (body : io A) (handler : exn -> io A) : io A :=
  IO (fun out =>
        match run body out with
        | (Ok a, out') => (Ok a, out')
        | (Raise e, out') => run (handler e) out'
        end).

(** [for x in l: s = body(s, x)], with the variables the loop assigns
    carried in [s]. *)
Fixpoint for_each {A S : Type} (body : S -> A -> io S) (l : list A) (s : S)
  : io S :=
  match l with
  | [] => mret s
  | x :: l' => s' ← body s x; for_each body l' s'
  end.

(** ** The source scanner *)

(** The value of [modules[module_name]]. *)
Record ModuleInfo := {
  file : str;
  description : str;
  functions : list str;
  classes : list str
}.

Section Scanner.

(** [ast.parse]: the tree of a source text, or the exception raised. *)
Variable ast_parse : str -> result node.

Variable pf : platform.

(** The body of the [try] statement for one file. *)
Definition analyze_file (modules : gmap str ModuleInfo) (py_file : dir_entry)
    (module_name : str) : io (gmap str ModuleInfo) :=
  content ← lift (contents py_file);
  tree ← lift (ast_parse content);
  let functions := omap function_name (walk tree) in
  let classes := omap class_name (walk tree) in
  let description := get_module_description content module_name in
  mret (<[module_name :=
            {| file := py "src/" ++ name py_file;
               description := description;
               functions := take 3 functions;
               classes := take 2 classes |}]> modules).

(** The body of the [for] loop; returning [modules] at once is the
    [continue]. *)
Definition scan_file (src_dir : str) (modules : gmap str ModuleInfo)
    (py_file : dir_entry) : io (gmap str ModuleInfo) :=
  if startswith (py "__") (name py_file) then mret modules
  else
    let module_name := stem (name py_file) in
    try_except (analyze_file modules py_file module_name)
      (fun e =>
         print pf (py "Warning: Could not analyze "
                   ++ path_str src_dir (name py_file) ++ py ": " ++ message e);;
         mret modules).

Definition analyze_codebase (fs : filesystem) (src_dir : str)
  : io (gmap str ModuleInfo) :=
  let modules : gmap str ModuleInfo := ∅ in
  found ← lift (path_exists pf fs src_dir);
  if negb found then
    print pf (py "Warning: " ++ src_dir ++ py " directory not found");;
    mret modules
  else
    for_each (scan_file src_dir) (glob_suffix fs src_dir (py ".py")) modules.

End Scanner.

(** ** The diagram emitter *)

(** The segments joined by the double-quote character. *)
Fixpoint quoted (segments : list string) : str :=
  match segments with
  | [] => []
  | [s] => py s
  | s :: rest => py s ++ dquote :: quoted rest
  end.

Local Open Scope string_scope.

(** The lines of the literal assigned to [diagram]. *)
Definition diagram_lines : list str :=
  [ py "```mermaid";
    py "graph TB";
    py "    %% Entry Point";
    quoted ["    CLI["; "CLI Entry Point<br/>src/cli.py"; "] --> ARG["; "Argument Parser<br/>--load-data | --chat"; "]"];
    [];
    py "    %% Configuration Layer";
    quoted ["    CONFIG["; "Configuration<br/>src/config.py"; "] --> ENV["; "Environment Variables<br/>.env file<br/>GOOGLE_API_KEY"; "]"];
    quoted ["    CONFIG --> PATHS["; "Path Configuration<br/>DATA_DIR, STORAGE_DIR<br/>YEARS, CHUNK_SIZE"; "]"];
    [];
    py "    %% Data Flow";
    py "    ARG --> LOAD{Command Type}";
    [];
    py "    %% Load Data Path";
    quoted ["    LOAD -->|"; "load-data"; "| DL["; "Data Loader<br/>src/data_loader.py"; "]"];
    quoted ["    DL --> UREAD["; "UnstructuredReader<br/>HTML Files"; "]"];
    quoted ["    UREAD --> DOCS["; "Document Set<br/>2019-2022 UBER<br/>SEC 10-K Filings"; "]"];
    quoted ["    DOCS --> IM["; "Index Manager<br/>src/index_manager.py"; "]"];
    quoted ["    IM --> EMB["; "Google GenAI<br/>Embeddings"; "]"];
    quoted ["    EMB --> VSI["; "Vector Store Index<br/>Per Year"; "]"];
    quoted ["    VSI --> PERSIST["; "Persist Indices<br/>storage/year/"; "]"];
    [];
    py "    %% Chat Path";
    quoted ["    LOAD -->|"; "chat"; "| LIM["; "Load Indices<br/>src/index_manager.py"; "]"];
    quoted ["    LIM --> LIND["; "Load Persisted<br/>Vector Indices"; "]"];
    [];
    py "    %% Agent Creation";
    quoted ["    LIND --> AGENT["; "Agent Creation<br/>src/ageny.py"; "]"];
    quoted ["    AGENT --> TOOLS["; "Create Tools<br/>QueryEngineTool<br/>SubQuestionQueryEngine"; "]"];
    [];
    py "    %% LLM Integration";
    quoted ["    AGENT --> GLLM["; "Google LLM Init<br/>src/google_llm_init.py"; "]"];
    quoted ["    GLLM --> GEMINI["; "Google GenAI<br/>gemini-2.5-flash"; "]"];
    [];
    py "    %% System Components";
    quoted ["    AGENT --> SP["; "System Prompt<br/>system_prompt.txt"; "]"];
    quoted ["    SP --> FUNC_AGENT["; "FunctionAgent<br/>LlamaIndex"; "]"];
    [];
    py "    %% Chat Interface";
    quoted ["    FUNC_AGENT --> CHAT["; "Chat Loop<br/>Interactive Input"; "]"];
    quoted ["    CHAT --> CONSOLE["; "Custom Console<br/>src/custom_console.py"; "]"];
    quoted ["    CONSOLE --> UI["; "User Interface<br/>Colors, Spinners,<br/>Timers, ASCII Art"; "]"];
    [];
    py "    %% External Dependencies";
    quoted ["    subgraph "; "External Libraries"; EmptyString];
    quoted ["        LLAMA["; "LlamaIndex Core<br/>VectorStoreIndex<br/>QueryEngine<br/>FunctionAgent"; "]"];
    quoted ["        GAI["; "Google GenAI<br/>LLM + Embeddings"; "]"];
    quoted ["        UNST["; "Unstructured.io<br/>Document Reader"; "]"];
    quoted ["        DOTENV["; "python-dotenv<br/>Environment Loading"; "]"];
    py "    end";
    [];
    py "    %% Styling";
    py "    classDef entry fill:#e1f5fe,stroke:#01579b,stroke-width:2px,color:#01579b";
    py "    classDef config fill:#f3e5f5,stroke:#4a148c,stroke-width:2px,color:#4a148c";
    py "    classDef data fill:#e8f5e8,stroke:#1b5e20,stroke-width:2px,color:#1b5e20";
    py "    classDef ai fill:#fff3e0,stroke:#e65100,stroke-width:2px,color:#e65100";
    py "    classDef ui fill:#fce4ec,stroke:#880e4f,stroke-width:2px,color:#880e4f";
    py "    classDef external fill:#f5f5f5,stroke:#424242,stroke-width:1px,color:#424242";
    [];
    py "    class CLI,ARG entry";
    py "    class CONFIG,ENV,PATHS config";
    py "    class DL,UREAD,DOCS,IM,VSI,PERSIST,LIM,LIND data";
    py "    class AGENT,TOOLS,FUNC_AGENT,GLLM,GEMINI,SP ai";
    py "    class CHAT,CONSOLE,UI ui";
    py "    class LLAMA,GAI,UNST,DOTENV external";
    [];
    py "    %% Flow Labels";
    quoted ["    CLI -.->|"; "python -m src.cli"; "| ARG"];
    quoted ["    DL -.->|"; "Load UBER HTML"; "| UREAD"];
    quoted ["    IM -.->|"; "Create Vector Indices"; "| VSI"];
    quoted ["    AGENT -.->|"; "Setup Query Tools"; "| TOOLS"];
    quoted ["    GLLM -.->|"; "Initialize Gemini"; "| GEMINI"];
    quoted ["    FUNC_AGENT -.->|"; "RAG Chat"; "| CHAT"];
    quoted ["    CONSOLE -.->|"; "Format Output"; "| UI"];
    py "```" ].

Local Close Scope string_scope.

Definition generate_mermaid_diagram (modules : gmap str ModuleInfo) : str :=
  let diagram := join 10 diagram_lines in
  diagram.

(** ** The modules in insertion order *)

(** [d[k] = v] on a [dict] as Python iterates it: the keys are distinct, an
    assignment to a present key keeps its place, and a new key goes last. *)
Fixpoint dict_set {V : Type} (k : str) (v : V) (d : list (str * V))
  : list (str * V) :=
  match d with
  | [] => [(k, v)]
  | kv :: d' =>
      if decide (kv.1 = k) then (k, v) :: d' else kv :: dict_set k v d'
  end.

Section OrderedScanner.

Variable ast_parse : str -> result node.
Variable pf : platform.

(** [analyze_codebase] once more, with [modules] as Python iterates it;
    [modules.items()] is the list itself. *)
Definition analyze_file_ordered (modules : list (str * ModuleInfo))
    (py_file : dir_entry) (module_name : str) : io (list (str * ModuleInfo)) :=
  content ← lift (contents py_file);
  tree ← lift (ast_parse content);
  let functions := omap function_name (walk tree) in
  let classes := omap class_name (walk tree) in
  let description := get_module_description content module_name in
  mret (dict_set module_name
          {| file := py "src/" ++ name py_file;
             description := description;
             functions := take 3 functions;
             classes := take 2 classes |} modules).

Definition scan_file_ordered (src_dir : str) (modules : list (str * ModuleInfo))
    (py_file : dir_entry) : io (list (str * ModuleInfo)) :=
  if startswith (py "__") (name py_file) then mret modules
  else
    let module_name := stem (name py_file) in
    try_except (analyze_file_ordered modules py_file module_name)
      (fun e =>
         print pf (py "Warning: Could not analyze "
                   ++ path_str src_dir (name py_file) ++ py ": " ++ message e);;
         mret modules).

Definition analyze_codebase_ordered (fs : filesystem) (src_dir : str)
  : io (list (str * ModuleInfo)) :=
  let modules : list (str * ModuleInfo) := [] in
  found ← lift (path_exists pf fs src_dir);
  if negb found then
    print pf (py "Warning: " ++ src_dir ++ py " directory not found");;
    mret modules
  else
    for_each (scan_file_ordered src_dir)
      (glob_suffix fs src_dir (py ".py")) modules.

End OrderedScanner.

(** ** The orchestrator *)

(** What the run leaves behind: the lines printed and the files written. *)
Record world := World { printed : list str; disk : gmap str str }.

(** A computation on the world that may raise. *)
Record sys (A : Type) := Sys { exec : world -> result A * world }.
Arguments Sys {A} exec.
Arguments exec {A} _ _.

#[export] Instance sys_ret : MRet sys := fun A a => Sys (fun w => (Ok a, w)).
#[export] Instance sys_bind : MBind sys := fun A B k m =>
  Sys (fun w =>
         match exec m w with
         | (Ok a, w') => exec (k a) w'
         | (Raise e, w') => (Raise e, w')
         end).

(** A computation that only prints, run on the world. *)
Definition from_io {A : Type} (m : io A) : sys A :=
  Sys (fun w =>
         let '(r, out) := run m (printed w) in (r, World out (disk w))).

(** What the operating system makes of [open(path, 'w')] followed by one
    [write] and the closing of the file: the text is stored, or opening
    raises and the file is untouched, or writing raises and the file is
    left with some other content. *)
Inductive save_outcome :=
| Saved
| OpenFailed (e : exn)
| WriteFailed (e : exn) (left_behind : str).

(** [str(n)] for a length. *)
Definition str_of_nat (n : nat) : str := py (pretty n).

(** The marks that open the four messages, as the source file holds them. *)
Definition analyzing_mark : str := [0xF8FF; 0xFC; 0xEE; 0xE7]%N.
Definition found_mark : str := [0xF8FF; 0xFC; 0xEC; 0xE4]%N.
Definition updated_mark : str := [0x201A; 0xFA; 0xD6]%N.
Definition summary_mark : str := [0xF8FF; 0xFC; 0xEC; 0xE3]%N.

Section Orchestrator.

Variable ast_parse : str -> result node.
Variable pf : platform.

(** The operating system on the output file. *)
Variable save : str -> str -> save_outcome.

(** [with open(path, 'w', encoding='utf-8') as f: f.write(content)] *)
Definition write_text (path content : str) : sys unit :=
  Sys (fun w =>
         match save path content with
         | Saved => (Ok tt, World (printed w) (<[path := content]> (disk w)))
         | OpenFailed e => (Raise e, w)
         | WriteFailed e left_behind =>
             (Raise e, World (printed w) (<[path := left_behind]> (disk w)))
         end).

Definition update_architecture_diagram (fs : filesystem) : sys unit :=
  from_io (print pf (analyzing_mark ++ py " Analyzing CLI_Chat codebase..."));;
  modules ← from_io (analyze_codebase_ordered ast_parse pf fs (py "src"));
  from_io (print pf (found_mark ++ py " Found " ++ str_of_nat (length modules)
                     ++ py " modules"));;
  let diagram_content := generate_mermaid_diagram (list_to_map modules) in
  let output_file := py "architecture_diagram.md" in
  write_text output_file diagram_content;;
  from_io (print pf (updated_mark ++ py " Architecture diagram updated: "
                     ++ output_file));;
  from_io (print pf (10%N :: summary_mark ++ py " Modules analyzed:"));;
  from_io (for_each
             (fun (_ : unit) (item : str * ModuleInfo) =>
                print pf (py "  - " ++ item.1 ++ py ": " ++ description item.2))
             modules tt).

End Orchestrator.

(** ** The configuration module *)

(** The values [config.py] defines; a [Path] is kept as its text. *)
Record Config := {
  YEARS : list nat;
  DATA_DIR : str;
  STORAGE_DIR : str;
  SYSTEM_PROMPT_FILE : str;
  GOOGLE_API_KEY : option str;
  CHUNK_SIZE : nat
}.

Section ConfigModule.

(** [dotenv.load_dotenv(encoding=...)] on [os.environ]: what it returns or
    raises, and the environment it leaves. *)
Variable load_dotenv : str -> gmap str str -> result bool * gmap str str.

Variable pf : platform.

(** The [try] statements that load the [.env] file; the result is
    [os.environ] after them. *)
Definition load_environment (environ : gmap str str) : io (gmap str str) :=
  let '(loaded, environ1) := load_dotenv (py "utf-8") environ in
  try_except (lift loaded;; mret environ1)
    (fun e =>
       print pf (py "Warning: Failed to load .env file with utf-8: "
                 ++ message e ++ py ". Trying with latin-1...");;
       let '(loaded2, environ2) := load_dotenv (py "latin-1") environ1 in
       try_except (lift loaded2;; mret environ2)
         (fun e2 =>
            print pf (py "Warning: .env file has encoding issues. Skipping dotenv loading: "
                      ++ message e2);;
            mret environ2)).

(** [not value] for the value of [os.environ.get]. *)
Definition falsy (value : option str) : bool :=
  match value with
  | None | Some [] => true
  | Some (_ :: _) => false
  end.

(** The body of the module: the values it defines and [os.environ] after
    the import. *)
Definition config (environ : gmap str str) : io (Config * gmap str str) :=
  environ ← load_environment environ;
  let YEARS := [2019; 2020; 2021; 2022] in
  let DATA_DIR := py "data/UBER" in
  let STORAGE_DIR := py "storage" in
  let SYSTEM_PROMPT_FILE := py "system_prompt.txt" in
  let GOOGLE_API_KEY := environ !! py "GOOGLE_API_KEY" in
  GOOGLE_API_KEY ←
    (if falsy GOOGLE_API_KEY then
       print pf (py "Warning: GOOGLE_API_KEY not set. Please set it in a .env file or environment variable.");;
       print pf (py "You can get an API key from: https://makersuite.google.com/app/apikey");;
       mret None
     else mret GOOGLE_API_KEY);
  let CHUNK_SIZE := 512 in
  mret ({| YEARS := YEARS; DATA_DIR := DATA_DIR; STORAGE_DIR := STORAGE_DIR;
           SYSTEM_PROMPT_FILE := SYSTEM_PROMPT_FILE;
           GOOGLE_API_KEY := GOOGLE_API_KEY; CHUNK_SIZE := CHUNK_SIZE |},
        environ).

End ConfigModule.

(** ** Vocabulary of the properties *)

(** A line that holds a triple-quote marker. *)
Definition has_marker (line : str) : bool :=
  contains triple_dquote line || contains triple_squote line.

(** The lines the resolver inspects. *)
Definition first_lines (content : str) : list str := take 5 (split 10 content).

(** The first inspected line that holds a marker. *)
Definition marker_line (content : str) : option str :=
  List.find has_marker (first_lines content).

(** A line without its quote markers and surrounding whitespace. *)
Definition unquoted (line : str) : str :=
  strip (replace triple_squote [] (replace triple_dquote [] line)).

(** A text that holds [m]. *)
Definition holds (m s : str) : Prop := exists a b, s = a ++ m ++ b.

(** A line with a triple-double-quote or a triple-single-quote marker. *)
Definition marked (line : str) : Prop :=
  holds triple_dquote line \/ holds triple_squote line.

(** The first of the lines that has a marker. *)
Definition first_marked (lines : list str) (line : str) : Prop :=
  exists before after,
    lines = before ++ line :: after /\ marked line /\
    Forall (fun l => ~ marked l) before.

(** [t] is [s] without the occurrences of [m], found from the left: where
    the text starts with [m] the occurrence goes, and where it does not its
    first character stays. *)
Inductive erased (m : str) : str -> str -> Prop :=
| erased_end : erased m [] []
| erased_occurrence (s t : str) : erased m s t -> erased m (m ++ s) t
| erased_char (c : char) (s t : str) :
    (forall r, c :: s <> m ++ r) -> erased m s t -> erased m (c :: s) (c :: t).

(** The whitespace of Unicode: the characters with the bidirectional type
    WS, B or S, or the category Zs. *)
Definition whitespace : list char :=
  [ 0x09; 0x0A; 0x0B; 0x0C; 0x0D; 0x1C; 0x1D; 0x1E; 0x1F; 0x20; 0x85; 0xA0;
    0x1680; 0x2000; 0x2001; 0x2002; 0x2003; 0x2004; 0x2005; 0x2006; 0x2007;
    0x2008; 0x2009; 0x200A; 0x2028; 0x2029; 0x202F; 0x205F; 0x3000 ]%N.

(** A text of whitespace only. *)
Definition padding (w : str) : Prop := Forall (fun c => c ∈ whitespace) w.

(** [t] is [s] without the whitespace that surrounds it. *)
Definition trimmed (s t : str) : Prop :=
  exists w1 w2,
    s = w1 ++ t ++ w2 /\ padding w1 /\ padding w2 /\
    (forall c r, t = c :: r -> c ∉ whitespace) /\
    (forall r c, t = r ++ [c] -> c ∉ whitespace).

(** A part of a line that is the marker of three characters [q], or holds
    no [q], and what removing that marker leaves of it. *)
Definition part (q : char) (m : str) : Prop :=
  m = [q; q; q] \/ Forall (fun c => c <> q) m.
Definition kept (q : char) (m : str) : str :=
  if decide (m = [q; q; q]) then [] else m.

(** One of the two markers, and a text without a quote character. *)
Definition quote_marker (m : str) : Prop :=
  m = triple_dquote \/ m = triple_squote.
Definition quote_free (s : str) : Prop :=
  Forall (fun c => c <> dquote /\ c <> squote) s.

(** [desc] is the line with the quote markers and the surrounding
    whitespace stripped: the triple-double-quote markers go first, then
    the triple-single-quote markers. *)
Definition stripped_of_markers (line desc : str) : Prop :=
  exists s1 s2,
    erased triple_dquote line s1 /\ erased triple_squote s1 s2 /\
    trimmed s2 desc.

(** A string of whitespace only. *)
Definition blank (w : str) : Prop := Forall (fun c => isspace c = true) w.

(** A string without whitespace. *)
Definition solid (p : str) : Prop := Forall (fun c => isspace c = false) p.

(** The [*.py] entries of the scanned directory. *)
Definition py_files (fs : filesystem) (src_dir : str) : list dir_entry :=
  glob_suffix fs src_dir (py ".py").

(** A file the scanner leaves out for its name. *)
Definition excluded (f : dir_entry) : bool := startswith (py "__") (name f).

(** The text of the warning for a file on which [e] was raised. *)
Definition warning (src_dir : str) (f : dir_entry) (e : exn) : str :=
  py "Warning: Could not analyze " ++ path_str src_dir (name f) ++ py ": "
  ++ message e.

Section ScannerVocabulary.

Variable ast_parse : str -> result node.

(** The exception that reading or parsing a file raises, if any. *)
Definition failure (f : dir_entry) : option exn :=
  match contents f with
  | Raise e => Some e
  | Ok content =>
      match ast_parse content with
      | Raise e => Some e
      | Ok _ => None
      end
  end.

(** A candidate file whose read or parse fails. *)
Definition invalid (f : dir_entry) : bool :=
  negb (excluded f) && bool_decide (is_Some (failure f)).

(** A candidate file that is read and parsed. *)
Definition analysed (f : dir_entry) : bool :=
  negb (excluded f) && bool_decide (failure f = None).

(** The warning the scan of a file prints, if any. *)
Definition warning_of (src_dir : str) (f : dir_entry) : option str :=
  if excluded f then None else warning src_dir f <$> failure f.

(** The entry the scan of a file stores, if any. *)
Definition scanned (f : dir_entry) : option (str * ModuleInfo) :=
  if excluded f then None
  else
    match contents f with
    | Raise _ => None
    | Ok content =>
        match ast_parse content with
        | Raise _ => None
        | Ok tree =>
            Some (stem (name f),
                  {| file := py "src/" ++ name f;
                     description :=
                       get_module_description content (stem (name f));
                     functions := take 3 (omap function_name (walk tree));
                     classes := take 2 (omap class_name (walk tree)) |})
        end
    end.

End ScannerVocabulary.

(** A [*.py] entry that the scanner opens. *)
Definition candidate (f : dir_entry) : bool :=
  endswith (py ".py") (name f) && negb (excluded f).

(** The nodes at depth [d] below a node, from left to right. *)
Fixpoint at_depth (d : nat) (n : node) : list node :=
  match d with
  | 0 => [n]
  | S d' => flat_map (at_depth d') (children n)
  end.

(** The number of levels of a tree. *)
Fixpoint height (n : node) : nat :=
  match n with
  | Node _ cs => S (max_list_with height cs)
  end.

(** The nodes of a tree level by level: the root, then the nodes at depth
    one from left to right, then those at depth two, and so on. *)
Definition by_depth (tree : node) : list node :=
  flat_map (fun d => at_depth d tree) (seq 0 (height tree)).

(** The names of the functions that the nodes define with [def], of those
    they define with [async def], and of the classes they define. *)
Definition def_names (nodes : list node) : list str :=
  flat_map (fun n => match n with
                     | Node (FunctionDef x) _ => [x]
                     | _ => []
                     end) nodes.
Definition async_def_names (nodes : list node) : list str :=
  flat_map (fun n => match n with
                     | Node (AsyncFunctionDef x) _ => [x]
                     | _ => []
                     end) nodes.
Definition class_names (nodes : list node) : list str :=
  flat_map (fun n => match n with
                     | Node (ClassDef x) _ => [x]
                     | _ => []
                     end) nodes.

(** The functions that a module defines with [def] at its top level, in
    source order, and the classes it defines there. *)
Definition top_level_functions (tree : node) : list str :=
  def_names (children tree).
Definition top_level_classes (tree : node) : list str :=
  class_names (children tree).

(** Lines that the standard output has bytes for. *)
Definition accepted (pf : platform) (lines : list str) : Prop :=
  Forall (fun l => stdout_accepts pf l = true) lines.

(** Printing the lines one after the other: the exception of the first
    line that the standard output refuses, if there is one, and the output
    after the lines before it. *)
Fixpoint emit (pf : platform) (lines : list str) (out : list str)
  : option exn * list str :=
  match lines with
  | [] => (None, out)
  | l :: lines' =>
      if stdout_accepts pf l then emit pf lines' (out ++ [l])
      else (Some (encode_error pf l), out)
  end.

(** The outcome of a computation that prints the lines and returns [a]. *)
Definition after_printing {A : Type} (pf : platform) (lines : list str)
    (out : list str) (a : A) : result A * list str :=
  match emit pf lines out with
  | (None, out') => (Ok a, out')
  | (Some e, out') => (Raise e, out')
  end.

(** The text of the given lines, each ended by a newline. *)
Definition lines_text (lines : list str) : str :=
  flat_map (fun l => l ++ [10%N]) lines.

(** [modules[kv[0]] = kv[1]] on the [dict] in insertion order. *)
Definition store_ordered (modules : list (str * ModuleInfo))
    (kv : str * ModuleInfo) : list (str * ModuleInfo) :=
  dict_set kv.1 kv.2 modules.

(** The file the orchestrator writes and the lines it prints. *)
Definition output_file : str := py "architecture_diagram.md".
Definition analyzing_line : str :=
  analyzing_mark ++ py " Analyzing CLI_Chat codebase...".
Definition found_line (n : nat) : str :=
  found_mark ++ py " Found " ++ str_of_nat n ++ py " modules".
Definition updated_line : str :=
  updated_mark ++ py " Architecture diagram updated: " ++ output_file.
Definition summary_header : str :=
  10%N :: summary_mark ++ py " Modules analyzed:".
Definition summary_line (item : str * ModuleInfo) : str :=
  py "  - " ++ item.1 ++ py ": " ++ description item.2.

(** The end of the orchestrator's run, after the file is stored: the two
    lines about the update and the summary. *)
Definition report (pf : platform) (out : list str)
    (items : list (str * ModuleInfo)) : result unit * list str :=
  after_printing pf ([updated_line; summary_header] ++ (summary_line <$> items))
    out tt.

(** The lines the configuration module prints. *)
Definition utf8_warning (e : exn) : str :=
  py "Warning: Failed to load .env file with utf-8: " ++ message e
  ++ py ". Trying with latin-1...".
Definition latin1_warning (e : exn) : str :=
  py "Warning: .env file has encoding issues. Skipping dotenv loading: "
  ++ message e.
Definition key_warnings : list str :=
  [ py "Warning: GOOGLE_API_KEY not set. Please set it in a .env file or environment variable.";
    py "You can get an API key from: https://makersuite.google.com/app/apikey" ].

(** The lines the key prints: none when it is set. *)
Definition key_lines (key : option str) : list str :=
  match key with
  | None => key_warnings
  | Some _ => []
  end.

(** The warnings about the [.env] file: one for each encoding with which
    loading it raises, and the environment after the attempts. *)
Definition dotenv_warnings
    (load_dotenv : str -> gmap str str -> result bool * gmap str str)
    (environ : gmap str str) : list str :=
  match load_dotenv (py "utf-8") environ with
  | (Ok _, _) => []
  | (Raise e, environ1) =>
      utf8_warning e
      :: match load_dotenv (py "latin-1") environ1 with
         | (Ok _, _) => []
         | (Raise e2, _) => [latin1_warning e2]
         end
  end.
Definition environ_after
    (load_dotenv : str -> gmap str str -> result bool * gmap str str)
    (environ : gmap str str) : gmap str str :=
  match load_dotenv (py "utf-8") environ with
  | (Ok _, environ1) => environ1
  | (Raise _, environ1) => (load_dotenv (py "latin-1") environ1).2
  end.

(** The values the module defines in an environment. *)
Definition config_of (environ : gmap str str) : Config :=
  {| YEARS := [2019; 2020; 2021; 2022];
     DATA_DIR := py "data/UBER";
     STORAGE_DIR := py "storage";
     SYSTEM_PROMPT_FILE := py "system_prompt.txt";
     GOOGLE_API_KEY :=
       if falsy (environ !! py "GOOGLE_API_KEY") then None
       else environ !! py "GOOGLE_API_KEY";
     CHUNK_SIZE := 512 |}.

(** [modules[kv[0]] = kv[1]] *)
Definition store (modules : gmap str ModuleInfo) (kv : str * ModuleInfo)
  : gmap str ModuleInfo := <[kv.1 := kv.2]> modules.

(** ** Sample inputs *)

(** The source text made of the given lines, each ended by a newline. *)
Definition text (lines : list string) : str :=
  flat_map (fun l => py l ++ [10%N]) lines.

(** A parser that knows the trees of the listed source texts and raises a
    [SyntaxError] on every other text. *)
Definition parser_of (known : list (str * node)) (source : str) : result node :=
  match (list_to_map known : gmap str node) !! source with
  | Some tree => Ok tree
  | None => Raise (Exception (py "invalid syntax (<unknown>, line 1)"))
  end.

Local Open Scope string_scope.

(** [x = 1]: a module, an assignment, its target with its context, and
    the constant. *)
Definition assign_source : str := text ["x = 1"].
Definition assign_tree : node :=
  Node OtherNode
    [Node OtherNode [Node OtherNode [Node OtherNode []]; Node OtherNode []]].

(** A module with a class, a method, a nested function, a coroutine and
    three functions at the top level. *)
Definition sample_source : str :=
  text [ "class C:";
         "    def m(self): pass";
         "def g():";
         "    def h(): pass";
         "async def a(): pass";
         "def k(): pass";
         "def z(): pass" ].
Definition sample_tree : node :=
  Node OtherNode
    [ Node (ClassDef (py "C"))
        [ Node (FunctionDef (py "m"))
            [Node OtherNode [Node OtherNode []]; Node OtherNode []] ];
      Node (FunctionDef (py "g"))
        [ Node OtherNode [];
          Node (FunctionDef (py "h")) [Node OtherNode []; Node OtherNode []] ];
      Node (AsyncFunctionDef (py "a")) [Node OtherNode []; Node OtherNode []];
      Node (FunctionDef (py "k")) [Node OtherNode []; Node OtherNode []];
      Node (FunctionDef (py "z")) [Node OtherNode []; Node OtherNode []] ].

(** The parser on the sample texts; the empty text is a module without
    statements. *)
Definition sample_parser : str -> result node :=
  parser_of [ (assign_source, assign_tree);
              (sample_source, sample_tree);
              ([], Node OtherNode []) ].

(** A tree with a directory [src] that holds two modules, a package
    marker, a file that does not parse, a directory named like a module and
    a text file, and a directory [lib] that holds one module. *)
Definition sample_fs : filesystem :=
  {[ py "src" :=
       [ DirEntry (py "cli.py") (Ok assign_source);
         DirEntry (py "__init__.py") (Ok []);
         DirEntry (py "broken.py") (Ok (text ["def ("]));
         DirEntry (py "sample.py") (Ok sample_source);
         DirEntry (py "pkg.py")
           (Raise (Exception (py "[Errno 21] Is a directory: 'src/pkg.py'")));
         DirEntry (py "notes.txt") (Ok (text ["to do"])) ];
     py "lib" := [ DirEntry (py "a.py") (Ok assign_source) ] ]}.

(** The directory [src] of the sample tree, reached as [./src]. *)
Definition relative_fs : filesystem :=
  {[ py "./src" := default [] (sample_fs !! py "src") ]}.

(** A directory whose two files, [.py] and [.py.py], are both empty. *)
Definition dotfile_fs : filesystem :=
  {[ py "src" := [ DirEntry (py ".py") (Ok []);
                   DirEntry (py ".py.py") (Ok []) ] ]}.

(** A directory with one module whose name has 40 characters, and the
    entry the scanner stores for it. *)
Definition long_name : str := py "architecture_diagram_generation_helpers_".
Definition long_name_fs : filesystem :=
  {[ py "src" := [ DirEntry (long_name ++ py ".py") (Ok assign_source) ] ]}.
Definition long_name_info : ModuleInfo :=
  {| file := py "src/" ++ long_name ++ py ".py";
     description := long_name ++ py " module";
     functions := [];
     classes := [] |}.

(** A directory that holds exactly [cli.py] and [__init__.py]. *)
Definition cli_fs : filesystem :=
  {[ py "src" := [ DirEntry (py "__init__.py") (Ok []);
                   DirEntry (py "cli.py") (Ok assign_source) ] ]}.


(** A text whose only line is a docstring of one line. *)
Definition example_docstring : str :=
  triple_dquote ++ py "Example description here" ++ triple_dquote.

(** A text whose only line is a docstring of 60 characters. *)
Definition long_docstring : str :=
  triple_dquote
  ++ py "Reads the filings, builds the indices and answers questions."
  ++ triple_dquote.

(** The head of [generate_architecture.py]: its docstring opens on a line
    of its own. *)
Definition opening_marker_source : str :=
  py "#!/usr/bin/env python3" ++ [10%N] ++ triple_dquote ++ [10%N]
  ++ text ["Architecture Diagram Generator for CLI_Chat"].

(** The entry of [lib/a.py]. *)
Definition lib_info : ModuleInfo :=
  {| file := py "src/a.py"; description := py "a module";
     functions := []; classes := [] |}.

(** The directory of [cli_fs] listed in the other order, and with entries
    the scanner does not open. *)
Definition cli_fs_swapped : filesystem :=
  {[ py "src" := [ DirEntry (py "cli.py") (Ok assign_source);
                   DirEntry (py "__init__.py") (Ok []) ] ]}.
Definition cli_fs_noise : filesystem :=
  {[ py "src" :=
       [ DirEntry (py "notes.txt") (Ok (text ["to do"]));
         DirEntry (py "__init__.py")
           (Raise (Exception (py "[Errno 13] Permission denied: 'src/__init__.py'")));
         DirEntry (py "cli.py") (Ok assign_source) ] ]}.

(** Five lines without a docstring. *)
Definition five_lines : list str :=
  [ py "import os"; py "import ast"; []; py "x = 1"; py "y = 2" ].

(** An operating system that stores the output file, and one that refuses
    to open it. *)
Definition save_ok (path content : str) : save_outcome := Saved.
Definition save_denied (path content : str) : save_outcome :=
  OpenFailed
    (Exception (py "[Errno 13] Permission denied: 'architecture_diagram.md'")).

(** The world before a run. *)
Definition empty_world : world := World [] ∅.

(** What the run of the orchestrator on the sample tree leaves, on a
    terminal that prints UTF-8 and a disk that stores the file. *)
Definition sample_modules : gmap str ModuleInfo :=
  {[ py "cli" := {| file := py "src/cli.py";
                    description := py "CLI with argument parsing";
                    functions := []; classes := [] |};
     py "sample" := {| file := py "src/sample.py";
                       description := py "sample module";
                       functions := [py "g"; py "k"; py "z"];
                       classes := [py "C"] |} ]}.
Definition sample_warnings : list str :=
  [ py "Warning: Could not analyze src/broken.py: invalid syntax (<unknown>, line 1)";
    py "Warning: Could not analyze src/pkg.py: [Errno 21] Is a directory: 'src/pkg.py'" ].
Definition sample_world_after : world :=
  World ([analyzing_line] ++ sample_warnings
         ++ [ (found_mark ++ py " Found 2 modules")%list; updated_line;
              summary_header;
              py "  - cli: CLI with argument parsing";
              py "  - sample: sample module" ])
    {[ output_file := join 10 diagram_lines ]}.

(** [repr] of a character of the basic plane that a codec refuses. *)
Definition hex_digit (d : N) : char := (if d <? 10 then 48 + d else 87 + d)%N.
Definition escape (c : char) : str :=
  if (c <? 256)%N then
    (py "\x" ++ [hex_digit (c / 16); hex_digit (c mod 16)])%N%list
  else
    (py "\u" ++ [hex_digit (c / 4096); hex_digit (c / 256 mod 16);
                 hex_digit (c / 16 mod 16); hex_digit (c mod 16)])%N%list.

(** The characters at the head of a line that satisfy a test. *)
Fixpoint run_of (test : char -> bool) (line : str) : str :=
  match line with
  | [] => []
  | c :: r => if test c then c :: run_of test r else []
  end.

(** [str(e)] for the [UnicodeEncodeError] of a codec that has bytes for the
    characters [known] only: it names the first run of characters without
    bytes. *)
Definition codec_error (codec reason : str) (known : char -> bool)
    (line : str) : exn :=
  let start := length (run_of known line) in
  let refused := run_of (fun c => negb (known c)) (drop start line) in
  Exception
    (py "'" ++ codec ++ py "' codec can't encode "
     ++ match refused with
        | [c] => py "character '" ++ escape c ++ py "' in position "
                 ++ str_of_nat start
        | _ => py "characters in position " ++ str_of_nat start ++ py "-"
               ++ str_of_nat (start + length refused - 1)
        end
     ++ py ": " ++ reason).

(** [stat] on Linux: a part of more than 255 characters is refused. *)
Definition name_too_long (p : str) : option exn :=
  if existsb (fun part => (255 <? length part)%nat) (split 47 p) then
    Some (Exception (py "[Errno 36] File name too long: '" ++ p ++ py "'"))
  else None.

(** A terminal that prints UTF-8: every character but a surrogate has
    bytes. *)
Definition surrogate (c : char) : bool := ((0xD800 <=? c) && (c <=? 0xDFFF))%N.
Definition utf8_terminal : platform :=
  {| stat_error := name_too_long;
     encodes := fun c => negb (surrogate c);
     encode_error :=
       codec_error (py "utf-8") (py "surrogates not allowed")
         (fun c => negb (surrogate c)) |}.

(** A standard output that prints ASCII, as under the C locale. *)
Definition ascii_terminal : platform :=
  {| stat_error := name_too_long;
     encodes := fun _ => false;
     encode_error :=
       codec_error (py "ascii") (py "ordinal not in range(128)")
         (fun c => (c <? 128)%N) |}.

(** A path of 300 characters. *)
Definition long_path : str := replicate 300 97%N.

(** [async def a(): pass]: a module and a coroutine with its arguments and
    its body. *)
Definition coroutine_source : str := text ["async def a(): pass"].
Definition coroutine_tree : node :=
  Node OtherNode
    [Node (AsyncFunctionDef (py "a")) [Node OtherNode []; Node OtherNode []]].
Definition coroutine_parser : str -> result node :=
  parser_of [(coroutine_source, coroutine_tree)].
Definition coroutine_info : ModuleInfo :=
  {| file := py "src/co.py"; description := py "co module";
     functions := []; classes := [] |}.

(** A directory with a file that does not parse between two modules; the
    name of the file holds a byte that is no UTF-8, which Python keeps as
    the surrogate U+DCFF. *)
Definition undecodable_name : str := 0xDCFF%N :: py ".py".
Definition surrogate_fs : filesystem :=
  {[ py "src" := [ DirEntry (py "cli.py") (Ok assign_source);
                   DirEntry undecodable_name (Ok (text ["def ("]));
                   DirEntry (py "util.py") (Ok assign_source) ] ]}.

(** A [.env] file that sets the key, and one that only latin-1 decodes. *)
Definition dotenv_sets_key (encoding : str) (environ : gmap str str)
  : result bool * gmap str str :=
  (Ok true, <[py "GOOGLE_API_KEY" := py "secret"]> environ).
Definition dotenv_latin1 (encoding : str) (environ : gmap str str)
  : result bool * gmap str str :=
  if decide (encoding = py "utf-8") then
    (Raise (Exception (py "'utf-8' codec can't decode byte 0xe9 in position 3: invalid continuation byte")),
     environ)
  else (Ok true, environ).

(** A [.env] file that the user may not read, in a home directory whose
    name has an accent. *)
Definition denied_error : exn :=
  Exception (py "[Errno 13] Permission denied: '/home/zo" ++ [0xE9%N]
             ++ py "/.env'").
Definition dotenv_denied (encoding : str) (environ : gmap str str)
  : result bool * gmap str str :=
  (Raise denied_error, environ).

(** The values of the module when the key is not set, and the exception
    of the second sample file. *)
Definition no_key_config : Config :=
  {| YEARS := [2019; 2020; 2021; 2022]; DATA_DIR := py "data/UBER";
     STORAGE_DIR := py "storage"; SYSTEM_PROMPT_FILE := py "system_prompt.txt";
     GOOGLE_API_KEY := None; CHUNK_SIZE := 512 |}.
Definition decode_error : exn :=
  Exception (py "'utf-8' codec can't decode byte 0xe9 in position 3: invalid continuation byte").

Local Close Scope string_scope.


(** * Properties *)

Example split_keeps_last_line : split 10 (py "a" ++ [10%N]) = [py "a"; []].
Proof. reflexivity. Qed.

Example replace_from_left : replace (py "aa") [] (py "aaaaa") = py "a".
Proof. reflexivity. Qed.

Example replace_all : replace (py "ab") (py "-") (py "xababyab") = py "x--y-".
Proof. reflexivity. Qed.

Example replace_empty_pattern : replace [] (py "-") (py "abc") = py "-a-b-c-".
Proof. reflexivity. Qed.

Example strip_both_ends : strip (py "  a b  ") = py "a b".
Proof. reflexivity. Qed.

Example stem_of_names :
  stem (py "cli.py") = py "cli" /\ stem (py "a.b.py") = py "a.b" /\
  stem (py ".py") = py ".py" /\ stem (py ".py.py") = py ".py".
Proof. by vm_compute. Qed.

Example path_str_examples :
  path_str (py "src") (py "cli.py") = py "src/cli.py" /\
  path_str (py "./src") (py "cli.py") = py "src/cli.py" /\
  path_str (py "src/") (py "cli.py") = py "src/cli.py" /\
  path_str (py ".") (py "cli.py") = py "cli.py" /\
  path_str (py "/srv//app/") (py "cli.py") = py "/srv/app/cli.py" /\
  path_str (py "../src") (py "cli.py") = py "../src/cli.py".
Proof. by vm_compute. Qed.

Example description_example :
  get_module_description example_docstring (py "cli")
  = py "Example description here".
Proof. vm_compute. reflexivity. Qed.

Example description_long :
  length (py "Reads the filings, builds the indices and answers questions.") = 60
  /\ get_module_description long_docstring (py "cli")
     = py "Reads the filings, builds the indices an...".
Proof. split; vm_compute; reflexivity. Qed.

Example description_table :
  get_module_description assign_source (py "cli") = py "CLI with argument parsing".
Proof. vm_compute. reflexivity. Qed.

Example description_synthesized :
  get_module_description assign_source (py "helpers") = py "helpers module".
Proof. vm_compute. reflexivity. Qed.

Example description_opening_marker :
  get_module_description opening_marker_source (py "cli") = [].
Proof. vm_compute. reflexivity. Qed.

(** Removing one marker can bring the characters of the other together. *)
Example unquoted_leaves_marker :
  unquoted ([dquote; dquote] ++ triple_squote ++ [dquote]) = triple_dquote.
Proof. vm_compute. reflexivity. Qed.

Example descriptions_size : size descriptions = 7.
Proof. vm_compute. reflexivity. Qed.

(** ** Prefixes *)

Section Prefixes.

Lemma startswith_app (q t : str) : startswith q (q ++ t) = true.
Proof.
  induction q as [|a q IH]; [done|]. simpl. by rewrite N.eqb_refl.
Qed.

Lemma startswith_split (q t : str) :
  startswith q t = true -> exists r, t = q ++ r.
Proof.
  revert t. induction q as [|a q IH]; intros t; [by exists t|].
  destruct t as [|c t]; [done|]. simpl.
  intros [->%N.eqb_eq [r ->]%IH]%andb_prop. by exists r.
Qed.

End Prefixes.

(** ** Whitespace and the string operations *)

Section StripLemmas.

Lemma lstrip_blank_app (w s : str) : blank w -> lstrip (w ++ s) = lstrip s.
Proof.
  induction 1 as [|c w Hc _ IH]; simpl; [done|]. by rewrite Hc.
Qed.

Lemma lstrip_blank (w : str) : blank w -> lstrip w = [].
Proof.
  intros Hw. rewrite <- (app_nil_r w). by rewrite lstrip_blank_app.
Qed.

Lemma lstrip_decompose (s : str) : exists w, blank w /\ s = w ++ lstrip s.
Proof.
  induction s as [|c s (w & Hw & IH)]; simpl.
  - exists []. split; [constructor | done].
  - destruct (isspace c) eqn:Hc.
    + exists (c :: w). split; [by constructor|]. simpl. by rewrite <- IH.
    + exists []. split; [constructor | done].
Qed.

Lemma lstrip_nil_blank (s : str) : lstrip s = [] -> blank s.
Proof.
  intros H. destruct (lstrip_decompose s) as (w & Hw & Hs).
  rewrite H, app_nil_r in Hs. by subst.
Qed.

Lemma lstrip_app_solid_head (s t : str) :
  lstrip s <> [] -> lstrip (s ++ t) = lstrip s ++ t.
Proof.
  induction s as [|c s IH]; simpl; [done|].
  destruct (isspace c); [exact IH | done].
Qed.

Lemma blank_rev (w : str) : blank w -> blank (rev w).
Proof.
  induction 1 as [|c w Hc _ IH]; simpl; [constructor|].
  apply Forall_app. split; [done | by constructor].
Qed.

Lemma blank_app (w1 w2 : str) : blank w1 -> blank w2 -> blank (w1 ++ w2).
Proof. unfold blank. intros. by apply Forall_app. Qed.

Lemma rstrip_blank_app (s w : str) : blank w -> rstrip (s ++ w) = rstrip s.
Proof.
  intros Hw. unfold rstrip. rewrite rev_app_distr.
  by rewrite lstrip_blank_app by by apply blank_rev.
Qed.

Lemma rstrip_decompose (s : str) : exists w, blank w /\ s = rstrip s ++ w.
Proof.
  destruct (lstrip_decompose (rev s)) as (w & Hw & Hs).
  exists (rev w). split; [by apply blank_rev|].
  unfold rstrip. rewrite <- rev_app_distr, <- Hs. by rewrite rev_involutive.
Qed.

Lemma strip_decompose (s : str) :
  exists w1 w2, blank w1 /\ blank w2 /\ s = w1 ++ strip s ++ w2.
Proof.
  destruct (lstrip_decompose s) as (w1 & Hw1 & Hs).
  destruct (rstrip_decompose (lstrip s)) as (w2 & Hw2 & Hl).
  exists w1, w2. split_and!; [done..|].
  unfold strip. by rewrite <- Hl.
Qed.

Lemma strip_blank_app (w1 s w2 : str) :
  blank w1 -> blank w2 -> strip (w1 ++ s ++ w2) = strip s.
Proof.
  intros H1 H2. unfold strip. rewrite lstrip_blank_app by done.
  destruct (lstrip s) as [|c r] eqn:Hs.
  - rewrite lstrip_blank; [done|].
    apply blank_app; [by apply lstrip_nil_blank | done].
  - rewrite lstrip_app_solid_head by by rewrite Hs.
    rewrite Hs. by apply rstrip_blank_app.
Qed.

End StripLemmas.

(** ** Patterns without whitespace *)

Section SolidPattern.

Lemma replace_from_cons (old new : str) (c : char) (r : str) :
  replace_from old new (c :: r) =
  if startswith old (c :: r)
  then new ++ replace_from old new (drop (Nat.pred (length old)) r)
  else c :: replace_from old new r.
Proof.
  rewrite replace_from_equation_2. by destruct (startswith old (c :: r)).
Qed.

Lemma startswith_length (q s : str) :
  startswith q s = true -> length q <= length s.
Proof.
  revert s. induction q as [|a q IH]; intros [|c s]; simpl; try done; [lia|].
  intros [_ H]%andb_prop. apply IH in H. lia.
Qed.

Lemma startswith_app_blank (q s w : str) :
  solid q -> blank w -> startswith q (s ++ w) = startswith q s.
Proof.
  intros Hq Hw. revert s. induction Hq as [|a q Ha _ IH]; intros s; [by destruct s|].
  destruct s as [|c s]; simpl.
  - destruct Hw as [|c w Hc _]; [done|]. simpl.
    destruct (N.eqb_spec a c) as [->|]; [congruence | done].
  - by rewrite IH.
Qed.

Variables (a : char) (p : str).
Hypothesis Hsolid : solid (a :: p).

Lemma startswith_blank_head (c : char) (s : str) :
  isspace c = true -> startswith (a :: p) (c :: s) = false.
Proof.
  intros Hc. simpl. destruct (N.eqb_spec a c) as [->|]; [|done].
  apply Forall_cons_1 in Hsolid as [Ha _]. congruence.
Qed.

Lemma contains_blank_l (w s : str) :
  blank w -> contains (a :: p) (w ++ s) = contains (a :: p) s.
Proof.
  induction 1 as [|c w Hc _ IH]; [done|].
  change (contains (a :: p) ((c :: w) ++ s))
    with (startswith (a :: p) (c :: w ++ s) || contains (a :: p) (w ++ s)).
  by rewrite startswith_blank_head, IH.
Qed.

Lemma contains_blank_r (s w : str) :
  blank w -> contains (a :: p) (s ++ w) = contains (a :: p) s.
Proof.
  intros Hw. induction s as [|c s IH].
  - simpl app. rewrite <- (app_nil_r w). by rewrite contains_blank_l.
  - change (contains (a :: p) ((c :: s) ++ w))
      with (startswith (a :: p) ((c :: s) ++ w) || contains (a :: p) (s ++ w)).
    rewrite startswith_app_blank, IH by done. done.
Qed.

Lemma contains_strip (s : str) : contains (a :: p) (strip s) = contains (a :: p) s.
Proof.
  destruct (strip_decompose s) as (w1 & w2 & H1 & H2 & Hs).
  rewrite Hs at 2. by rewrite contains_blank_l, contains_blank_r.
Qed.

Lemma replace_from_blank_l (new w s : str) :
  blank w -> replace_from (a :: p) new (w ++ s) = w ++ replace_from (a :: p) new s.
Proof.
  induction 1 as [|c w Hc _ IH]; [done|].
  simpl app. rewrite replace_from_cons.
  by rewrite startswith_blank_head, IH.
Qed.

Lemma replace_from_blank (new w : str) :
  blank w -> replace_from (a :: p) new w = w.
Proof.
  intros Hw. rewrite <- (app_nil_r w) at 1.
  rewrite replace_from_blank_l by done.
  by rewrite replace_from_equation_1, app_nil_r.
Qed.

Lemma replace_from_blank_r (new s w : str) :
  blank w -> replace_from (a :: p) new (s ++ w) = replace_from (a :: p) new s ++ w.
Proof.
  intros Hw.
  assert (H : forall n s, length s <= n ->
            replace_from (a :: p) new (s ++ w)
            = replace_from (a :: p) new s ++ w); [|by apply (H (length s))].
  clear s. induction n as [|n IH]; intros [|c s] Hn; simpl in Hn; try lia.
  1,2: by rewrite replace_from_equation_1; apply replace_from_blank.
  simpl app. rewrite !replace_from_cons.
  change (c :: s ++ w) with ((c :: s) ++ w).
  rewrite startswith_app_blank by done.
  destruct (startswith (a :: p) (c :: s)) eqn:Hst.
  - apply startswith_length in Hst. simpl in Hst.
    rewrite drop_app_le by (simpl; lia).
    rewrite IH by (rewrite length_drop; lia). by rewrite app_assoc.
  - rewrite IH by lia. done.
Qed.

(** Removing the pattern commutes with stripping, up to a last strip. *)
Lemma replace_from_strip (s : str) :
  exists w1 w2, blank w1 /\ blank w2 /\
    replace_from (a :: p) [] s = w1 ++ replace_from (a :: p) [] (strip s) ++ w2.
Proof.
  destruct (strip_decompose s) as (w1 & w2 & H1 & H2 & Hs).
  exists w1, w2. split_and!; [done..|].
  rewrite Hs at 1. by rewrite replace_from_blank_l, replace_from_blank_r.
Qed.

End SolidPattern.

(** The markers hold no whitespace, so stripping a line neither hides nor
    creates one, and it commutes with their removal. *)
Lemma has_marker_strip (line : str) : has_marker (strip line) = has_marker line.
Proof.
  unfold has_marker, triple_dquote, triple_squote.
  rewrite !contains_strip; [done | by repeat constructor..].
Qed.

Lemma unquoted_strip (line : str) : unquoted (strip line) = unquoted line.
Proof.
  unfold unquoted, triple_dquote, triple_squote, replace.
  assert (Hd : solid [dquote; dquote; dquote]) by by repeat constructor.
  assert (Hs : solid [squote; squote; squote]) by by repeat constructor.
  destruct (replace_from_strip dquote _ Hd line) as (w1 & w2 & H1 & H2 & Hl).
  rewrite Hl.
  rewrite (replace_from_blank_l squote _ Hs) by done.
  rewrite (replace_from_blank_r squote _ Hs) by done.
  by rewrite strip_blank_app.
Qed.

(** ** The description resolver *)

Section Resolver.

Lemma docstring_loop_find (lines : list str) :
  docstring_loop lines = (fun l => shorten (unquoted l)) <$> List.find has_marker lines.
Proof.
  induction lines as [|l lines IH]; [done|].
  change (docstring_loop (l :: lines))
    with (if has_marker (strip l) then Some (shorten (unquoted (strip l)))
          else docstring_loop lines).
  rewrite has_marker_strip, unquoted_strip. simpl.
  by destruct (has_marker l).
Qed.

Lemma description_of_marker_line (content module_name line : str) :
  marker_line content = Some line ->
  get_module_description content module_name = shorten (unquoted line).
Proof.
  unfold marker_line, first_lines, get_module_description. intros H.
  by rewrite docstring_loop_find, H.
Qed.

Lemma description_without_marker (content module_name : str) :
  marker_line content = None ->
  get_module_description content module_name
  = default (module_name ++ py " module") (descriptions !! module_name).
Proof.
  unfold marker_line, first_lines, get_module_description. intros H.
  by rewrite docstring_loop_find, H.
Qed.

Lemma marker_line_exists (content l : str) :
  l ∈ first_lines content -> has_marker l = true ->
  exists line, marker_line content = Some line.
Proof.
  intros Hin Hm. unfold marker_line.
  destruct (List.find has_marker (first_lines content)) as [line|] eqn:Hf; [by eexists|].
  apply list_elem_of_In in Hin. pose proof (find_none _ _ Hf _ Hin). congruence.
Qed.


Lemma shorten_length (desc : str) : length (shorten desc) <= 43.
Proof.
  unfold shorten. destruct (Nat.ltb_spec 40 (length desc)); [|lia].
  rewrite length_app, length_take. change (length (py "...")) with 3. lia.
Qed.

Lemma descriptions_lookup (k d : str) :
  descriptions !! k = Some d ->
  d <> [] /\ length d <= 27 /\ d <> k ++ py " module".
Proof.
  intros H. apply elem_of_list_to_map_2 in H.
  repeat (apply elem_of_cons in H as [[= -> ->]|H]; [by split_and!; [|vm_compute; lia|]|]).
  by apply elem_of_nil in H.
Qed.


Lemma split_first_line (sep : char) (l rest : str) :
  sep ∉ l -> split sep (l ++ sep :: rest) = l :: split sep rest.
Proof.
  induction l as [|c l IH]; simpl.
  - intros _. by rewrite N.eqb_refl.
  - intros [Hne Hl]%not_elem_of_cons. rewrite IH by done.
    destruct (N.eqb_spec c sep); [congruence | done].
Qed.

(** A first line with a marker decides the description, whatever follows. *)
Lemma description_of_first_line (l rest module_name : str) :
  10%N ∉ l -> has_marker l = true ->
  get_module_description (l ++ 10%N :: rest) module_name = shorten (unquoted l).
Proof.
  intros Hnl Hm. apply description_of_marker_line.
  unfold marker_line, first_lines. rewrite split_first_line by done.
  simpl. by rewrite Hm.
Qed.

End Resolver.

Section ResolverExtras.

Lemma split_nonempty (sep : char) (s : str) : split sep s <> [].
Proof.
  destruct s as [|c s]; simpl; [done|].
  destruct (c =? sep)%N; [done|]. by destruct (split sep s).
Qed.

Lemma split_lines_text (lines : list str) (rest : str) :
  Forall (fun l => 10%N ∉ l) lines ->
  split 10 (lines_text lines ++ rest) = lines ++ split 10 rest.
Proof.
  induction 1 as [|l lines Hl _ IH]; [done|].
  unfold lines_text in *. simpl. rewrite <- !app_assoc. simpl.
  by rewrite split_first_line, IH.
Qed.

(** The first five lines of a text that has at least five lines. *)
Lemma first_lines_text (lines : list str) (rest : str) :
  length lines = 5 -> Forall (fun l => 10%N ∉ l) lines ->
  first_lines (lines_text lines ++ rest) = lines.
Proof.
  intros Hlen Hl. unfold first_lines. rewrite split_lines_text by done.
  by rewrite take_app_length'.
Qed.

Lemma lstrip_fixed (s : str) : lstrip (lstrip s) = lstrip s.
Proof.
  induction s as [|c s IH]; [done|]. simpl.
  destruct (isspace c) eqn:Hc; [done|]. simpl. by rewrite Hc.
Qed.


Lemma lstrip_solid_head (c : char) (s : str) :
  isspace c = false -> lstrip (c :: s) = c :: s.
Proof. intros Hc. simpl. by rewrite Hc. Qed.

Lemma rstrip_solid_last (s : str) (c : char) :
  isspace c = false -> rstrip (s ++ [c]) = s ++ [c].
Proof.
  intros Hc. unfold rstrip. rewrite rev_app_distr. simpl. rewrite Hc. simpl.
  by rewrite rev_involutive.
Qed.

(** The head of a stripped string is no whitespace. *)
Lemma strip_head (s : str) (c : char) (r : str) :
  strip s = c :: r -> isspace c = false.
Proof.
  unfold strip. intros H.
  destruct (rstrip_decompose (lstrip s)) as (w & Hw & Hs). rewrite H in Hs.
  destruct (isspace c) eqn:Hc; [|done].
  assert (Hl : lstrip (lstrip s) = lstrip s) by apply lstrip_fixed.
  rewrite Hs in Hl at 1. simpl in Hl. rewrite Hc in Hl.
  assert (Hlen : length (lstrip (r ++ w)) <= length (r ++ w)).
  { destruct (lstrip_decompose (r ++ w)) as (w' & _ & Hd).
    rewrite Hd at 2. rewrite length_app. lia. }
  rewrite Hl, Hs in Hlen. simpl in Hlen. lia.
Qed.



End ResolverExtras.

(** ** Removing a marker of three equal characters *)

Section MarkerRemoval.

Variable q : char.

Lemma replace_from_not_head (x : char) (r : str) :
  x <> q ->
  replace_from [q; q; q] [] (x :: r) = x :: replace_from [q; q; q] [] r.
Proof.
  intros Hx. rewrite replace_from_cons. simpl.
  destruct (N.eqb_spec q x); [congruence | done].
Qed.

(** Where the text does not start with two of the characters, neither does
    the text without the markers. *)
Lemma replace_from_no_pair (r : str) :
  startswith [q; q] r = false ->
  startswith [q; q] (replace_from [q; q; q] [] r) = false.
Proof.
  destruct r as [|x r]; [by rewrite replace_from_equation_1|].
  destruct (decide (x = q)) as [->|Hx].
  - change (startswith [q; q] (q :: r))
      with ((q =? q)%N && startswith [q] r).
    rewrite N.eqb_refl. simpl andb. intros Hr.
    assert (Hst : startswith [q; q; q] (q :: r) = false).
    { destruct r as [|y r]; [simpl; by rewrite N.eqb_refl|].
      simpl in *. rewrite N.eqb_refl. simpl.
      destruct (q =? y)%N; [done|done]. }
    rewrite replace_from_cons, Hst.
    change (startswith [q; q] (q :: replace_from [q; q; q] [] r))
      with ((q =? q)%N && startswith [q] (replace_from [q; q; q] [] r)).
    rewrite N.eqb_refl. simpl andb.
    destruct r as [|y r]; [by rewrite replace_from_equation_1|].
    simpl in Hr. destruct (N.eqb_spec q y) as [->|Hy]; [done|].
    rewrite replace_from_not_head by done. simpl.
    by destruct (N.eqb_spec q y).
  - intros _. rewrite replace_from_not_head by done. simpl.
    by destruct (N.eqb_spec q x).
Qed.

(** No marker is left once the markers are removed from left to right. *)
Lemma replace_from_no_marker (s : str) :
  contains [q; q; q] (replace_from [q; q; q] [] s) = false.
Proof.
  assert (H : forall n s, length s <= n ->
            contains [q; q; q] (replace_from [q; q; q] [] s) = false);
    [|by apply (H (length s))].
  clear s. induction n as [|n IH]; intros [|c s] Hn; simpl in Hn; try lia.
  1,2: by rewrite replace_from_equation_1.
  rewrite replace_from_cons.
  destruct (startswith [q; q; q] (c :: s)) eqn:Hst.
  - simpl app. apply IH. rewrite length_drop. simpl. lia.
  - change (contains [q; q; q] (c :: replace_from [q; q; q] [] s))
      with (startswith [q; q; q] (c :: replace_from [q; q; q] [] s)
            || contains [q; q; q] (replace_from [q; q; q] [] s)).
    rewrite IH by lia. rewrite orb_false_r.
    change (startswith [q; q; q] (c :: replace_from [q; q; q] [] s))
      with ((q =? c)%N && startswith [q; q] (replace_from [q; q; q] [] s)).
    change (startswith [q; q; q] (c :: s))
      with ((q =? c)%N && startswith [q; q] s) in Hst.
    destruct (q =? c)%N; [|done]. simpl in *. by apply replace_from_no_pair.
Qed.

Lemma startswith_take (p s : str) (n : nat) :
  startswith p (take n s) = true -> startswith p s = true.
Proof.
  revert s n. induction p as [|a p IH]; intros s n; [done|].
  destruct s as [|c s], n as [|n]; simpl; try done.
  intros [-> H]%andb_prop. simpl. by apply (IH s n).
Qed.

Lemma contains_take (p s : str) (n : nat) :
  contains p s = false -> contains p (take n s) = false.
Proof.
  revert n. induction s as [|c s IH]; intros n.
  - by rewrite take_nil.
  - destruct n as [|n]; simpl.
    + intros [H _]%orb_false_elim. destruct p; [done|]. done.
    + intros [H1 H2]%orb_false_elim. rewrite (IH n H2), orb_false_r.
      destruct (startswith p (c :: take n s)) eqn:Hst; [|done].
      apply (startswith_take p (c :: s) (S n)) in Hst. congruence.
Qed.

(** Characters other than [q] after a text bring no marker. *)
Lemma startswith_app_other (p s t : str) :
  Forall (fun c => c ∉ p) t -> startswith p (s ++ t) = startswith p s.
Proof.
  intros Ht. revert s. induction p as [|a p IH]; intros s; [by destruct s|].
  destruct s as [|c s]; simpl.
  - destruct Ht as [|c t Hc _]; [done|]. simpl.
    destruct (N.eqb_spec a c) as [->|]; [|done]. exfalso. apply Hc. by left.
  - rewrite IH; [done|]. eapply Forall_impl; [exact Ht|].
    intros x Hx Hin. apply Hx. by right.
Qed.

Lemma contains_app_other (s t : str) :
  Forall (fun c => c <> q) t ->
  contains [q; q; q] (s ++ t) = contains [q; q; q] s.
Proof.
  intros Ht.
  assert (Ht' : Forall (fun c => c ∉ [q; q; q]) t).
  { eapply Forall_impl; [exact Ht|]. intros x Hx Hin.
    repeat (apply elem_of_cons in Hin as [->|Hin]; [done|]).
    by apply elem_of_nil in Hin. }
  induction s as [|c s IH].
  - simpl app. clear Ht'. induction Ht as [|c t Hc _ IH]; [done|].
    change (contains [q; q; q] (c :: t))
      with ((q =? c)%N && startswith [q; q] t || contains [q; q; q] t).
    rewrite IH. destruct (N.eqb_spec q c); [congruence | done].
  - change (contains [q; q; q] ((c :: s) ++ t))
      with (startswith [q; q; q] ((c :: s) ++ t) || contains [q; q; q] (s ++ t)).
    by rewrite startswith_app_other, IH.
Qed.

End MarkerRemoval.

(** ** The words of the specification *)

Section SpecificationWords.

Lemma contains_holds (m s : str) : contains m s = true <-> holds m s.
Proof.
  induction s as [|c s IH].
  - simpl. rewrite orb_false_r. split.
    + destruct m; [|done]. intros _. by exists [], [].
    + intros (a & b & H). symmetry in H.
      apply app_eq_nil in H as [_ [-> _]%app_eq_nil]. done.
  - change (contains m (c :: s)) with (startswith m (c :: s) || contains m s).
    rewrite orb_true_iff, IH. split.
    + intros [[r Hr]%startswith_split|(a & b & ->)].
      * exists [], r. by rewrite Hr.
      * by exists (c :: a), b.
    + intros ([|x a] & b & H); simpl in H.
      * left. rewrite H. apply startswith_app.
      * right. injection H as _ ->. by exists a, b.
Qed.

Lemma has_marker_marked (line : str) : has_marker line = true <-> marked line.
Proof.
  unfold has_marker, marked. by rewrite orb_true_iff, !contains_holds.
Qed.

Lemma has_marker_unmarked (line : str) :
  has_marker line = false <-> ~ marked line.
Proof.
  rewrite <- has_marker_marked. by destruct (has_marker line).
Qed.

Lemma isspace_whitespace (c : char) : isspace c = true <-> c ∈ whitespace.
Proof.
  split.
  - intros H. destruct (decide (c ∈ whitespace)) as [|Hn]; [done|]. exfalso.
    unfold whitespace in Hn. rewrite !not_elem_of_cons in Hn.
    unfold isspace in H.
    rewrite !orb_true_iff, !andb_true_iff, !N.leb_le, !N.eqb_eq in H. lia.
  - unfold whitespace. rewrite !elem_of_cons.
    intros H. repeat (destruct H as [->|H]; [reflexivity|]).
    by apply elem_of_nil in H.
Qed.

Lemma blank_padding (w : str) : blank w <-> padding w.
Proof.
  unfold blank, padding. apply Forall_iff. intros c. apply isspace_whitespace.
Qed.

Lemma isspace_not_whitespace (c : char) : isspace c = false <-> c ∉ whitespace.
Proof.
  rewrite <- isspace_whitespace. by destruct (isspace c).
Qed.

(** The first line that [find] meets is the first line with a marker. *)
Lemma find_first_marked (lines : list str) (line : str) :
  List.find has_marker lines = Some line -> first_marked lines line.
Proof.
  induction lines as [|l lines IH]; [done|]. simpl.
  destruct (has_marker l) eqn:Hl.
  - intros [= ->]. exists [], lines. split_and!; [done| |constructor].
    by apply has_marker_marked.
  - intros (before & after & -> & Hm & Hb)%IH. exists (l :: before), after.
    split_and!; [done..|]. constructor; [|done]. by apply has_marker_unmarked.
Qed.

Lemma first_marked_unique (lines : list str) (line line' : str) :
  first_marked lines line -> first_marked lines line' -> line = line'.
Proof.
  intros (b & a & -> & Hm & Hb) (b' & a' & Heq & Hm' & Hb').
  revert b' Heq Hb'. induction b as [|x b IH]; intros [|x' b'] Heq Hb'.
  - by injection Heq.
  - injection Heq as -> _. by apply Forall_cons_1 in Hb' as [? _].
  - injection Heq as -> _. by apply Forall_cons_1 in Hb as [? _].
  - injection Heq as -> Heq. apply Forall_cons_1 in Hb as [_ Hb].
    apply Forall_cons_1 in Hb' as [_ Hb']. by apply (IH Hb b').
Qed.

Variables (a : char) (p : str).

(** Removing the occurrences of a marker is what [replace] does with an
    empty replacement, and nothing else. *)
Lemma erased_replace_from (s : str) :
  erased (a :: p) s (replace_from (a :: p) [] s).
Proof.
  assert (H : forall n s, length s <= n ->
            erased (a :: p) s (replace_from (a :: p) [] s));
    [|by apply (H (length s))].
  clear s. induction n as [|n IH]; intros [|c s] Hn; simpl in Hn; try lia.
  1,2: rewrite replace_from_equation_1; constructor.
  rewrite replace_from_cons. destruct (startswith (a :: p) (c :: s)) eqn:Hst.
  - apply startswith_split in Hst as [r Hr]. simpl in Hr.
    injection Hr as -> ->. simpl. rewrite drop_app_length.
    apply (erased_occurrence (a :: p)). apply IH.
    rewrite length_app in Hn. lia.
  - apply erased_char; [|apply IH; lia].
    intros r Hr. rewrite Hr, startswith_app in Hst. done.
Qed.

Lemma erased_unique (s t : str) :
  erased (a :: p) s t -> t = replace_from (a :: p) [] s.
Proof.
  remember (a :: p) as m eqn:Hm. induction 1 as [|s t _ IH|c s t Hc _ IH].
  - by rewrite replace_from_equation_1.
  - subst m. simpl. rewrite replace_from_cons.
    change (a :: p ++ s) with ((a :: p) ++ s). rewrite startswith_app.
    simpl. rewrite drop_app_length. by apply IH.
  - rewrite replace_from_cons.
    destruct (startswith m (c :: s)) eqn:Hst.
    + apply startswith_split in Hst as [r Hr]. by destruct (Hc r).
    + f_equal. by apply IH.
Qed.

End SpecificationWords.

Lemma lstrip_head (s : str) (c : char) (r : str) :
  lstrip s = c :: r -> isspace c = false.
Proof.
  induction s as [|x s IH]; [done|]. simpl.
  destruct (isspace x) eqn:Hx; [done|]. by intros [= <- _].
Qed.

(** The last character of a stripped string is no whitespace. *)
Lemma strip_last (s r : str) (c : char) :
  strip s = r ++ [c] -> isspace c = false.
Proof.
  unfold strip, rstrip. intros H.
  apply (f_equal (@rev N)) in H. rewrite rev_involutive, rev_app_distr in H.
  simpl in H. by apply lstrip_head in H.
Qed.

Lemma strip_solid_ends (t : str) :
  (forall c r, t = c :: r -> isspace c = false) ->
  (forall r c, t = r ++ [c] -> isspace c = false) ->
  strip t = t.
Proof.
  intros Hhead Hlast. destruct t as [|c r]; [done|].
  unfold strip. rewrite lstrip_solid_head by by apply (Hhead c r).
  destruct (exists_last (l := c :: r)) as (r' & c' & Hr); [done|].
  rewrite Hr. apply rstrip_solid_last. by apply (Hlast r' c').
Qed.

(** Stripping is removing the surrounding whitespace, and nothing else. *)
Lemma trimmed_strip (s : str) : trimmed s (strip s).
Proof.
  destruct (strip_decompose s) as (w1 & w2 & H1 & H2 & Hs).
  exists w1, w2. split_and!; [done | by apply blank_padding..| |].
  - intros c r Hr. apply isspace_not_whitespace. by apply (strip_head s c r).
  - intros r c Hr. apply isspace_not_whitespace. by apply (strip_last s r c).
Qed.

Lemma trimmed_unique (s t : str) : trimmed s t -> t = strip s.
Proof.
  intros (w1 & w2 & -> & H1 & H2 & Hhead & Hlast).
  rewrite strip_blank_app by by apply blank_padding.
  symmetry. apply strip_solid_ends.
  - intros c r Hr. apply isspace_not_whitespace. by apply (Hhead c r).
  - intros r c Hr. apply isspace_not_whitespace. by apply (Hlast r c).
Qed.

(** What the code computes from a line is the line with the quote markers
    and the surrounding whitespace stripped, and nothing else is. *)
Lemma stripped_of_markers_unquoted (line : str) :
  stripped_of_markers line (unquoted line).
Proof.
  exists (replace_from triple_dquote [] line),
         (replace_from triple_squote [] (replace_from triple_dquote [] line)).
  split_and!; [apply erased_replace_from.. | apply trimmed_strip].
Qed.

Lemma stripped_of_markers_unique (line desc : str) :
  stripped_of_markers line desc -> desc = unquoted line.
Proof.
  intros (s1 & s2 & ->%erased_unique & ->%erased_unique & ->%trimmed_unique).
  done.
Qed.

(** ** A docstring on one line *)

Section OnePass.

Variable q : char.

Lemma replace_from_others (b s : str) :
  Forall (fun c => c <> q) b ->
  replace_from [q; q; q] [] (b ++ s) = b ++ replace_from [q; q; q] [] s.
Proof.
  induction 1 as [|c b Hc _ IH]; [done|]. simpl app.
  rewrite replace_from_not_head by done. by rewrite IH.
Qed.

Lemma replace_from_marker (s : str) :
  replace_from [q; q; q] [] ([q; q; q] ++ s) = replace_from [q; q; q] [] s.
Proof.
  change ([q; q; q] ++ s) with (q :: [q; q] ++ s). rewrite replace_from_cons.
  change (q :: [q; q] ++ s) with ([q; q; q] ++ s). by rewrite startswith_app.
Qed.

Lemma replace_from_part (m s : str) :
  part q m ->
  replace_from [q; q; q] [] (m ++ s) = kept q m ++ replace_from [q; q; q] [] s.
Proof.
  unfold kept. intros [->|Hm].
  - rewrite decide_True by done. apply replace_from_marker.
  - rewrite decide_False; [by apply replace_from_others|].
    intros ->. by apply Forall_cons_1 in Hm as [? _].
Qed.

Lemma replace_from_parts (w1 m body m' w2 : str) :
  part q w1 -> part q m -> part q body -> part q m' -> part q w2 ->
  replace_from [q; q; q] [] (w1 ++ m ++ body ++ m' ++ w2)
  = kept q w1 ++ kept q m ++ kept q body ++ kept q m' ++ kept q w2.
Proof.
  intros H1 H2 H3 H4 H5. rewrite <- (app_nil_r w2) at 1.
  rewrite !replace_from_part by done.
  by rewrite replace_from_equation_1, app_nil_r.
Qed.

End OnePass.

Lemma padding_no_quote (q : char) (w : str) :
  q = dquote \/ q = squote -> padding w -> Forall (fun c => c <> q) w.
Proof.
  intros Hq Hw. eapply Forall_impl; [exact Hw|]. intros c Hc ->.
  unfold whitespace in Hc. rewrite !elem_of_cons in Hc.
  destruct Hq as [->| ->];
    repeat (destruct Hc as [Hc|Hc]; [discriminate Hc|]);
    by apply elem_of_nil in Hc.
Qed.

(** A line made of a marker, a text without quote characters and a
    marker, with whitespace around them, gives that text. *)
Lemma unquoted_docstring_line (w1 m body m' w2 : str) :
  quote_marker m -> quote_marker m' -> padding w1 -> padding w2 ->
  quote_free body ->
  unquoted (w1 ++ m ++ body ++ m' ++ w2) = strip body.
Proof.
  intros Hm Hm' H1 H2 Hb.
  assert (Hbd : Forall (fun c => c <> dquote) body)
    by (eapply Forall_impl; [exact Hb|]; by intros c [? _]).
  assert (Hbs : Forall (fun c => c <> squote) body)
    by (eapply Forall_impl; [exact Hb|]; by intros c [_ ?]).
  pose proof (padding_no_quote dquote w1 (or_introl eq_refl) H1) as H1d.
  pose proof (padding_no_quote squote w1 (or_intror eq_refl) H1) as H1s.
  pose proof (padding_no_quote dquote w2 (or_introl eq_refl) H2) as H2d.
  pose proof (padding_no_quote squote w2 (or_intror eq_refl) H2) as H2s.
  assert (Hkeep : forall (q : char) (x : str),
             Forall (fun c => c <> q) x -> x <> [q; q; q] -> kept q x = x).
  { intros q x _ Hx. unfold kept. by rewrite decide_False. }
  assert (Hdrop : forall q : char, kept q [q; q; q] = []).
  { intros q. unfold kept. by rewrite decide_True. }
  assert (Hnil : forall q : char, kept q [] = []).
  { intros q. unfold kept. by rewrite decide_False. }
  assert (Hrest :
            replace_from triple_squote []
              (replace_from triple_dquote [] (w1 ++ m ++ body ++ m' ++ w2))
            = w1 ++ body ++ w2).
  { unfold triple_dquote, triple_squote in *.
    assert (Hw : forall (q : char) (w : str),
               Forall (fun c => c <> q) w -> kept q w = w).
    { intros q w Hw. unfold kept. rewrite decide_False; [done|].
      intros ->. by apply Forall_cons_1 in Hw as [? _]. }
    destruct Hm as [->| ->], Hm' as [->| ->];
      rewrite (replace_from_parts dquote)
        by (first [by left | by right | right; by repeat constructor]);
      rewrite ?Hdrop, ?Hnil; rewrite !Hw by (done || by repeat constructor);
      rewrite (replace_from_parts squote)
        by (first [by left | by right | right; by repeat constructor]);
      rewrite ?Hdrop, ?Hnil; rewrite !Hw by done; reflexivity. }
  change (unquoted (w1 ++ m ++ body ++ m' ++ w2))
    with (strip (replace_from triple_squote []
                   (replace_from triple_dquote []
                      (w1 ++ m ++ body ++ m' ++ w2)))).
  rewrite Hrest.
  by rewrite strip_blank_app by by apply blank_padding.
Qed.

(** A text is cut at its newlines. *)
Lemma split_no_sep (sep : char) (l : str) : sep ∉ l -> split sep l = [l].
Proof.
  induction l as [|c l IH]; [done|].
  intros [Hne Hl]%not_elem_of_cons. simpl. rewrite IH by done.
  destruct (N.eqb_spec c sep); [congruence | done].
Qed.

Lemma split_join (sep : char) (lines : list str) :
  lines <> [] -> Forall (fun l => sep ∉ l) lines ->
  split sep (join sep lines) = lines.
Proof.
  intros Hne Hl. induction Hl as [|l lines Hl _ IH]; [done|].
  destruct lines as [|l2 lines]; [by apply split_no_sep|].
  change (join sep (l :: l2 :: lines)) with (l ++ sep :: join sep (l2 :: lines)).
  rewrite split_first_line by done. by rewrite IH.
Qed.

Lemma join_split (sep : char) (s : str) : join sep (split sep s) = s.
Proof.
  induction s as [|c s IH]; [done|]. simpl.
  destruct (N.eqb_spec c sep) as [->|Hne].
  - pose proof (split_nonempty sep s) as Hs.
    destruct (split sep s) as [|l ls] eqn:Heq; [done|].
    change (join sep ([] :: l :: ls)) with ([] ++ sep :: join sep (l :: ls)).
    by rewrite IH.
  - destruct (split sep s) as [|l ls] eqn:Heq.
    + by destruct (split_nonempty sep s).
    + destruct ls as [|l2 ls]; simpl in *; by rewrite <- IH.
Qed.

Lemma split_no_newline (sep : char) (s : str) :
  Forall (fun l => sep ∉ l) (split sep s).
Proof.
  induction s as [|c s IH]; simpl.
  - constructor; [|constructor]. apply not_elem_of_nil.
  - destruct (N.eqb_spec c sep) as [->|Hne].
    + constructor; [apply not_elem_of_nil | done].
    + destruct (split sep s) as [|l ls]; [|apply Forall_cons_1 in IH as [Hl Hls]].
      * constructor; [|constructor].
        intros [?|?%elem_of_nil]%elem_of_cons; done.
      * constructor; [|done]. intros [?|?]%elem_of_cons; done.
Qed.

(** C2: when one of the first five lines of a text has a triple-quote
    marker, the resolver answers from the first such line, and its answer is
    that line with the quote markers and the surrounding whitespace
    stripped: unchanged when this has at most 40 characters, and otherwise
    its first 40 characters followed by the three characters of the
    ellipsis. The text is given by its lines; nothing else than the
    stripped line fits its description, and for a line made of a marker, a
    text without quote characters and a marker, with whitespace around
    them, it is that text without the whitespace that surrounds it. *)
Theorem docstring_description (lines : list str) (module_name l : str) :
  lines <> [] -> Forall (fun x => 10%N ∉ x) lines ->
  l ∈ take 5 lines -> marked l ->
  exists line desc,
    first_marked (take 5 lines) line /\
    stripped_of_markers line desc /\
    (forall d, stripped_of_markers line d -> d = desc) /\
    (forall w1 m body m' w2,
       line = w1 ++ m ++ body ++ m' ++ w2 ->
       padding w1 -> quote_marker m -> quote_free body -> quote_marker m' ->
       padding w2 ->
       trimmed body desc) /\
    (length desc <= 40 ->
     get_module_description (join 10 lines) module_name = desc) /\
    (40 < length desc ->
     get_module_description (join 10 lines) module_name
     = take 40 desc ++ py "..." /\
     length (get_module_description (join 10 lines) module_name) = 43).
Proof.
  intros Hne Hnl Hin Hm.
  assert (Hlines : first_lines (join 10 lines) = take 5 lines).
  { unfold first_lines. by rewrite split_join. }
  assert (Hex : exists line, marker_line (join 10 lines) = Some line).
  { apply (marker_line_exists _ l); [by rewrite Hlines|].
    by apply has_marker_marked. }
  destruct Hex as [line Hline]. exists line, (unquoted line).
  split_and!.
  - unfold marker_line in Hline. rewrite Hlines in Hline.
    by apply find_first_marked.
  - apply stripped_of_markers_unquoted.
  - intros d. apply stripped_of_markers_unique.
  - intros w1 m body m' w2 -> H1 H2 Hb H3 H4.
    rewrite unquoted_docstring_line by done. apply trimmed_strip.
  - intros Hlen. rewrite (description_of_marker_line _ _ _ Hline).
    unfold shorten. by destruct (Nat.ltb_spec 40 (length (unquoted line))); [lia|].
  - intros Hlen. rewrite (description_of_marker_line _ _ _ Hline).
    unfold shorten. destruct (Nat.ltb_spec 40 (length (unquoted line))); [|lia].
    split; [done|]. rewrite length_app, length_take.
    change (length (py "...")) with 3. lia.
Qed.



(** ** The traversal of a tree *)

Section Walk.

Lemma walk_queue_subnodes (todo : list node) :
  walk_queue todo ≡ₚ flat_map subnodes todo.
Proof.
  funelim (walk_queue todo); simp walk_queue; [done|].
  match goal with IH : walk_queue _ ≡ₚ _ |- _ => rewrite IH end.
  destruct n as [k cs]. simpl. constructor.
  rewrite flat_map_app. apply Permutation_app_comm.
Qed.

(** [ast.walk] yields every node of the tree once. *)
Lemma walk_subnodes (tree : node) : walk tree ≡ₚ subnodes tree.
Proof.
  unfold walk. rewrite walk_queue_subnodes. simpl. by rewrite app_nil_r.
Qed.

End Walk.

Example walk_sample :
  omap function_name (walk sample_tree)
  = [py "g"; py "k"; py "z"; py "m"; py "h"].
Proof. by vm_compute. Qed.

(** ** The order of the traversal *)

Section Levels.

(** The queue is yielded before the children of its nodes. *)
Lemma walk_queue_levels (todo later : list node) :
  walk_queue (todo ++ later)
  = todo ++ walk_queue (later ++ flat_map children todo).
Proof.
  revert later. induction todo as [|n todo IH]; intros later.
  - simpl. by rewrite app_nil_r.
  - simpl app. rewrite walk_queue_equation_2, <- app_assoc, IH.
    simpl. by rewrite <- app_assoc.
Qed.

(** [ast.walk] yields the root, then its children, then the rest. *)
Lemma walk_levels (tree : node) :
  walk tree
  = tree :: children tree ++ walk_queue (flat_map children (children tree)).
Proof.
  unfold walk. rewrite <- (app_nil_r [tree]), walk_queue_levels. simpl.
  rewrite app_nil_r. f_equal.
  rewrite <- (app_nil_r (children tree)) at 1.
  by rewrite walk_queue_levels.
Qed.

Lemma flat_map_flat_map {A B C : Type} (f : A -> list B) (g : B -> list C)
    (l : list A) :
  flat_map g (flat_map f l) = flat_map (fun x => flat_map g (f x)) l.
Proof.
  induction l as [|x l IH]; [done|]. simpl. by rewrite flat_map_app, IH.
Qed.

Lemma flat_map_singleton {A : Type} (l : list A) :
  flat_map (fun x => [x]) l = l.
Proof. induction l as [|x l IH]; [done|]. simpl. by rewrite IH. Qed.

Lemma flat_map_fmap {A B C : Type} (f : A -> B) (g : B -> list C) (l : list A) :
  flat_map g (f <$> l) = flat_map (fun x => g (f x)) l.
Proof. induction l as [|x l IH]; [done|]. simpl. f_equal. exact IH. Qed.

(** The nodes at a depth below a queue are the nodes one level higher
    below the children of the queue. *)
Lemma at_depth_children (d : nat) (todo : list node) :
  flat_map (at_depth (S d)) todo
  = flat_map (at_depth d) (flat_map children todo).
Proof. by rewrite flat_map_flat_map. Qed.

Lemma height_positive (n : node) : 0 < height n.
Proof. destruct n. simpl. lia. Qed.

Lemma max_height_app (l1 l2 : list node) :
  max_list_with height (l1 ++ l2)
  = max_list_with height l1 `max` max_list_with height l2.
Proof. induction l1 as [|n l1 IH]; simpl; [done|]. rewrite IH. lia. Qed.

Lemma max_height_children (todo : list node) (h : nat) :
  max_list_with height todo <= S h ->
  max_list_with height (flat_map children todo) <= h.
Proof.
  induction todo as [|[k cs] todo IH]; simpl; [lia|].
  intros H. rewrite max_height_app. apply Nat.max_lub; [lia|]. apply IH. lia.
Qed.

(** The queue of [ast.walk] is emptied level by level. *)
Lemma walk_queue_by_depth (h : nat) (todo : list node) :
  max_list_with height todo <= h ->
  walk_queue todo
  = flat_map (fun d => flat_map (at_depth d) todo) (seq 0 h).
Proof.
  revert todo. induction h as [|h IH]; intros todo Hh.
  - destruct todo as [|n todo]; [by simp walk_queue|].
    pose proof (height_positive n). simpl in Hh. lia.
  - rewrite <- (app_nil_r todo) at 1. rewrite walk_queue_levels. simpl app.
    rewrite (IH _ (max_height_children _ _ Hh)).
    change (seq 0 (S h)) with (0 :: seq 1 h). rewrite <- fmap_S_seq.
    change (flat_map ?F (0 :: ?l)) with (F 0 ++ flat_map F l). cbv beta.
    change (flat_map (at_depth 0) todo) with (flat_map (fun n => [n]) todo).
    rewrite flat_map_singleton. f_equal.
    rewrite flat_map_fmap. apply flat_map_ext. intros d.
    symmetry. apply at_depth_children.
Qed.

(** [ast.walk] yields the nodes of the tree level by level. *)
Lemma walk_by_depth (tree : node) : walk tree = by_depth tree.
Proof.
  unfold walk, by_depth.
  rewrite (walk_queue_by_depth (height tree)) by (simpl; lia).
  apply flat_map_ext. intros d. simpl. by rewrite app_nil_r.
Qed.

Lemma by_depth_subnodes (tree : node) : by_depth tree ≡ₚ subnodes tree.
Proof. rewrite <- walk_by_depth. apply walk_subnodes. Qed.

(** The comprehensions of the scanner keep the names of the [def] nodes and
    of the [class] nodes. *)
Lemma omap_function_name (nodes : list node) :
  omap function_name nodes = def_names nodes.
Proof.
  induction nodes as [|n nodes IH]; [done|].
  change (def_names (n :: nodes))
    with (match n with
          | Node (FunctionDef y) _ => [y]
          | _ => []
          end ++ def_names nodes).
  rewrite <- IH. by destruct n as [[x|x|x|] cs].
Qed.

Lemma omap_class_name (nodes : list node) :
  omap class_name nodes = class_names nodes.
Proof.
  induction nodes as [|n nodes IH]; [done|].
  change (class_names (n :: nodes))
    with (match n with
          | Node (ClassDef y) _ => [y]
          | _ => []
          end ++ class_names nodes).
  rewrite <- IH. by destruct n as [[x|x|x|] cs].
Qed.

Lemma elem_of_def_names (x : str) (nodes : list node) :
  x ∈ def_names nodes <-> exists n, n ∈ nodes /\ kind n = FunctionDef x.
Proof.
  induction nodes as [|n nodes IH].
  - split; [by intros ?%elem_of_nil | by intros (? & ?%elem_of_nil & _)].
  - change (def_names (n :: nodes))
      with (match n with
            | Node (FunctionDef y) _ => [y]
            | _ => []
            end ++ def_names nodes).
    rewrite elem_of_app, IH. split.
    + intros [Hx|(m & Hm & Hk)].
      * exists n. split; [by left|]. destruct n as [[y|y|y|] cs];
          try (by apply elem_of_nil in Hx).
        by apply list_elem_of_singleton in Hx as ->.
      * exists m. split; [by right | done].
    + intros (m & [->|Hm]%elem_of_cons & Hk).
      * left. destruct n as [k cs]. simpl in Hk. subst k. by left.
      * right. by exists m.
Qed.

Lemma elem_of_class_names (x : str) (nodes : list node) :
  x ∈ class_names nodes <-> exists n, n ∈ nodes /\ kind n = ClassDef x.
Proof.
  induction nodes as [|n nodes IH].
  - split; [by intros ?%elem_of_nil | by intros (? & ?%elem_of_nil & _)].
  - change (class_names (n :: nodes))
      with (match n with
            | Node (ClassDef y) _ => [y]
            | _ => []
            end ++ class_names nodes).
    rewrite elem_of_app, IH. split.
    + intros [Hx|(m & Hm & Hk)].
      * exists n. split; [by left|]. destruct n as [[y|y|y|] cs];
          try (by apply elem_of_nil in Hx).
        by apply list_elem_of_singleton in Hx as ->.
      * exists m. split; [by right | done].
    + intros (m & [->|Hm]%elem_of_cons & Hk).
      * left. destruct n as [k cs]. simpl in Hk. subst k. by left.
      * right. by exists m.
Qed.

End Levels.

Example by_depth_sample :
  def_names (by_depth sample_tree) = [py "g"; py "k"; py "z"; py "m"; py "h"] /\
  class_names (by_depth sample_tree) = [py "C"] /\
  async_def_names (by_depth sample_tree) = [py "a"].
Proof. by vm_compute. Qed.

(** ** Printing *)

Section Printing.

Variable pf : platform.

Lemma stdout_accepts_app (l1 l2 : str) :
  stdout_accepts pf (l1 ++ l2) = stdout_accepts pf l1 && stdout_accepts pf l2.
Proof. apply forallb_app. Qed.

(** A line of ASCII characters is printed on every standard output. *)
Lemma stdout_accepts_ascii (line : str) :
  Forall (fun c => (c < 128)%N) line -> stdout_accepts pf line = true.
Proof.
  induction 1 as [|c line Hc _ IH]; [done|]. simpl.
  rewrite IH, andb_true_r. apply orb_true_iff. left. by apply N.ltb_lt.
Qed.

Lemma emit_accepted (lines out : list str) :
  accepted pf lines -> emit pf lines out = (None, out ++ lines).
Proof.
  intros H. revert out. induction H as [|l lines Hl _ IH]; intros out; simpl.
  - by rewrite app_nil_r.
  - rewrite Hl, IH. by rewrite <- app_assoc.
Qed.

Lemma emit_refused (before : list str) (l : str) (after out : list str) :
  accepted pf before -> stdout_accepts pf l = false ->
  emit pf (before ++ l :: after) out = (Some (encode_error pf l), out ++ before).
Proof.
  intros H Hl. revert out. induction H as [|x before Hx _ IH]; intros out; simpl.
  - by rewrite Hl, app_nil_r.
  - rewrite Hx, IH. by rewrite <- app_assoc.
Qed.

(** Where the printing stops. *)
Lemma emit_cases (lines : list str) :
  accepted pf lines \/
  exists before l after,
    lines = before ++ l :: after /\ accepted pf before /\
    stdout_accepts pf l = false.
Proof.
  induction lines as [|x lines [IH|(before & l & after & -> & Hb & Hl)]].
  - left. constructor.
  - destruct (stdout_accepts pf x) eqn:Hx.
    + left. by constructor.
    + right. exists [], x, lines. split_and!; [done | constructor | done].
  - destruct (stdout_accepts pf x) eqn:Hx.
    + right. exists (x :: before), l, after.
      split_and!; [done | by constructor | done].
    + right. exists [], x, (before ++ l :: after).
      split_and!; [done | constructor | done].
Qed.

Lemma after_printing_accepted {A : Type} (lines out : list str) (a : A) :
  accepted pf lines -> after_printing pf lines out a = (Ok a, out ++ lines).
Proof. intros H. unfold after_printing. by rewrite emit_accepted. Qed.

Lemma after_printing_refused {A : Type} (before : list str) (l : str)
    (after out : list str) (a : A) :
  accepted pf before -> stdout_accepts pf l = false ->
  after_printing pf (before ++ l :: after) out a
  = (Raise (encode_error pf l), out ++ before).
Proof. intros H Hl. unfold after_printing. by rewrite emit_refused. Qed.

Lemma after_printing_nil {A : Type} (out : list str) (a : A) :
  after_printing pf [] out a = (Ok a, out).
Proof. done. Qed.

Lemma after_printing_cons {A : Type} (l : str) (lines out : list str) (a : A) :
  after_printing pf (l :: lines) out a
  = if stdout_accepts pf l then after_printing pf lines (out ++ [l]) a
    else (Raise (encode_error pf l), out).
Proof. unfold after_printing. simpl. by destruct (stdout_accepts pf l). Qed.

(** A computation that returns has printed all its lines. *)
Lemma after_printing_ok {A : Type} (lines out out' : list str) (a b : A) :
  after_printing pf lines out a = (Ok b, out') ->
  b = a /\ out' = out ++ lines /\ accepted pf lines.
Proof.
  destruct (emit_cases lines) as [H|(before & l & after & -> & Hb & Hl)].
  - rewrite after_printing_accepted by done. by intros [= <- <-].
  - by rewrite after_printing_refused.
Qed.

Lemma run_print (line : str) (out : list str) :
  run (print pf line) out = after_printing pf [line] out tt.
Proof.
  rewrite after_printing_cons. simpl. by destruct (stdout_accepts pf line).
Qed.

End Printing.

(** ** Running the scanner *)

Section ScannerLemmas.

Variable ast_parse : str -> result node.
Variable pf : platform.

Lemma run_bind {A B : Type} (m : io A) (k : A -> io B) (out : list str) :
  run (m ≫= k) out
  = match run m out with
    | (Ok a, out') => run (k a) out'
    | (Raise e, out') => (Raise e, out')
    end.
Proof. done. Qed.

Lemma run_scan_file (src_dir : str) (modules : gmap str ModuleInfo)
    (f : dir_entry) (out : list str) :
  run (scan_file ast_parse pf src_dir modules f) out
  = after_printing pf (option_list (warning_of ast_parse src_dir f)) out
      (from_option (store modules) modules (scanned ast_parse f)).
Proof.
  unfold scan_file, scanned, warning_of, failure, excluded, analyze_file.
  destruct (startswith (py "__") (name f)); simpl; [done|].
  destruct (contents f) as [content|e]; simpl.
  - destruct (ast_parse content) as [tree|e]; simpl; [done|].
    rewrite after_printing_cons. unfold warning. simpl.
    by destruct (stdout_accepts pf _).
  - rewrite after_printing_cons. unfold warning. simpl.
    by destruct (stdout_accepts pf _).
Qed.

Lemma run_for_each_scan (src_dir : str) (files : list dir_entry)
    (modules : gmap str ModuleInfo) (out : list str) :
  run (for_each (scan_file ast_parse pf src_dir) files modules) out
  = after_printing pf (omap (warning_of ast_parse src_dir) files) out
      (foldl store modules (omap (scanned ast_parse) files)).
Proof.
  revert modules out. induction files as [|f files IH]; intros modules out.
  - done.
  - change (run (for_each (scan_file ast_parse pf src_dir) (f :: files) modules) out)
      with (match run (scan_file ast_parse pf src_dir modules f) out with
            | (Ok a, out') =>
                run (for_each (scan_file ast_parse pf src_dir) files a) out'
            | (Raise e, out') => (Raise e, out')
            end).
    rewrite run_scan_file. cbn [omap list_omap].
    destruct (warning_of ast_parse src_dir f) as [w|]; simpl option_list.
    + rewrite !after_printing_cons.
      destruct (stdout_accepts pf w); [|done].
      rewrite after_printing_nil, IH.
      by destruct (scanned ast_parse f).
    + rewrite after_printing_nil, IH. by destruct (scanned ast_parse f).
Qed.

Lemma path_exists_found (fs : filesystem) (src_dir : str) :
  path_exists pf fs src_dir = Ok true <-> is_Some (fs !! src_dir).
Proof.
  unfold path_exists. destruct (fs !! src_dir).
  - split; [eauto | done].
  - split; [|by intros []]. by destruct (stat_error pf src_dir).
Qed.

Lemma path_exists_missing (fs : filesystem) (src_dir : str) :
  path_exists pf fs src_dir = Ok false
  <-> fs !! src_dir = None /\ stat_error pf src_dir = None.
Proof.
  unfold path_exists. destruct (fs !! src_dir).
  - split; [done | by intros []].
  - destruct (stat_error pf src_dir); split; try done; by intros [].
Qed.

Lemma run_analyze_codebase (fs : filesystem) (src_dir : str) (out : list str) :
  is_Some (fs !! src_dir) ->
  run (analyze_codebase ast_parse pf fs src_dir) out
  = after_printing pf
      (omap (warning_of ast_parse src_dir) (py_files fs src_dir)) out
      (foldl store ∅ (omap (scanned ast_parse) (py_files fs src_dir))).
Proof.
  intros H%path_exists_found. unfold analyze_codebase.
  rewrite run_bind, H. simpl. apply run_for_each_scan.
Qed.

Lemma run_analyze_codebase_missing (fs : filesystem) (src_dir : str)
    (out : list str) :
  fs !! src_dir = None ->
  run (analyze_codebase ast_parse pf fs src_dir) out
  = match stat_error pf src_dir with
    | Some e => (Raise e, out)
    | None =>
        after_printing pf
          [py "Warning: " ++ src_dir ++ py " directory not found"] out ∅
    end.
Proof.
  intros H. unfold analyze_codebase, path_exists. rewrite run_bind, H.
  destruct (stat_error pf src_dir) as [e|]; simpl; [done|].
  rewrite after_printing_cons. by destruct (stdout_accepts pf _).
Qed.

(** The mapping of a scan that returns. *)
Lemma run_analyze_codebase_ok (fs : filesystem) (src_dir : str)
    (out out' : list str) (modules : gmap str ModuleInfo) :
  run (analyze_codebase ast_parse pf fs src_dir) out = (Ok modules, out') ->
  modules = foldl store ∅ (omap (scanned ast_parse) (py_files fs src_dir)).
Proof.
  destruct (fs !! src_dir) as [entries|] eqn:Hfs.
  - rewrite run_analyze_codebase by eauto.
    by intros (-> & _)%after_printing_ok.
  - rewrite run_analyze_codebase_missing by done.
    destruct (stat_error pf src_dir); [done|].
    intros (-> & _)%after_printing_ok.
    unfold py_files, glob_suffix. by rewrite Hfs.
Qed.

End ScannerLemmas.

(** ** Storing the entries *)

Section Store.

Implicit Types (m : gmap str ModuleInfo) (l : list (str * ModuleInfo)).

Lemma lookup_foldl_store_notin m l (k : str) :
  k ∉ l.*1 -> foldl store m l !! k = m !! k.
Proof.
  revert m. induction l as [|[k' v'] l IH]; intros m Hk; [done|].
  rewrite fmap_cons, not_elem_of_cons in Hk. destruct Hk as [Hne Hk].
  simpl. rewrite IH by done. unfold store. simpl. by rewrite lookup_insert_ne.
Qed.

Lemma lookup_foldl_store_in m l (k : str) (v : ModuleInfo) :
  NoDup l.*1 -> (k, v) ∈ l -> foldl store m l !! k = Some v.
Proof.
  revert m. induction l as [|[k' v'] l IH]; intros m Hnd Hin.
  - by apply elem_of_nil in Hin.
  - rewrite fmap_cons in Hnd. apply NoDup_cons in Hnd as [Hk' Hnd].
    apply elem_of_cons in Hin as [[= -> ->]|Hin]; simpl.
    + rewrite lookup_foldl_store_notin by done. unfold store. simpl.
      by rewrite lookup_insert_eq.
    + by apply IH.
Qed.

Lemma lookup_foldl_store_inv m l (k : str) (v : ModuleInfo) :
  foldl store m l !! k = Some v -> (k, v) ∈ l \/ m !! k = Some v.
Proof.
  revert m. induction l as [|[k' v'] l IH]; intros m H; [by right|].
  simpl in H. apply IH in H as [H|H].
  - left. by right.
  - unfold store in H. simpl in H.
    destruct (decide (k' = k)) as [->|Hne].
    + rewrite lookup_insert_eq in H. injection H as ->. left. by left.
    + rewrite lookup_insert_ne in H by done. by right.
Qed.

Lemma size_foldl_store m l :
  NoDup l.*1 -> (forall k, k ∈ l.*1 -> m !! k = None) ->
  size (foldl store m l) = size m + length l.
Proof.
  revert m. induction l as [|[k v] l IH]; intros m Hnd Hm; simpl; [lia|].
  rewrite fmap_cons in Hnd. apply NoDup_cons in Hnd as [Hk Hnd].
  rewrite IH; [|done|].
  - unfold store. simpl. rewrite map_size_insert_None; [lia|].
    apply Hm. rewrite fmap_cons. by left.
  - intros k' Hk'. unfold store. simpl. rewrite lookup_insert_ne.
    + apply Hm. rewrite fmap_cons. by right.
    + intros ->. done.
Qed.

Lemma lookup_foldl_store_some m l (k : str) :
  k ∈ l.*1 -> is_Some (foldl store m l !! k).
Proof.
  revert m. induction l as [|[k' v'] l IH]; intros m Hk.
  - by apply elem_of_nil in Hk.
  - simpl. destruct (decide (k ∈ l.*1)) as [Hin|Hnotin]; [by apply IH|].
    rewrite lookup_foldl_store_notin by done.
    rewrite fmap_cons in Hk. apply elem_of_cons in Hk as [->|Hk]; [|done].
    unfold store. simpl. rewrite lookup_insert_eq. by eexists.
Qed.

(** Two stored entries with one key leave one entry. *)
Lemma size_foldl_store_le m l : size (foldl store m l) <= size m + length l.
Proof.
  revert m. induction l as [|[k v] l IH]; intros m; simpl; [lia|].
  etrans; [apply IH|]. unfold store. simpl.
  destruct (m !! k) eqn:Hk.
  - rewrite map_size_insert_Some by done. lia.
  - rewrite map_size_insert_None by done. lia.
Qed.

End Store.

(** ** Counting the files *)

Section Counting.

Variable ast_parse : str -> result node.

Lemma scanned_analysed (f : dir_entry) :
  is_Some (scanned ast_parse f) <-> analysed ast_parse f.
Proof.
  unfold scanned, analysed, failure. destruct (excluded f); simpl.
  - split; [by intros [] | done].
  - destruct (contents f) as [content|e]; simpl.
    + destruct (ast_parse content); simpl; split; try done; by intros [].
    + split; [by intros [] | done].
Qed.

Lemma scanned_key (f : dir_entry) (k : str) (info : ModuleInfo) :
  scanned ast_parse f = Some (k, info) ->
  k = stem (name f) /\ file info = py "src/" ++ name f /\
  exists content tree,
    contents f = Ok content /\ ast_parse content = Ok tree /\
    description info = get_module_description content (stem (name f)) /\
    functions info = take 3 (omap function_name (walk tree)) /\
    classes info = take 2 (omap class_name (walk tree)).
Proof.
  unfold scanned. destruct (excluded f); [done|].
  destruct (contents f) as [content|]; [|done].
  destruct (ast_parse content) as [tree|] eqn:Htree; [|done].
  intros [= <- <-]. split_and!; [done..|]. exists content, tree. by split_and!.
Qed.

Lemma scanned_keys (files : list dir_entry) :
  (omap (scanned ast_parse) files).*1
  = (stem ∘ name) <$> filter (analysed ast_parse) files.
Proof.
  induction files as [|f files IH]; [done|].
  cbn [omap list_omap]. rewrite filter_cons.
  pose proof (scanned_analysed f) as Hf.
  destruct (scanned ast_parse f) as [[k info]|] eqn:Hs.
  - rewrite decide_True by (apply Hf; eauto). rewrite !fmap_cons, IH.
    by apply scanned_key in Hs as [-> _].
  - rewrite decide_False; [done|]. intros H%Hf. by destruct H.
Qed.

(** Every [*.py] entry is left out for its name, fails, or is stored. *)
Lemma file_cases (f : dir_entry) :
  (excluded f /\ ~ invalid ast_parse f /\ scanned ast_parse f = None)
  \/ (~ excluded f /\ invalid ast_parse f /\ scanned ast_parse f = None)
  \/ (~ excluded f /\ ~ invalid ast_parse f /\ is_Some (scanned ast_parse f)).
Proof.
  unfold invalid, scanned, failure. destruct (excluded f); simpl;
    [left | right; destruct (contents f) as [content|e]; simpl;
            [destruct (ast_parse content); simpl; [right | left] | left]];
    split_and!; try done; try (by intros []); by eexists.
Qed.

Lemma files_partition (files : list dir_entry) :
  length files
  = length (omap (scanned ast_parse) files)
    + length (filter (invalid ast_parse) files)
    + length (filter excluded files).
Proof.
  induction files as [|f files IH]; [done|].
  cbn [omap list_omap]. rewrite !filter_cons.
  destruct (file_cases f) as [(? & ? & Hs)|[(? & ? & Hs)|(? & ? & [x Hs])]];
    rewrite Hs; repeat case_decide; try done; simpl; lia.
Qed.

Lemma warning_invalid (src_dir : str) (f : dir_entry) :
  is_Some (warning_of ast_parse src_dir f) <-> invalid ast_parse f.
Proof.
  unfold warning_of, invalid. destruct (excluded f); simpl.
  - split; [by intros [] | by intros []].
  - destruct (failure ast_parse f); simpl; split; try done; try (by intros []);
      by eexists.
Qed.

(** One warning is printed for each candidate file that fails. *)
Lemma warnings_length (src_dir : str) (files : list dir_entry) :
  length (omap (warning_of ast_parse src_dir) files)
  = length (filter (invalid ast_parse) files).
Proof.
  induction files as [|f files IH]; [done|].
  cbn [omap list_omap]. rewrite filter_cons.
  pose proof (warning_invalid src_dir f) as Hf.
  destruct (warning_of ast_parse src_dir f) as [w|].
  - rewrite decide_True by (apply Hf; eauto). simpl. lia.
  - rewrite decide_False; [done|]. intros H%Hf. by destruct H.
Qed.

End Counting.

(** ** Stems of module files *)

Section Stems.

Lemma endswith_split (p n : str) :
  endswith p n = true -> exists s, n = s ++ p.
Proof.
  unfold endswith. intros [r Hr]%startswith_split. exists (rev r).
  rewrite <- (rev_involutive n), Hr, rev_app_distr. by rewrite rev_involutive.
Qed.

Lemma rfind_absent (c : char) (t : str) : c ∉ t -> rfind c t = None.
Proof.
  induction t as [|a t IH]; [done|].
  intros [Hne Ht]%not_elem_of_cons. simpl. rewrite IH by done.
  destruct (N.eqb_spec a c); [congruence | done].
Qed.

Lemma rfind_last (c : char) (s t : str) :
  c ∉ t -> rfind c (s ++ c :: t) = Some (length s).
Proof.
  intros Ht. induction s as [|a s IH]; simpl.
  - by rewrite rfind_absent, N.eqb_refl.
  - by rewrite IH.
Qed.

(** The stem of a name that ends with ".py" is the name without these
    three characters, unless nothing comes before them. *)
Lemma stem_py (s : str) :
  stem (s ++ py ".py") = match s with [] => py ".py" | _ :: _ => s end.
Proof.
  unfold stem. change (py ".py") with (46%N :: py "py").
  rewrite rfind_last by (apply (bool_decide_unpack _); by vm_compute).
  rewrite length_app. change (length (46%N :: py "py")) with 3.
  destruct s as [|a s]; [done|].
  rewrite (proj2 (andb_true_iff _ _)).
  - by rewrite take_app_length.
  - split; [apply Nat.ltb_lt | apply Nat.ltb_lt]; simpl; lia.
Qed.

(** Two module files have the same stem only if they have the same name or
    one of them is named ".py". *)
Lemma stem_py_inj (n1 n2 : str) :
  endswith (py ".py") n1 = true -> endswith (py ".py") n2 = true ->
  n1 <> py ".py" -> n2 <> py ".py" -> stem n1 = stem n2 -> n1 = n2.
Proof.
  intros [s1 ->]%endswith_split [s2 ->]%endswith_split H1 H2.
  rewrite !stem_py. destruct s1, s2; try done. by intros ->.
Qed.

(** The stems of the files that are read and parsed are distinct when the
    names in the directory are and no entry is named ".py". *)
Lemma distinct_stems (ast_parse : str -> result node) (fs : filesystem)
    (src_dir : str) (entries : list dir_entry) :
  fs !! src_dir = Some entries ->
  NoDup (name <$> entries) -> py ".py" ∉ name <$> entries ->
  NoDup ((stem ∘ name) <$> filter (analysed ast_parse) (py_files fs src_dir)).
Proof.
  intros Hfs Hnd Hdot. unfold py_files, glob_suffix. rewrite Hfs. simpl default.
  set (files := filter (analysed ast_parse) _).
  assert (Hsub : files `sublist_of` entries).
  { unfold files. etrans; apply sublist_filter. }
  rewrite list_fmap_compose. apply NoDup_fmap_2_strong.
  - intros n1 n2 (f1 & -> & Hf1)%list_elem_of_fmap (f2 & -> & Hf2)%list_elem_of_fmap.
    unfold files in Hf1, Hf2.
    apply list_elem_of_filter in Hf1 as [_ [He1 Hin1]%list_elem_of_filter].
    apply list_elem_of_filter in Hf2 as [_ [He2 Hin2]%list_elem_of_filter].
    apply stem_py_inj; [done..| |]; intros Heq; apply Hdot;
      rewrite <- Heq; apply list_elem_of_fmap; eauto.
  - eapply sublist_NoDup; [exact Hnd|]. by apply fmap_sublist.
Qed.

End Stems.

(** ** The scanner on one file *)

Section ScanOneFile.

Variable ast_parse : str -> result node.

Lemma scanned_excluded (f : dir_entry) :
  excluded f = true -> scanned ast_parse f = None.
Proof. unfold scanned. by intros ->. Qed.

Lemma scanned_ok (f : dir_entry) (content : str) (tree : node) :
  excluded f = false -> contents f = Ok content -> ast_parse content = Ok tree ->
  scanned ast_parse f
  = Some (stem (name f),
          {| file := py "src/" ++ name f;
             description := get_module_description content (stem (name f));
             functions := take 3 (omap function_name (walk tree));
             classes := take 2 (omap class_name (walk tree)) |}).
Proof. unfold scanned. by intros -> -> ->. Qed.

Lemma scanned_failure (f : dir_entry) (e : exn) :
  failure ast_parse f = Some e -> scanned ast_parse f = None.
Proof.
  unfold scanned, failure. destruct (excluded f); [done|].
  destruct (contents f) as [content|]; [|done].
  by destruct (ast_parse content).
Qed.

End ScanOneFile.

(** C1: the diagram emitter returns the same string for every two module
    mappings, the empty mapping included: the 2979 characters of the
    literal, a fenced block tagged [mermaid], whatever the scanner found. *)
Theorem diagram_constant (m1 m2 : gmap str ModuleInfo) :
  generate_mermaid_diagram m1 = generate_mermaid_diagram m2 /\
  generate_mermaid_diagram m1 = generate_mermaid_diagram ∅ /\
  generate_mermaid_diagram m1 = join 10 diagram_lines /\
  length (generate_mermaid_diagram m1) = 2979 /\
  startswith (py "```mermaid" ++ [10%N]) (generate_mermaid_diagram m1) = true /\
  endswith (10%N :: py "```") (generate_mermaid_diagram m1) = true.
Proof.
  split_and!; [done..| | |]; unfold generate_mermaid_diagram;
    vm_compute; reflexivity.
Qed.

(** C4, as the code has it: when the existence test of the directory
    answers that there is none and the standard output has bytes for the
    warning, the scanner prints that one warning, returns the empty mapping
    and raises nothing. *)
Theorem missing_directory (ast_parse : str -> result node) (pf : platform)
    (fs : filesystem) (src_dir : str) (out : list str) :
  path_exists pf fs src_dir = Ok false ->
  stdout_accepts pf (py "Warning: " ++ src_dir ++ py " directory not found")
  = true ->
  run (analyze_codebase ast_parse pf fs src_dir) out
  = (Ok ∅, out ++ [py "Warning: " ++ src_dir ++ py " directory not found"]).
Proof.
  intros [Hfs Hstat]%path_exists_missing Hout.
  rewrite run_analyze_codebase_missing, Hstat by done.
  apply after_printing_accepted. by constructor.
Qed.

(** C6, as the code has it: for a file that is read and parsed, the
    scanner stores an entry whose functions are the first 3 names of the
    nodes that define a function with [def], and whose classes are the
    first 2 names of the nodes that define a class, with the nodes of the
    tree taken level by level, from left to right in a level. Every node of
    the tree, at any depth, is taken once; a node that defines a function
    with [async def] gives no name. *)
Theorem scan_collects_names (ast_parse : str -> result node) (pf : platform)
    (src_dir : str) (modules : gmap str ModuleInfo) (f : dir_entry)
    (content : str) (tree : node) (out : list str) :
  excluded f = false -> contents f = Ok content -> ast_parse content = Ok tree ->
  exists info,
    run (scan_file ast_parse pf src_dir modules f) out
    = (Ok (<[stem (name f) := info]> modules), out) /\
    functions info = take 3 (def_names (by_depth tree)) /\
    classes info = take 2 (class_names (by_depth tree)) /\
    by_depth tree ≡ₚ subnodes tree /\
    (forall x, x ∈ def_names (by_depth tree)
       <-> exists n, n ∈ subnodes tree /\ kind n = FunctionDef x) /\
    (forall x, x ∈ class_names (by_depth tree)
       <-> exists n, n ∈ subnodes tree /\ kind n = ClassDef x).
Proof.
  intros Hex Hc Ht. eexists. split.
  - rewrite run_scan_file, (scanned_ok _ _ _ _ Hex Hc Ht).
    unfold warning_of, failure. rewrite Hex, Hc, Ht. reflexivity.
  - simpl. rewrite omap_function_name, omap_class_name, walk_by_depth.
    split_and!; [done | done | apply by_depth_subnodes | |].
    + intros x. rewrite elem_of_def_names.
      by setoid_rewrite (by_depth_subnodes tree).
    + intros x. rewrite elem_of_class_names.
      by setoid_rewrite (by_depth_subnodes tree).
Qed.

(** C5, as the code has it: in a directory that exists, and on a standard
    output that has bytes for the warnings, the scan returns; a candidate
    file whose read or parse fails gets one warning and no entry, every
    entry comes from a file that is read and parsed, and every such file
    finds an entry under its stem. The size of the mapping is at most the
    number of [*.py] entries minus the candidates that fail minus the
    entries left out for their double-underscore prefix, and it is that
    number, each file keeping its own entry, when the files that are read
    and parsed have distinct stems. *)
Theorem scan_skips_failures (ast_parse : str -> result node) (pf : platform)
    (fs : filesystem) (src_dir : str) (out : list str) :
  path_exists pf fs src_dir = Ok true ->
  accepted pf (omap (warning_of ast_parse src_dir) (py_files fs src_dir)) ->
  exists modules,
    run (analyze_codebase ast_parse pf fs src_dir) out
    = (Ok modules,
       out ++ omap (warning_of ast_parse src_dir) (py_files fs src_dir)) /\
    length (omap (warning_of ast_parse src_dir) (py_files fs src_dir))
    = length (filter (invalid ast_parse) (py_files fs src_dir)) /\
    (forall f, f ∈ py_files fs src_dir -> invalid ast_parse f ->
       exists e, failure ast_parse f = Some e /\
                 warning src_dir f e
                 ∈ omap (warning_of ast_parse src_dir) (py_files fs src_dir)) /\
    (forall k info, modules !! k = Some info ->
       exists f, f ∈ py_files fs src_dir /\ analysed ast_parse f /\
                 k = stem (name f) /\ file info = py "src/" ++ name f) /\
    (forall f, f ∈ py_files fs src_dir -> analysed ast_parse f ->
       is_Some (modules !! stem (name f))) /\
    size modules
    <= length (py_files fs src_dir)
       - length (filter (invalid ast_parse) (py_files fs src_dir))
       - length (filter excluded (py_files fs src_dir)) /\
    (NoDup ((stem ∘ name)
              <$> filter (analysed ast_parse) (py_files fs src_dir)) ->
     size modules
     = length (py_files fs src_dir)
       - length (filter (invalid ast_parse) (py_files fs src_dir))
       - length (filter excluded (py_files fs src_dir)) /\
     forall f, f ∈ py_files fs src_dir -> analysed ast_parse f ->
       exists info, modules !! stem (name f) = Some info /\
                    file info = py "src/" ++ name f).
Proof.
  intros Hex%path_exists_found Hout.
  eexists. split.
  { rewrite run_analyze_codebase by done. by apply after_printing_accepted. }
  set (files := py_files fs src_dir) in *.
  pose proof (files_partition ast_parse files) as Hcount.
  split_and!.
  - apply warnings_length.
  - intros f Hf [w Hw]%(warning_invalid ast_parse src_dir).
    unfold warning_of in Hw. destruct (excluded f) eqn:Hx; [done|].
    destruct (failure ast_parse f) as [e|] eqn:He; [|done].
    exists e. split; [done|]. apply list_elem_of_omap. exists f.
    split; [done|]. unfold warning_of. by rewrite Hx, He.
  - intros k info [Hin|Hempty]%lookup_foldl_store_inv; [|done].
    apply list_elem_of_omap in Hin as (f & Hf & Hs).
    pose proof (scanned_key _ _ _ _ Hs) as (-> & Hfile & _).
    exists f. split_and!; [done| |done..]. apply scanned_analysed. eauto.
  - intros f Hf [[k info] Hs]%scanned_analysed.
    pose proof (scanned_key _ _ _ _ Hs) as (-> & _).
    apply lookup_foldl_store_some, list_elem_of_fmap.
    exists (stem (name f), info). split; [done|].
    apply list_elem_of_omap. by exists f.
  - pose proof (size_foldl_store_le ∅ (omap (scanned ast_parse) files)) as Hle.
    rewrite map_size_empty in Hle. lia.
  - intros Hnd. rewrite <- scanned_keys in Hnd. split.
    + rewrite size_foldl_store by done. rewrite map_size_empty. lia.
    + intros f Hf [[k info] Hs]%scanned_analysed.
      pose proof (scanned_key _ _ _ _ Hs) as (-> & Hfile & _).
      exists info. split; [|done]. apply lookup_foldl_store_in; [done|].
      apply list_elem_of_omap. by exists f.
Qed.

(** C7, as the code has it: every entry of the mapping comes from a file of
    the directory that is read and parsed, and its description is the
    resolver's answer for the text of that file and its stem; it has at
    most 43 characters when it comes from a docstring line, at most 27 when
    it comes from the fallback table, and a synthesized description is the
    module name followed by " module", seven characters longer than the
    name. *)
Theorem description_length (ast_parse : str -> result node) (pf : platform)
    (fs : filesystem) (src_dir : str) (out out' : list str)
    (modules : gmap str ModuleInfo) (k : str) (info : ModuleInfo) :
  run (analyze_codebase ast_parse pf fs src_dir) out = (Ok modules, out') ->
  modules !! k = Some info ->
  exists f content tree,
    f ∈ py_files fs src_dir /\ excluded f = false /\
    contents f = Ok content /\ ast_parse content = Ok tree /\
    k = stem (name f) /\ file info = py "src/" ++ name f /\
    description info = get_module_description content k /\
    (is_Some (marker_line content) -> length (description info) <= 43) /\
    (is_Some (descriptions !! k) -> marker_line content = None ->
     description info = default [] (descriptions !! k) /\
     length (description info) <= 27) /\
    (marker_line content = None -> descriptions !! k = None ->
     description info = k ++ py " module" /\
     length (description info) = length k + 7).
Proof.
  intros ->%run_analyze_codebase_ok Hk.
  apply lookup_foldl_store_inv in Hk as [Hin|Hk]; [|done].
  apply list_elem_of_omap in Hin as (f & Hf & Hs).
  assert (Hx : excluded f = false).
  { unfold scanned in Hs. by destruct (excluded f). }
  apply scanned_key in Hs as (-> & Hfile & content & tree & Hc & Ht & Hd & _).
  exists f, content, tree. split_and!; [done..| | |]; rewrite Hd.
  - intros [line Hline].
    rewrite (description_of_marker_line _ _ _ Hline). apply shorten_length.
  - intros [d Hlook] Hnone.
    rewrite (description_without_marker _ _ Hnone), Hlook. simpl.
    split; [done|]. by apply descriptions_lookup in Hlook as (_ & ? & _).
  - intros Hnone Hlook.
    rewrite (description_without_marker _ _ Hnone), Hlook. simpl.
    split; [done|]. rewrite length_app. change (length (py " module")) with 7.
    lia.
Qed.


(** With the default directory the recorded path is the path of the file
    that was read. *)
Lemma file_path_default (ast_parse : str -> result node) (pf : platform)
    (fs : filesystem) (out out' : list str) (modules : gmap str ModuleInfo)
    (k : str) (info : ModuleInfo) :
  run (analyze_codebase ast_parse pf fs (py "src")) out = (Ok modules, out') ->
  modules !! k = Some info ->
  exists f, f ∈ py_files fs (py "src") /\
            file info = path_str (py "src") (name f).
Proof.
  intros ->%run_analyze_codebase_ok Hk.
  apply lookup_foldl_store_inv in Hk as [Hin|Hk]; [|done].
  apply list_elem_of_omap in Hin as (f & Hf & Hs).
  apply scanned_key in Hs as (_ & Hfile & _). by exists f.
Qed.

(** ** The scanner on the sample inputs *)

(** C8: scanning the directory [lib], which holds [a.py], records the path
    "src/a.py" for it: the prefix is the constant "src/", not the scanned
    directory, the file that was read is [lib/a.py], and [src] holds no
    [a.py]. *)
Theorem file_path_other_directory (pf : platform) :
  run (analyze_codebase sample_parser pf sample_fs (py "lib")) []
  = (Ok {[ py "a" := {| file := py "src/a.py";
                        description := py "a module";
                        functions := [];
                        classes := [] |} ]}, []) /\
  path_str (py "lib") (py "a.py") = py "lib/a.py" /\
  py "src/a.py" <> py "lib/a.py" /\
  py "a.py" ∈ name <$> py_files sample_fs (py "lib") /\
  py "a.py" ∉ name <$> py_files sample_fs (py "src").
Proof.
  split_and!; [vm_compute; reflexivity | vm_compute; reflexivity | done | |];
    apply (bool_decide_unpack _); vm_compute; exact I.
Qed.

(** The claim C4 fails on a path of 300 characters, which no directory
    has: the existence test itself raises, with the error of the operating
    system for a name that is too long, and nothing is printed. It fails
    as well on a missing directory whose name the standard output has no
    bytes for: printing the warning raises. *)
Lemma missing_directory_counterexample :
  sample_fs !! long_path = None /\ length long_path = 300 /\
  run (analyze_codebase sample_parser utf8_terminal sample_fs long_path) []
  = (Raise (Exception (py "[Errno 36] File name too long: '" ++ long_path
                       ++ py "'")), []) /\
  sample_fs !! undecodable_name = None /\
  path_exists utf8_terminal sample_fs undecodable_name = Ok false /\
  run (analyze_codebase sample_parser utf8_terminal sample_fs undecodable_name) []
  = (Raise (Exception (py "'utf-8' codec can't encode character '\udcff' in position 9: surrogates not allowed")),
     []).
Proof.
  split_and!; vm_compute; reflexivity.
Qed.

(** The claim C6 fails on a module that defines a coroutine: its tree has
    one node that defines a function, named "a", and the entry lists no
    function. In the sample module the coroutine comes before two of the
    three functions that are listed. *)
Lemma scan_collects_names_counterexample :
  coroutine_parser coroutine_source = Ok coroutine_tree /\
  Node (AsyncFunctionDef (py "a")) [Node OtherNode []; Node OtherNode []]
  ∈ subnodes coroutine_tree /\
  (forall pf,
     run (scan_file coroutine_parser pf (py "src") ∅
            (DirEntry (py "co.py") (Ok coroutine_source))) []
     = (Ok {[ py "co" := coroutine_info ]}, [])) /\
  functions coroutine_info = [] /\
  (forall pf,
     exists info,
       run (scan_file sample_parser pf (py "src") ∅
              (DirEntry (py "sample.py") (Ok sample_source))) []
       = (Ok {[ py "sample" := info ]}, []) /\
       functions info = [py "g"; py "k"; py "z"] /\
       classes info = [py "C"]) /\
  async_def_names (children sample_tree) = [py "a"] /\
  top_level_functions sample_tree = [py "g"; py "k"; py "z"].
Proof.
  split_and!.
  - vm_compute; reflexivity.
  - simpl. right. left.
  - intros pf. vm_compute. reflexivity.
  - reflexivity.
  - intros pf. eexists. split_and!; [vm_compute; reflexivity | done..].
  - vm_compute; reflexivity.
  - vm_compute; reflexivity.
Qed.

(** The claim C5 fails on a directory that holds the empty files [.py] and
    [.py.py]: both match [*.py], none is left out or fails, both have the
    stem ".py", and the mapping has one entry, not two. *)
Lemma scan_size_counterexample :
  (forall pf,
     run (analyze_codebase sample_parser pf dotfile_fs (py "src")) []
     = (Ok {[ py ".py" := {| file := py "src/.py.py";
                             description := py ".py module";
                             functions := [];
                             classes := [] |} ]}, [])) /\
  length (py_files dotfile_fs (py "src")) = 2 /\
  length (filter (invalid sample_parser) (py_files dotfile_fs (py "src"))) = 0 /\
  length (filter excluded (py_files dotfile_fs (py "src"))) = 0 /\
  forall pf modules out,
    run (analyze_codebase sample_parser pf dotfile_fs (py "src")) []
    = (Ok modules, out) ->
    size modules = 1 /\
    size modules
    <> length (py_files dotfile_fs (py "src"))
       - length (filter (invalid sample_parser) (py_files dotfile_fs (py "src")))
       - length (filter excluded (py_files dotfile_fs (py "src"))).
Proof.
  assert (Hrun : forall pf,
             run (analyze_codebase sample_parser pf dotfile_fs (py "src")) []
             = (Ok {[ py ".py" := {| file := py "src/.py.py";
                                     description := py ".py module";
                                     functions := [];
                                     classes := [] |} ]}, []))
    by (intros pf; vm_compute; reflexivity).
  split_and!; [done | vm_compute; reflexivity..|].
  intros pf modules out. rewrite Hrun. intros [= <- <-].
  rewrite map_size_singleton. split; [done|]. vm_compute. lia.
Qed.

(** The claim C7 fails on a module whose name has 40 characters and whose
    text has no docstring line: its description has 47 characters. *)
Lemma description_length_counterexample :
  (forall pf,
     run (analyze_codebase sample_parser pf long_name_fs (py "src")) []
     = (Ok {[ long_name := long_name_info ]}, [])) /\
  length long_name = 40 /\
  length (description long_name_info) = 47 /\
  ~ length (description long_name_info) <= 43.
Proof.
  split_and!; [intros pf; vm_compute; reflexivity | vm_compute; reflexivity..|].
  vm_compute. lia.
Qed.


(** ** The properties on the sample inputs *)

Lemma docstring_description_witness :
  [example_docstring] <> [] /\
  Forall (fun x => 10%N ∉ x) [example_docstring] /\
  example_docstring ∈ take 5 [example_docstring] /\
  marked example_docstring /\
  40 < length (py "Reads the filings, builds the indices and answers questions.") /\
  get_module_description example_docstring (py "cli")
  = py "Example description here" /\
  get_module_description long_docstring (py "cli")
  = py "Reads the filings, builds the indices an...".
Proof.
  assert (Hnl : forall l : str,
             bool_decide (10%N ∉ l) = true -> Forall (fun x => 10%N ∉ x) [l]).
  { intros l Hl%bool_decide_eq_true. by repeat constructor. }
  assert (Hm : forall l : str, has_marker l = true -> marked l)
    by (intros l; apply has_marker_marked).
  assert (Hpad : padding []) by constructor.
  assert (Hfree : forall body : str,
             forallb (fun c => negb (c =? dquote)%N && negb (c =? squote)%N) body
             = true -> quote_free body).
  { intros body Hb. apply Forall_forall. intros c Hc.
    rewrite forallb_forall in Hb. apply list_elem_of_In, Hb in Hc.
    apply andb_prop in Hc as [Hd Hs]. split; intros ->; by vm_compute in *. }
  assert (H1 : [example_docstring] <> []) by discriminate.
  assert (H2 : Forall (fun x => 10%N ∉ x) [example_docstring])
    by (apply Hnl; vm_compute; reflexivity).
  assert (H3 : example_docstring ∈ take 5 [example_docstring]) by (by left).
  assert (H4 : marked example_docstring)
    by (apply Hm; vm_compute; reflexivity).
  assert (H5 : 40 < length (py "Reads the filings, builds the indices and answers questions."))
    by (vm_compute; lia).
  split_and!; [exact H1 | exact H2 | exact H3 | exact H4 | exact H5 | |].
  - destruct (docstring_description [example_docstring] (py "cli")
                example_docstring H1 H2 H3 H4)
      as (line & desc & Hline & _ & _ & Hshape & Hshort & _).
    assert (Hl : line = example_docstring).
    { apply (first_marked_unique [example_docstring]); [exact Hline|].
      exists [], []. split_and!; [reflexivity | exact H4 | constructor]. }
    subst line.
    assert (Hd : desc = py "Example description here").
    { rewrite (trimmed_unique _ _
                 (Hshape [] triple_dquote (py "Example description here")
                    triple_dquote [] eq_refl Hpad (or_introl eq_refl)
                    (Hfree (py "Example description here") eq_refl)
                    (or_introl eq_refl) Hpad)).
      vm_compute. reflexivity. }
    subst desc. apply Hshort. vm_compute. lia.
  - destruct (docstring_description [long_docstring] (py "cli") long_docstring)
      as (line & desc & Hline & _ & _ & Hshape & _ & Hlong);
      [discriminate | apply Hnl; vm_compute; reflexivity | by left
      | apply Hm; vm_compute; reflexivity |].
    assert (Hl : line = long_docstring).
    { apply (first_marked_unique [long_docstring]); [exact Hline|].
      exists [], []. split_and!; [reflexivity | | constructor].
      apply Hm. vm_compute. reflexivity. }
    subst line.
    assert (Hd : desc = py "Reads the filings, builds the indices and answers questions.").
    { rewrite (trimmed_unique _ _
                 (Hshape [] triple_dquote
                    (py "Reads the filings, builds the indices and answers questions.")
                    triple_dquote [] eq_refl Hpad (or_introl eq_refl)
                    (Hfree (py "Reads the filings, builds the indices and answers questions.")
                       eq_refl)
                    (or_introl eq_refl) Hpad)).
      vm_compute. reflexivity. }
    subst desc. destruct (Hlong H5) as [Heq _]. exact Heq.
Defined.



Lemma missing_directory_witness :
  path_exists utf8_terminal sample_fs (py "docs") = Ok false /\
  stdout_accepts utf8_terminal
    (py "Warning: " ++ py "docs" ++ py " directory not found") = true /\
  run (analyze_codebase sample_parser utf8_terminal sample_fs (py "docs")) []
  = (Ok ∅, [py "Warning: docs directory not found"]).
Proof.
  assert (H1 : path_exists utf8_terminal sample_fs (py "docs") = Ok false)
    by (vm_compute; reflexivity).
  assert (H2 : stdout_accepts utf8_terminal
                 (py "Warning: " ++ py "docs" ++ py " directory not found")
               = true)
    by (vm_compute; reflexivity).
  split_and!; [exact H1 | exact H2 |].
  exact (missing_directory sample_parser utf8_terminal sample_fs (py "docs") []
           H1 H2).
Defined.

Lemma scan_skips_failures_witness :
  path_exists utf8_terminal relative_fs (py "./src") = Ok true /\
  accepted utf8_terminal
    (omap (warning_of sample_parser (py "./src"))
       (py_files relative_fs (py "./src"))) /\
  NoDup ((stem ∘ name)
           <$> filter (analysed sample_parser)
                 (py_files relative_fs (py "./src"))) /\
  length (py_files relative_fs (py "./src")) = 5 /\
  length (filter (invalid sample_parser) (py_files relative_fs (py "./src")))
  = 2 /\
  length (filter excluded (py_files relative_fs (py "./src"))) = 1 /\
  exists modules,
    run (analyze_codebase sample_parser utf8_terminal relative_fs (py "./src")) []
    = (Ok modules,
       [ py "Warning: Could not analyze src/broken.py: invalid syntax (<unknown>, line 1)";
         py "Warning: Could not analyze src/pkg.py: [Errno 21] Is a directory: 'src/pkg.py'" ]) /\
    size modules = 2 /\
    is_Some (modules !! py "cli") /\ is_Some (modules !! py "sample") /\
    modules !! py "broken" = None /\ modules !! py "pkg" = None.
Proof.
  assert (H1 : path_exists utf8_terminal relative_fs (py "./src") = Ok true)
    by (vm_compute; reflexivity).
  assert (H0 : accepted utf8_terminal
                 (omap (warning_of sample_parser (py "./src"))
                    (py_files relative_fs (py "./src"))))
    by (apply (bool_decide_unpack _); vm_compute; exact I).
  assert (H2 : NoDup ((stem ∘ name)
                        <$> filter (analysed sample_parser)
                              (py_files relative_fs (py "./src"))))
    by (apply (bool_decide_unpack _); vm_compute; exact I).
  assert (H3 : length (py_files relative_fs (py "./src")) = 5)
    by (vm_compute; reflexivity).
  assert (H4 : length (filter (invalid sample_parser)
                         (py_files relative_fs (py "./src"))) = 2)
    by (vm_compute; reflexivity).
  assert (H5 : length (filter excluded (py_files relative_fs (py "./src"))) = 1)
    by (vm_compute; reflexivity).
  assert (H6 : omap (warning_of sample_parser (py "./src"))
                 (py_files relative_fs (py "./src"))
               = [ py "Warning: Could not analyze src/broken.py: invalid syntax (<unknown>, line 1)";
                   py "Warning: Could not analyze src/pkg.py: [Errno 21] Is a directory: 'src/pkg.py'" ])
    by (vm_compute; reflexivity).
  split_and!; [exact H1 | exact H0 | exact H2 | exact H3 | exact H4 | exact H5 |].
  destruct (scan_skips_failures sample_parser utf8_terminal relative_fs
              (py "./src") [] H1 H0)
    as (modules & Hrun & _ & _ & Hfrom & Hall & _ & Hsize).
  exists modules. rewrite H6 in Hrun. split; [exact Hrun|].
  destruct (Hsize H2) as [Hs _]. split; [rewrite Hs, H3, H4, H5; reflexivity|].
  split_and!.
  - apply (Hall (DirEntry (py "cli.py") (Ok assign_source)));
      [|vm_compute; exact I]. vm_compute. left.
  - apply (Hall (DirEntry (py "sample.py") (Ok sample_source)));
      [|vm_compute; exact I]. vm_compute. do 3 right. left.
  - destruct (modules !! py "broken") as [info|] eqn:Hk; [|reflexivity].
    destruct (Hfrom _ _ Hk) as (f & Hf & Ha & Hstem & _). exfalso.
    revert Hf Ha Hstem. vm_compute py_files. rewrite !elem_of_cons.
    intros [->|[->|[->|[->|[->|Hf%elem_of_nil]]]]] Ha Hstem;
      try discriminate Hstem; try done; by vm_compute in Ha.
  - destruct (modules !! py "pkg") as [info|] eqn:Hk; [|reflexivity].
    destruct (Hfrom _ _ Hk) as (f & Hf & Ha & Hstem & _). exfalso.
    revert Hf Ha Hstem. vm_compute py_files. rewrite !elem_of_cons.
    intros [->|[->|[->|[->|[->|Hf%elem_of_nil]]]]] Ha Hstem;
      try discriminate Hstem; try done; by vm_compute in Ha.
Defined.

Lemma scan_collects_names_witness :
  excluded (DirEntry (py "sample.py") (Ok sample_source)) = false /\
  sample_parser sample_source = Ok sample_tree /\
  exists info,
    run (scan_file sample_parser utf8_terminal (py "src") ∅
           (DirEntry (py "sample.py") (Ok sample_source))) []
    = (Ok (<[stem (py "sample.py") := info]> ∅), []) /\
    functions info = [py "g"; py "k"; py "z"] /\
    classes info = [py "C"] /\
    (py "m" ∈ def_names (by_depth sample_tree)
     <-> exists n, n ∈ subnodes sample_tree /\ kind n = FunctionDef (py "m")).
Proof.
  assert (H1 : excluded (DirEntry (py "sample.py") (Ok sample_source)) = false)
    by (vm_compute; reflexivity).
  assert (H2 : sample_parser sample_source = Ok sample_tree)
    by (vm_compute; reflexivity).
  split_and!; [exact H1 | exact H2 |].
  destruct (scan_collects_names sample_parser utf8_terminal (py "src") ∅
              (DirEntry (py "sample.py") (Ok sample_source))
              sample_source sample_tree [] H1 eq_refl H2)
    as (info & Hrun & Hf & Hc & _ & Hdef & _).
  exists info. split_and!; [exact Hrun | | | exact (Hdef (py "m"))].
  - rewrite Hf. vm_compute. reflexivity.
  - rewrite Hc. vm_compute. reflexivity.
Defined.

Lemma description_length_witness :
  run (analyze_codebase sample_parser utf8_terminal long_name_fs (py "src")) []
  = (Ok {[ long_name := long_name_info ]}, []) /\
  ({[ long_name := long_name_info ]} : gmap str ModuleInfo) !! long_name
  = Some long_name_info /\
  exists f content tree,
    f ∈ py_files long_name_fs (py "src") /\ excluded f = false /\
    contents f = Ok content /\ sample_parser content = Ok tree /\
    long_name = stem (name f) /\
    file long_name_info = py "src/" ++ name f /\
    description long_name_info = get_module_description content long_name /\
    (is_Some (marker_line content) ->
     length (description long_name_info) <= 43) /\
    (is_Some (descriptions !! long_name) -> marker_line content = None ->
     description long_name_info = default [] (descriptions !! long_name) /\
     length (description long_name_info) <= 27) /\
    (marker_line content = None -> descriptions !! long_name = None ->
     description long_name_info = long_name ++ py " module" /\
     length (description long_name_info) = length long_name + 7).
Proof.
  assert (H1 : run (analyze_codebase sample_parser utf8_terminal long_name_fs
                      (py "src")) []
               = (Ok {[ long_name := long_name_info ]}, []))
    by (vm_compute; reflexivity).
  assert (H2 : ({[ long_name := long_name_info ]} : gmap str ModuleInfo)
               !! long_name = Some long_name_info)
    by (vm_compute; reflexivity).
  split_and!; [exact H1 | exact H2 |].
  exact (description_length sample_parser utf8_terminal long_name_fs (py "src")
           [] [] {[ long_name := long_name_info ]} long_name long_name_info
           H1 H2).
Defined.


(** The two examples of the specification, for a file that goes on after
    its first line. *)
Example first_line_example (rest module_name : str) :
  get_module_description (example_docstring ++ 10%N :: rest) module_name
  = py "Example description here".
Proof.
  rewrite description_of_first_line;
    [vm_compute; reflexivity
    | apply (bool_decide_unpack _); vm_compute; exact I
    | vm_compute; reflexivity].
Qed.

Example first_line_long (rest module_name : str) :
  get_module_description (long_docstring ++ 10%N :: rest) module_name
  = py "Reads the filings, builds the indices an...".
Proof.
  rewrite description_of_first_line;
    [vm_compute; reflexivity
    | apply (bool_decide_unpack _); vm_compute; exact I
    | vm_compute; reflexivity].
Qed.

(** * Further properties of the scanner *)

Section ScannerKeys.

Variable ast_parse : str -> result node.

Lemma dom_foldl_store (m : gmap str ModuleInfo) (l : list (str * ModuleInfo)) :
  dom (foldl store m l) = dom m ∪ list_to_set l.*1.
Proof.
  revert m. induction l as [|[k v] l IH]; intros m; simpl.
  - by rewrite union_empty_r_L.
  - rewrite IH. unfold store. simpl. rewrite dom_insert_L.
    by rewrite (union_comm_L {[k]} (dom m)), <- union_assoc_L.
Qed.

Lemma foldl_store_perm (m : gmap str ModuleInfo)
    (l l' : list (str * ModuleInfo)) :
  NoDup l.*1 -> l ≡ₚ l' -> foldl store m l = foldl store m l'.
Proof.
  intros Hnd Hperm. apply map_eq. intros k.
  assert (Hnd' : NoDup l'.*1) by by rewrite <- Hperm.
  destruct (decide (k ∈ l.*1)) as [Hin|Hnotin].
  - apply list_elem_of_fmap in Hin as ([k' v] & -> & Hin). simpl.
    rewrite (lookup_foldl_store_in m l k' v) by done.
    rewrite (lookup_foldl_store_in m l' k' v); [done | done |].
    by rewrite <- Hperm.
  - rewrite !lookup_foldl_store_notin; [done | | done]. by rewrite <- Hperm.
Qed.

Lemma startswith_app_l (q s t : str) :
  startswith q s = true -> startswith q (s ++ t) = true.
Proof.
  intros [r ->]%startswith_split. rewrite <- app_assoc. apply startswith_app.
Qed.

Lemma endswith_app (q s : str) : endswith q (s ++ q) = true.
Proof. unfold endswith. rewrite rev_app_distr. apply startswith_app. Qed.

(** The entry of a file, seen from its key. *)
Lemma scanned_shape (f : dir_entry) (k : str) (info : ModuleInfo) :
  endswith (py ".py") (name f) = true ->
  scanned ast_parse f = Some (k, info) ->
  startswith (py "__") k = false /\ k <> [] /\
  (file info = py "src/" ++ k ++ py ".py"
   \/ k = py ".py" /\ file info = py "src/.py") /\
  length (functions info) <= 3 /\ length (classes info) <= 2.
Proof.
  intros [s Hs]%endswith_split Hsc.
  assert (Hx : excluded f = false).
  { unfold scanned in Hsc. by destruct (excluded f). }
  apply scanned_key in Hsc as (-> & Hfile & content & tree & _ & _ & _ & Hf & Hc).
  rewrite Hfile, Hf, Hc, !length_take. unfold excluded in Hx.
  rewrite Hs in *. rewrite stem_py. destruct s as [|c s].
  - split_and!; [done | done | by right | lia..].
  - split_and!; [| done | by left | lia..].
    destruct (startswith (py "__") (c :: s)) eqn:Hst; [|done].
    by rewrite (startswith_app_l _ _ _ Hst) in Hx.
Qed.

End ScannerKeys.

Section ScannerExtras.

Variable ast_parse : str -> result node.

Lemma omap_candidates {B : Type} (g : dir_entry -> option B)
    (entries : list dir_entry) :
  (forall f, excluded f = true -> g f = None) ->
  omap g (filter (fun f => endswith (py ".py") (name f) = true) entries)
  = omap g (filter candidate entries).
Proof.
  intros Hg. induction entries as [|f entries IH]; [done|].
  rewrite !filter_cons.
  destruct (decide (endswith (py ".py") (name f) = true)) as [He|He];
    destruct (decide (candidate f)) as [Hc|Hc]; cbn [omap list_omap].
  - by rewrite IH.
  - rewrite Hg; [done|]. unfold candidate in Hc. rewrite He in Hc.
    destruct (excluded f); [done|]. by destruct Hc.
  - unfold candidate in Hc. destruct (endswith (py ".py") (name f)); done.
  - done.
Qed.

Lemma warning_of_excluded (src_dir : str) (f : dir_entry) :
  excluded f = true -> warning_of ast_parse src_dir f = None.
Proof. unfold warning_of. by intros ->. Qed.

Lemma warnings_start (src_dir : str) (files : list dir_entry) :
  Forall (fun w => startswith (py "Warning: ") w = true)
    (omap (warning_of ast_parse src_dir) files).
Proof.
  apply Forall_forall. intros w (f & _ & Hw)%list_elem_of_omap.
  unfold warning_of in Hw. destruct (excluded f); [done|].
  destruct (failure ast_parse f) as [e|]; [|done]. injection Hw as <-.
  unfold warning.
  change (py "Warning: Could not analyze ")
    with (py "Warning: " ++ py "Could not analyze ").
  rewrite <- app_assoc. apply startswith_app.
Qed.

End ScannerExtras.

(** X1: every entry of the mapping is well formed: its key is not empty and
    does not start with the double underscore, its file field is "src/",
    the key and ".py" (or "src/.py" for the key ".py"), and it lists at most
    3 functions and 2 classes. *)
Theorem entries_well_formed (ast_parse : str -> result node) (pf : platform)
    (fs : filesystem) (src_dir : str) (out out' : list str)
    (modules : gmap str ModuleInfo) (k : str) (info : ModuleInfo) :
  run (analyze_codebase ast_parse pf fs src_dir) out = (Ok modules, out') ->
  modules !! k = Some info ->
  startswith (py "__") k = false /\ k <> [] /\
  (file info = py "src/" ++ k ++ py ".py"
   \/ k = py ".py" /\ file info = py "src/.py") /\
  length (functions info) <= 3 /\ length (classes info) <= 2.
Proof.
  intros ->%run_analyze_codebase_ok Hk.
  apply lookup_foldl_store_inv in Hk as [Hin|Hk]; [|done].
  apply list_elem_of_omap in Hin as (f & Hf & Hs).
  apply (scanned_shape ast_parse f); [|done].
  unfold py_files, glob_suffix in Hf.
  by apply list_elem_of_filter in Hf as [? _].
Qed.

(** X2: an exception raised by reading or parsing a file never leaves the
    scanner. The scanner returns a mapping, or raises what the existence
    test of the directory raises, before it prints anything, or raises the
    error of a warning that the standard output has no bytes for; every
    line it prints starts with "Warning: " and is added after what was
    printed before. *)
Theorem scan_raises_only_from_platform (ast_parse : str -> result node)
    (pf : platform) (fs : filesystem) (src_dir : str) (out : list str) :
  (exists modules warnings,
     run (analyze_codebase ast_parse pf fs src_dir) out
     = (Ok modules, out ++ warnings) /\
     accepted pf warnings /\
     Forall (fun w => startswith (py "Warning: ") w = true) warnings)
  \/ (exists e,
        path_exists pf fs src_dir = Raise e /\
        fs !! src_dir = None /\ stat_error pf src_dir = Some e /\
        run (analyze_codebase ast_parse pf fs src_dir) out = (Raise e, out))
  \/ (exists warnings w,
        run (analyze_codebase ast_parse pf fs src_dir) out
        = (Raise (encode_error pf w), out ++ warnings) /\
        stdout_accepts pf w = false /\ accepted pf warnings /\
        Forall (fun w => startswith (py "Warning: ") w = true)
          (warnings ++ [w])).
Proof.
  assert (Hlines : forall (lines : list str) (modules : gmap str ModuleInfo),
             Forall (fun w => startswith (py "Warning: ") w = true) lines ->
             (exists warnings,
                after_printing pf lines out modules
                = (Ok modules, out ++ warnings) /\
                accepted pf warnings /\
                Forall (fun w => startswith (py "Warning: ") w = true) warnings)
             \/ (exists warnings w,
                   after_printing pf lines out modules
                   = (Raise (encode_error pf w), out ++ warnings) /\
                   stdout_accepts pf w = false /\ accepted pf warnings /\
                   Forall (fun w => startswith (py "Warning: ") w = true)
                     (warnings ++ [w]))).
  { intros lines modules Hw.
    destruct (emit_cases pf lines) as [H|(before & l & after & -> & Hb & Hl)].
    - left. exists lines. by rewrite after_printing_accepted.
    - right. exists before, l. rewrite after_printing_refused by done.
      split_and!; [done..|].
      apply Forall_app in Hw as [Hw1 [Hw2 _]%Forall_cons_1].
      apply Forall_app. split; [done|]. by constructor. }
  destruct (fs !! src_dir) as [entries|] eqn:Hfs.
  - rewrite run_analyze_codebase by eauto.
    destruct (Hlines _ (foldl store ∅ (omap (scanned ast_parse)
                                          (py_files fs src_dir)))
                (warnings_start ast_parse src_dir (py_files fs src_dir)))
      as [(warnings & H)|H]; [left; eauto | right; right; exact H].
  - rewrite run_analyze_codebase_missing by done.
    unfold path_exists. rewrite Hfs.
    destruct (stat_error pf src_dir) as [e|] eqn:Hstat.
    + right. left. by exists e.
    + destruct (Hlines [py "Warning: " ++ src_dir ++ py " directory not found"]
                  (∅ : gmap str ModuleInfo))
        as [(warnings & H)|H]; [|left; eauto | right; right; exact H].
      constructor; [apply startswith_app | constructor].
Qed.

(** X3: the keys of the mapping are exactly the stems of the candidate
    files that are read and parsed. *)
Theorem keys_are_stems (ast_parse : str -> result node) (pf : platform)
    (fs : filesystem) (src_dir : str) (out out' : list str)
    (modules : gmap str ModuleInfo) :
  run (analyze_codebase ast_parse pf fs src_dir) out = (Ok modules, out') ->
  dom modules
  = list_to_set ((stem ∘ name)
                   <$> filter (analysed ast_parse) (py_files fs src_dir)).
Proof.
  intros ->%run_analyze_codebase_ok.
  rewrite dom_foldl_store, dom_empty_L, union_empty_l_L.
  by rewrite scanned_keys.
Qed.

(** X4: when the files that are read and parsed have distinct stems, and
    the standard output has bytes for the warnings, the mapping does not
    depend on the order in which the operating system lists the directory;
    the warnings are the same lines, possibly in another order. *)
Theorem scan_order_independent (ast_parse : str -> result node)
    (pf : platform) (fs fs' : filesystem) (src_dir : str)
    (entries entries' : list dir_entry) (out : list str) :
  fs !! src_dir = Some entries -> fs' !! src_dir = Some entries' ->
  entries ≡ₚ entries' ->
  NoDup ((stem ∘ name) <$> filter (analysed ast_parse) (py_files fs src_dir)) ->
  accepted pf (omap (warning_of ast_parse src_dir) (py_files fs src_dir)) ->
  exists modules warnings warnings',
    run (analyze_codebase ast_parse pf fs src_dir) out
    = (Ok modules, out ++ warnings) /\
    run (analyze_codebase ast_parse pf fs' src_dir) out
    = (Ok modules, out ++ warnings') /\
    warnings ≡ₚ warnings'.
Proof.
  intros Hfs Hfs' Hperm Hnd Hout. rewrite <- scanned_keys in Hnd.
  assert (Hfiles : py_files fs src_dir ≡ₚ py_files fs' src_dir).
  { unfold py_files, glob_suffix. rewrite Hfs, Hfs'. simpl. by rewrite Hperm. }
  assert (Hout' : accepted pf (omap (warning_of ast_parse src_dir)
                                 (py_files fs' src_dir))).
  { unfold accepted. by rewrite <- Hfiles. }
  eexists _, _, _. split_and!.
  - rewrite run_analyze_codebase by eauto. by apply after_printing_accepted.
  - rewrite run_analyze_codebase by eauto.
    rewrite after_printing_accepted by done. f_equal. f_equal.
    symmetry. apply foldl_store_perm; [done|]. by rewrite Hfiles.
  - by rewrite Hfiles.
Qed.

(** X5: when several files have one stem, the entry under that stem is the
    entry of the last of them, in the order of the listing, that is read
    and parsed; the scan returns when the standard output has bytes for
    the warnings. *)
Theorem last_file_wins (ast_parse : str -> result node) (pf : platform)
    (fs : filesystem) (src_dir : str) (before after : list dir_entry)
    (f : dir_entry) (content : str) (tree : node) (out : list str) :
  py_files fs src_dir = before ++ f :: after ->
  excluded f = false -> contents f = Ok content -> ast_parse content = Ok tree ->
  (forall g, g ∈ after -> analysed ast_parse g ->
     stem (name g) <> stem (name f)) ->
  accepted pf (omap (warning_of ast_parse src_dir) (py_files fs src_dir)) ->
  exists modules out' info,
    run (analyze_codebase ast_parse pf fs src_dir) out = (Ok modules, out') /\
    modules !! stem (name f) = Some info /\
    file info = py "src/" ++ name f /\
    description info = get_module_description content (stem (name f)).
Proof.
  intros Hfiles Hx Hc Ht Hafter Hout.
  assert (Hfs : is_Some (fs !! src_dir)).
  { unfold py_files, glob_suffix in Hfiles.
    destruct (fs !! src_dir); [eauto|]. by destruct before. }
  eexists _, _, _. split.
  { rewrite run_analyze_codebase by done. by apply after_printing_accepted. }
  rewrite Hfiles, omap_app. cbn [omap list_omap].
  rewrite (scanned_ok _ _ _ _ Hx Hc Ht), foldl_app. simpl.
  rewrite lookup_foldl_store_notin.
  - unfold store. simpl. rewrite lookup_insert_eq. by split_and!.
  - rewrite scanned_keys.
    intros (g & Hg & [Hag Hin]%list_elem_of_filter)%list_elem_of_fmap.
    by apply (Hafter g).
Qed.

(** X6: the scanner reads the candidate files only: two directories with
    the same candidates, in the same order, give the same mapping and the
    same output, whatever their other entries are or hold. *)
Theorem scan_reads_candidates_only (ast_parse : str -> result node)
    (pf : platform) (fs fs' : filesystem) (src_dir : str)
    (entries entries' : list dir_entry) (out : list str) :
  fs !! src_dir = Some entries -> fs' !! src_dir = Some entries' ->
  filter candidate entries = filter candidate entries' ->
  run (analyze_codebase ast_parse pf fs src_dir) out
  = run (analyze_codebase ast_parse pf fs' src_dir) out.
Proof.
  intros Hfs Hfs' Hsame. rewrite !run_analyze_codebase by eauto.
  unfold py_files, glob_suffix. rewrite Hfs, Hfs'. simpl.
  rewrite !(omap_candidates (scanned ast_parse))
    by apply scanned_excluded.
  rewrite !(omap_candidates (warning_of ast_parse src_dir))
    by apply warning_of_excluded.
  by rewrite Hsame.
Qed.

(** X22: a warning that the standard output has no bytes for ends the
    scan: printing it raises inside the handler, the exception leaves the
    scanner with the mapping built so far, and the files listed after the
    one that failed are not read. *)
Theorem unprintable_warning_aborts (ast_parse : str -> result node)
    (pf : platform) (fs : filesystem) (src_dir : str)
    (before after : list dir_entry) (f : dir_entry) (e : exn)
    (out : list str) :
  py_files fs src_dir = before ++ f :: after ->
  accepted pf (omap (warning_of ast_parse src_dir) before) ->
  excluded f = false -> failure ast_parse f = Some e ->
  stdout_accepts pf (warning src_dir f e) = false ->
  run (analyze_codebase ast_parse pf fs src_dir) out
  = (Raise (encode_error pf (warning src_dir f e)),
     out ++ omap (warning_of ast_parse src_dir) before) /\
  forall fs' after',
    py_files fs' src_dir = before ++ f :: after' ->
    run (analyze_codebase ast_parse pf fs' src_dir) out
    = run (analyze_codebase ast_parse pf fs src_dir) out.
Proof.
  intros Hfiles Hb Hx He Hw.
  assert (Hrun : forall fs' after',
             py_files fs' src_dir = before ++ f :: after' ->
             run (analyze_codebase ast_parse pf fs' src_dir) out
             = (Raise (encode_error pf (warning src_dir f e)),
                out ++ omap (warning_of ast_parse src_dir) before)).
  { intros fs' after' Hfiles'.
    assert (Hfs : is_Some (fs' !! src_dir)).
    { unfold py_files, glob_suffix in Hfiles'.
      destruct (fs' !! src_dir); [eauto|]. by destruct before. }
    rewrite run_analyze_codebase by done.
    rewrite Hfiles', omap_app. cbn [omap list_omap].
    assert (Hwf : warning_of ast_parse src_dir f = Some (warning src_dir f e)).
    { unfold warning_of. by rewrite Hx, He. }
    rewrite Hwf. by apply after_printing_refused. }
  split; [by apply (Hrun fs after)|].
  intros fs' after' Hfiles'.
  by rewrite (Hrun fs' after'), (Hrun fs after).
Qed.

(** X7: in the entry of a file whose tree has a root that is no function or
    class definition, as a module is, the functions that the module defines
    with [def] at its top level come first, in source order: with at least
    3 of them the entry lists the first 3 and no nested function or method,
    and likewise for 2 classes. A function defined with [async def] is not
    among them. *)
Theorem top_level_names_first (ast_parse : str -> result node) (pf : platform)
    (src_dir : str) (modules : gmap str ModuleInfo) (f : dir_entry)
    (content : str) (tree : node) (out : list str) :
  excluded f = false -> contents f = Ok content -> ast_parse content = Ok tree ->
  kind tree = OtherNode ->
  exists info,
    run (scan_file ast_parse pf src_dir modules f) out
    = (Ok (<[stem (name f) := info]> modules), out) /\
    functions info
    = take 3 (def_names (children tree)
              ++ def_names (flat_map (fun d => at_depth (S (S d)) tree)
                              (seq 0 (height tree)))) /\
    classes info
    = take 2 (class_names (children tree)
              ++ class_names (flat_map (fun d => at_depth (S (S d)) tree)
                                (seq 0 (height tree)))) /\
    (3 <= length (def_names (children tree)) ->
     functions info = take 3 (def_names (children tree))) /\
    (2 <= length (class_names (children tree)) ->
     classes info = take 2 (class_names (children tree))) /\
    (forall x n, n ∈ children tree -> kind n = AsyncFunctionDef x ->
       x ∉ def_names [n]).
Proof.
  intros Hx Hc Ht Hroot.
  assert (Hrest : walk_queue (flat_map children (children tree))
                  = flat_map (fun d => at_depth (S (S d)) tree)
                      (seq 0 (height tree))).
  { rewrite (walk_queue_by_depth (height tree)).
    - apply flat_map_ext. intros d. by rewrite <- at_depth_children.
    - apply max_height_children.
      destruct tree as [k cs]. simpl. lia. }
  assert (Hf : omap function_name (walk tree)
               = def_names (children tree)
                 ++ def_names (flat_map (fun d => at_depth (S (S d)) tree)
                                 (seq 0 (height tree)))).
  { rewrite walk_levels, Hrest. cbn [omap list_omap]. unfold function_name at 1.
    rewrite Hroot. by rewrite omap_app, !omap_function_name. }
  assert (Hcl : omap class_name (walk tree)
                = class_names (children tree)
                  ++ class_names (flat_map (fun d => at_depth (S (S d)) tree)
                                    (seq 0 (height tree)))).
  { rewrite walk_levels, Hrest. cbn [omap list_omap]. unfold class_name at 1.
    rewrite Hroot. by rewrite omap_app, !omap_class_name. }
  eexists. split.
  - rewrite run_scan_file, (scanned_ok _ _ _ _ Hx Hc Ht).
    unfold warning_of, failure. rewrite Hx, Hc, Ht. reflexivity.
  - simpl. rewrite Hf, Hcl. split_and!; [done | done | | |].
    + intros Hlen. by rewrite take_app_le.
    + intros Hlen. by rewrite take_app_le.
    + intros x [k cs] _ Hk. simpl in Hk. subst k. apply not_elem_of_nil.
Qed.

(** X8: the resolver never looks beyond the fifth line: two texts with the
    same first five lines have the same description, whatever follows. *)
Theorem later_lines_ignored (lines : list str) (rest rest' module_name : str) :
  length lines = 5 -> Forall (fun l => 10%N ∉ l) lines ->
  get_module_description (lines_text lines ++ rest) module_name
  = get_module_description (lines_text lines ++ rest') module_name.
Proof.
  intros Hlen Hl. unfold get_module_description.
  fold (first_lines (lines_text lines ++ rest)).
  fold (first_lines (lines_text lines ++ rest')).
  by rewrite !first_lines_text.
Qed.


(** X10: a description taken from a docstring line never holds the
    triple-single-quote marker, which is removed last. *)
Theorem docstring_description_no_squote_marker
    (content module_name line : str) :
  marker_line content = Some line ->
  contains triple_squote (get_module_description content module_name) = false.
Proof.
  intros Hline. rewrite (description_of_marker_line _ _ _ Hline).
  assert (Hu : contains triple_squote (unquoted line) = false).
  { unfold unquoted, triple_squote. rewrite contains_strip by by repeat constructor.
    apply replace_from_no_marker. }
  unfold shorten. destruct (40 <? length (unquoted line)); [|done].
  unfold triple_squote. rewrite contains_app_other.
  - by apply contains_take.
  - by repeat constructor.
Qed.

(** * The modules in insertion order *)

Section OrderedDict.

Context {V : Type}.
Implicit Types (d l : list (str * V)) (k : str) (v : V).

Lemma dict_set_cons d k v k' v' :
  dict_set k v ((k', v') :: d)
  = if decide (k' = k) then (k, v) :: d else (k', v') :: dict_set k v d.
Proof. done. Qed.

Lemma dict_set_fresh d k v : k ∉ d.*1 -> dict_set k v d = d ++ [(k, v)].
Proof.
  induction d as [|[k' v'] d IH]; [done|].
  rewrite fmap_cons. intros [Hne Hk]%not_elem_of_cons.
  rewrite dict_set_cons, decide_False by done. by rewrite IH.
Qed.

Lemma dict_set_keys d k v :
  (dict_set k v d).*1 = if decide (k ∈ d.*1) then d.*1 else d.*1 ++ [k].
Proof.
  induction d as [|[k' v'] d IH]; [done|].
  rewrite dict_set_cons, fmap_cons.
  destruct (decide (k' = k)) as [->|Hne].
  - rewrite decide_True by by left. done.
  - rewrite fmap_cons, IH. destruct (decide (k ∈ d.*1)) as [Hin|Hnotin].
    + rewrite decide_True by by right. done.
    + rewrite decide_False; [done|].
      intros [->|Hin]%elem_of_cons; done.
Qed.

Lemma dict_set_NoDup d k v : NoDup d.*1 -> NoDup (dict_set k v d).*1.
Proof.
  intros Hnd. rewrite dict_set_keys. case_decide; [done|].
  apply NoDup_app. split_and!; [done| |apply NoDup_singleton].
  intros x Hx ->%list_elem_of_singleton. done.
Qed.

Lemma list_to_map_dict_set d k v :
  (list_to_map (dict_set k v d) : gmap str V) = <[k := v]> (list_to_map d).
Proof.
  induction d as [|[k' v'] d IH]; [done|].
  rewrite dict_set_cons.
  destruct (decide (k' = k)) as [->|Hne].
  - rewrite !list_to_map_cons. by rewrite insert_insert_eq.
  - rewrite !list_to_map_cons, IH. by rewrite insert_insert_ne.
Qed.

End OrderedDict.

Section OrderedScannerLemmas.

Variable ast_parse : str -> result node.
Variable pf : platform.

Lemma run_scan_file_ordered (src_dir : str) (modules : list (str * ModuleInfo))
    (f : dir_entry) (out : list str) :
  run (scan_file_ordered ast_parse pf src_dir modules f) out
  = after_printing pf (option_list (warning_of ast_parse src_dir f)) out
      (from_option (store_ordered modules) modules (scanned ast_parse f)).
Proof.
  unfold scan_file_ordered, scanned, warning_of, failure, excluded,
    analyze_file_ordered.
  destruct (startswith (py "__") (name f)); simpl; [done|].
  destruct (contents f) as [content|e]; simpl.
  - destruct (ast_parse content) as [tree|e]; simpl; [done|].
    rewrite after_printing_cons. unfold warning. simpl.
    by destruct (stdout_accepts pf _).
  - rewrite after_printing_cons. unfold warning. simpl.
    by destruct (stdout_accepts pf _).
Qed.

Lemma run_for_each_scan_ordered (src_dir : str) (files : list dir_entry)
    (modules : list (str * ModuleInfo)) (out : list str) :
  run (for_each (scan_file_ordered ast_parse pf src_dir) files modules) out
  = after_printing pf (omap (warning_of ast_parse src_dir) files) out
      (foldl store_ordered modules (omap (scanned ast_parse) files)).
Proof.
  revert modules out. induction files as [|f files IH]; intros modules out.
  - done.
  - change (run (for_each (scan_file_ordered ast_parse pf src_dir) (f :: files)
                   modules) out)
      with (match run (scan_file_ordered ast_parse pf src_dir modules f) out with
            | (Ok a, out') =>
                run (for_each (scan_file_ordered ast_parse pf src_dir) files a)
                  out'
            | (Raise e, out') => (Raise e, out')
            end).
    rewrite run_scan_file_ordered. cbn [omap list_omap].
    destruct (warning_of ast_parse src_dir f) as [w|]; simpl option_list.
    + rewrite !after_printing_cons.
      destruct (stdout_accepts pf w); [|done].
      rewrite after_printing_nil, IH.
      by destruct (scanned ast_parse f).
    + rewrite after_printing_nil, IH. by destruct (scanned ast_parse f).
Qed.

Lemma run_analyze_codebase_ordered (fs : filesystem) (src_dir : str)
    (out : list str) :
  is_Some (fs !! src_dir) ->
  run (analyze_codebase_ordered ast_parse pf fs src_dir) out
  = after_printing pf
      (omap (warning_of ast_parse src_dir) (py_files fs src_dir)) out
      (foldl store_ordered [] (omap (scanned ast_parse) (py_files fs src_dir))).
Proof.
  intros H%(path_exists_found pf). unfold analyze_codebase_ordered.
  rewrite run_bind, H. simpl. apply run_for_each_scan_ordered.
Qed.

Lemma run_analyze_codebase_ordered_missing (fs : filesystem) (src_dir : str)
    (out : list str) :
  fs !! src_dir = None ->
  run (analyze_codebase_ordered ast_parse pf fs src_dir) out
  = match stat_error pf src_dir with
    | Some e => (Raise e, out)
    | None =>
        after_printing pf
          [py "Warning: " ++ src_dir ++ py " directory not found"] out []
    end.
Proof.
  intros H. unfold analyze_codebase_ordered, path_exists. rewrite run_bind, H.
  destruct (stat_error pf src_dir) as [e|]; simpl; [done|].
  rewrite after_printing_cons. by destruct (stdout_accepts pf _).
Qed.

Lemma foldl_store_ordered_NoDup (d l : list (str * ModuleInfo)) :
  NoDup d.*1 -> NoDup (foldl store_ordered d l).*1.
Proof.
  revert d. induction l as [|[k v] l IH]; intros d Hd; [done|].
  simpl. apply IH. by apply dict_set_NoDup.
Qed.

Lemma list_to_map_foldl_store_ordered (d l : list (str * ModuleInfo)) :
  list_to_map (foldl store_ordered d l) = foldl store (list_to_map d) l.
Proof.
  revert d. induction l as [|[k v] l IH]; intros d; [done|].
  simpl. rewrite IH. unfold store_ordered, store. simpl.
  by rewrite list_to_map_dict_set.
Qed.

(** Entries with distinct keys are kept as they come. *)
Lemma foldl_store_ordered_fresh (d l : list (str * ModuleInfo)) :
  NoDup (d ++ l).*1 -> foldl store_ordered d l = d ++ l.
Proof.
  revert d. induction l as [|[k v] l IH]; intros d Hnd.
  - by rewrite app_nil_r.
  - simpl. unfold store_ordered at 2. simpl.
    rewrite fmap_app, fmap_cons in Hnd.
    pose proof Hnd as (_ & Hk & _)%NoDup_app.
    rewrite dict_set_fresh.
    + rewrite IH; [by rewrite <- app_assoc|].
      rewrite <- app_assoc. simpl app. by rewrite fmap_app, fmap_cons.
    + intros Hin. apply (Hk k Hin). by left.
Qed.

Lemma after_printing_fmap {A B : Type} (g : A -> B) (lines out : list str)
    (a : A) :
  after_printing pf lines out (g a)
  = match after_printing pf lines out a with
    | (Ok x, out') => (Ok (g x), out')
    | (Raise e, out') => (Raise e, out')
    end.
Proof. unfold after_printing. by destruct (emit pf lines out) as [[e|] out']. Qed.

(** The scan with the modules in insertion order prints what the scan
    with the mapping prints, raises what it raises, and returns the items
    of the mapping it returns. *)
Lemma ordered_scan_run (fs : filesystem) (src_dir : str) (out : list str) :
  run (analyze_codebase ast_parse pf fs src_dir) out
  = match run (analyze_codebase_ordered ast_parse pf fs src_dir) out with
    | (Ok items, out') => (Ok (list_to_map items), out')
    | (Raise e, out') => (Raise e, out')
    end.
Proof.
  destruct (fs !! src_dir) as [entries|] eqn:Hfs.
  - rewrite run_analyze_codebase, run_analyze_codebase_ordered by eauto.
    rewrite <- (after_printing_fmap list_to_map).
    by rewrite list_to_map_foldl_store_ordered.
  - rewrite run_analyze_codebase_missing, run_analyze_codebase_ordered_missing
      by done.
    destruct (stat_error pf src_dir); [done|].
    by rewrite <- (after_printing_fmap list_to_map).
Qed.

Lemma ordered_scan_ok (fs : filesystem) (src_dir : str) (out out' : list str)
    (items : list (str * ModuleInfo)) :
  run (analyze_codebase_ordered ast_parse pf fs src_dir) out = (Ok items, out') ->
  items = foldl store_ordered [] (omap (scanned ast_parse) (py_files fs src_dir))
  /\ NoDup items.*1 /\
  exists warnings,
    out' = out ++ warnings /\ accepted pf warnings /\
    Forall (fun w => startswith (py "Warning: ") w = true) warnings.
Proof.
  intros Hrun.
  assert (Hitems : items = foldl store_ordered []
                             (omap (scanned ast_parse) (py_files fs src_dir))
                   /\ exists warnings,
                        out' = out ++ warnings /\ accepted pf warnings /\
                        Forall (fun w => startswith (py "Warning: ") w = true)
                          warnings).
  { destruct (fs !! src_dir) as [entries|] eqn:Hfs.
    - rewrite run_analyze_codebase_ordered in Hrun by eauto.
      apply after_printing_ok in Hrun as (-> & -> & Hacc).
      split; [done|]. eexists. split_and!; [done..|]. apply warnings_start.
    - rewrite run_analyze_codebase_ordered_missing in Hrun by done.
      destruct (stat_error pf src_dir); [done|].
      apply after_printing_ok in Hrun as (-> & -> & Hacc).
      split; [unfold py_files, glob_suffix; by rewrite Hfs|].
      eexists. split_and!; [done..|].
      constructor; [apply startswith_app | constructor]. }
  destruct Hitems as [-> Hw]. split_and!; [done| |done].
  apply foldl_store_ordered_NoDup. constructor.
Qed.

End OrderedScannerLemmas.

(** * The orchestrator *)

Section OrchestratorLemmas.

Variable ast_parse : str -> result node.
Variable pf : platform.
Variable save : str -> str -> save_outcome.

Lemma exec_bind {A B : Type} (m : sys A) (k : A -> sys B) (w : world) :
  exec (m ≫= k) w
  = match exec m w with
    | (Ok a, w') => exec (k a) w'
    | (Raise e, w') => (Raise e, w')
    end.
Proof. done. Qed.

Lemma exec_from_io {A : Type} (m : io A) (w : world) :
  exec (from_io m) w
  = ((run m (printed w)).1, World (run m (printed w)).2 (disk w)).
Proof. unfold from_io. simpl. by destruct (run m (printed w)). Qed.

Lemma run_print_summary (items : list (str * ModuleInfo)) (out : list str) :
  run (for_each
         (fun (_ : unit) (item : str * ModuleInfo) =>
            print pf (py "  - " ++ item.1 ++ py ": " ++ description item.2))
         items tt) out
  = after_printing pf (summary_line <$> items) out tt.
Proof.
  revert out. induction items as [|item items IH]; intros out; [done|].
  cbn [for_each fmap list_fmap]. rewrite run_bind, run_print.
  fold (summary_line item). rewrite !after_printing_cons.
  destruct (stdout_accepts pf (summary_line item)); [|done].
  rewrite after_printing_nil. destruct (_ : unit). apply IH.
Qed.

(** The run of the orchestrator once the opening line is printed, from the
    run of the scanner. *)
Lemma exec_update (fs : filesystem) (w : world) :
  stdout_accepts pf analyzing_line = true ->
  exec (update_architecture_diagram ast_parse pf save fs) w
  = match run (analyze_codebase_ordered ast_parse pf fs (py "src"))
            (printed w ++ [analyzing_line]) with
    | (Raise e, out') => (Raise e, World out' (disk w))
    | (Ok items, out') =>
        if stdout_accepts pf (found_line (length items)) then
          match save output_file (join 10 diagram_lines) with
          | Saved =>
              ((report pf (out' ++ [found_line (length items)]) items).1,
               World (report pf (out' ++ [found_line (length items)]) items).2
                 (<[output_file := join 10 diagram_lines]> (disk w)))
          | OpenFailed e =>
              (Raise e, World (out' ++ [found_line (length items)]) (disk w))
          | WriteFailed e left_behind =>
              (Raise e, World (out' ++ [found_line (length items)])
                          (<[output_file := left_behind]> (disk w)))
          end
        else (Raise (encode_error pf (found_line (length items))),
              World out' (disk w))
    end.
Proof.
  intros Hopen. unfold update_architecture_diagram.
  rewrite exec_bind, exec_from_io, run_print. fold analyzing_line.
  rewrite after_printing_cons, Hopen, after_printing_nil. cbn [fst snd].
  rewrite exec_bind, exec_from_io. cbn [printed disk].
  destruct (run (analyze_codebase_ordered ast_parse pf fs (py "src"))
              (printed w ++ [analyzing_line])) as [[items|e] out'];
    cbn [fst snd]; [|reflexivity].
  rewrite exec_bind, exec_from_io, run_print. cbn [printed disk].
  fold (found_line (length items)).
  rewrite after_printing_cons, after_printing_nil.
  destruct (stdout_accepts pf (found_line (length items)));
    cbn [fst snd]; [|reflexivity].
  rewrite exec_bind. fold output_file.
  change (generate_mermaid_diagram (list_to_map items))
    with (join 10 diagram_lines).
  unfold write_text at 1. cbn [exec printed disk].
  destruct (save output_file (join 10 diagram_lines)); [|reflexivity..].
  rewrite exec_bind, exec_from_io, run_print. cbn [printed disk].
  fold updated_line. unfold report.
  change ([updated_line; summary_header] ++ (summary_line <$> items))
    with (updated_line :: summary_header :: (summary_line <$> items)).
  rewrite !(after_printing_cons pf updated_line), after_printing_nil.
  destruct (stdout_accepts pf updated_line); cbn [fst snd]; [|reflexivity].
  rewrite exec_bind, exec_from_io, run_print. cbn [printed disk].
  fold summary_header.
  rewrite !(after_printing_cons pf summary_header), after_printing_nil.
  destruct (stdout_accepts pf summary_header); cbn [fst snd]; [|reflexivity].
  rewrite exec_from_io, run_print_summary. cbn [printed disk]. reflexivity.
Qed.

(** A line that the standard output refuses at the start stops the run. *)
Lemma exec_update_refused (fs : filesystem) (w : world) :
  stdout_accepts pf analyzing_line = false ->
  exec (update_architecture_diagram ast_parse pf save fs) w
  = (Raise (encode_error pf analyzing_line), w).
Proof.
  intros Hopen. unfold update_architecture_diagram.
  rewrite exec_bind, exec_from_io, run_print. fold analyzing_line.
  rewrite after_printing_cons, Hopen. cbn [fst snd]. by destruct w.
Qed.

(** A run that returns has printed every line and stored the file. *)
Lemma exec_update_ok (fs : filesystem) (w w' : world) :
  exec (update_architecture_diagram ast_parse pf save fs) w = (Ok tt, w') ->
  exists items warnings,
    run (analyze_codebase_ordered ast_parse pf fs (py "src"))
      (printed w ++ [analyzing_line])
    = (Ok items, printed w ++ [analyzing_line] ++ warnings) /\
    NoDup items.*1 /\
    save output_file (join 10 diagram_lines) = Saved /\
    accepted pf ([analyzing_line] ++ warnings
                 ++ [found_line (length items); updated_line; summary_header]
                 ++ (summary_line <$> items)) /\
    w' = World (printed w ++ [analyzing_line] ++ warnings
                ++ [found_line (length items); updated_line; summary_header]
                ++ (summary_line <$> items))
           (<[output_file := join 10 diagram_lines]> (disk w)).
Proof.
  destruct (stdout_accepts pf analyzing_line) eqn:Hopen;
    [|by rewrite exec_update_refused].
  rewrite exec_update by done.
  destruct (run (analyze_codebase_ordered ast_parse pf fs (py "src"))
              (printed w ++ [analyzing_line])) as [[items|e] out'] eqn:Hrun;
    [|done].
  destruct (ordered_scan_ok _ _ _ _ _ _ _ Hrun)
    as (_ & Hnd & warnings & -> & Hacc & _).
  destruct (stdout_accepts pf (found_line (length items))) eqn:Hfound; [|done].
  destruct (save output_file (join 10 diagram_lines)); [|done..].
  destruct (report pf _ items) as [r out''] eqn:Hreport.
  cbn [fst snd]. intros [= -> <-]. unfold report in Hreport.
  apply after_printing_ok in Hreport as (_ & -> & Hrest).
  exists items, warnings.
  split_and!; [by rewrite <- app_assoc | exact Hnd | reflexivity | |].
  - apply Forall_app. split; [by repeat constructor|].
    apply Forall_app. split; [exact Hacc|]. by constructor.
  - f_equal. rewrite <- !app_assoc. reflexivity.
Qed.

End OrchestratorLemmas.

(** X12: whenever the orchestrator returns, the operating system has stored
    the output file, and the file [architecture_diagram.md] holds the text
    of the diagram whatever the scanned directory and the parser are; no
    other file is written. *)
Theorem diagram_written (ast_parse : str -> result node) (pf : platform)
    (save : str -> str -> save_outcome) (fs : filesystem) (w w' : world) :
  exec (update_architecture_diagram ast_parse pf save fs) w = (Ok tt, w') ->
  save output_file (join 10 diagram_lines) = Saved /\
  disk w' = <[output_file := join 10 diagram_lines]> (disk w) /\
  disk w' !! output_file = Some (generate_mermaid_diagram ∅) /\
  forall p, p <> output_file -> disk w' !! p = disk w !! p.
Proof.
  intros (items & warnings & _ & _ & Hsave & _ & ->)%exec_update_ok.
  cbn [disk]. split_and!; [exact Hsave | reflexivity | |].
  - rewrite lookup_insert_eq. reflexivity.
  - intros p Hp. rewrite lookup_insert_ne by congruence. reflexivity.
Qed.

(** X13: on a run that returns, the number printed in the line "Found n
    modules" is the number of lines of the summary and the size of the
    scanner's mapping; the output is the opening line, the warnings of the
    scan, that line, the two lines about the update and one summary line
    for each key. *)
Theorem summary_matches_count (ast_parse : str -> result node) (pf : platform)
    (save : str -> str -> save_outcome) (fs : filesystem) (w w' : world) :
  exec (update_architecture_diagram ast_parse pf save fs) w = (Ok tt, w') ->
  exists (items : list (str * ModuleInfo)) warnings modules,
    printed w'
    = printed w ++ [analyzing_line] ++ warnings
      ++ [found_line (length items); updated_line; summary_header]
      ++ (summary_line <$> items) /\
    run (analyze_codebase ast_parse pf fs (py "src")) (printed w ++ [analyzing_line])
    = (Ok modules, printed w ++ [analyzing_line] ++ warnings) /\
    length items = size modules /\
    length (summary_line <$> items) = size modules /\
    (forall k info, (k, info) ∈ items <-> modules !! k = Some info).
Proof.
  intros (items & warnings & Hrun & Hnd & _ & _ & ->)%exec_update_ok.
  exists items, warnings, (list_to_map items). cbn [printed]. split_and!.
  - reflexivity.
  - rewrite ordered_scan_run, Hrun. reflexivity.
  - rewrite map_size_list_to_map by exact Hnd. reflexivity.
  - rewrite length_fmap, map_size_list_to_map by exact Hnd. reflexivity.
  - intros k info. rewrite elem_of_list_to_map by exact Hnd. reflexivity.
Qed.

(** X14: when the run reaches the output file and the operating system
    refuses it, the exception leaves the orchestrator: the last line
    printed is "Found n modules", neither the line about the update nor the
    summary is printed, and the file is untouched when opening it failed
    and holds what the failed write left otherwise. *)
Theorem save_failure_propagates (ast_parse : str -> result node)
    (pf : platform) (save : str -> str -> save_outcome) (fs : filesystem)
    (w : world) (modules : gmap str ModuleInfo) (out' : list str) :
  stdout_accepts pf analyzing_line = true ->
  run (analyze_codebase ast_parse pf fs (py "src")) (printed w ++ [analyzing_line])
  = (Ok modules, out') ->
  stdout_accepts pf (found_line (size modules)) = true ->
  save output_file (join 10 diagram_lines) <> Saved ->
  exists e w',
    exec (update_architecture_diagram ast_parse pf save fs) w = (Raise e, w') /\
    printed w' = out' ++ [found_line (size modules)] /\
    (forall p, p <> output_file -> disk w' !! p = disk w !! p) /\
    (forall e', save output_file (join 10 diagram_lines) = OpenFailed e' ->
       e = e' /\ disk w' = disk w) /\
    (forall e' left_behind,
       save output_file (join 10 diagram_lines) = WriteFailed e' left_behind ->
       e = e' /\ disk w' !! output_file = Some left_behind).
Proof.
  intros Hopen Hscan Hfound Hsave.
  rewrite ordered_scan_run in Hscan. rewrite exec_update by exact Hopen.
  destruct (run (analyze_codebase_ordered ast_parse pf fs (py "src"))
              (printed w ++ [analyzing_line])) as [[items|e0] out0] eqn:Hrun;
    [|discriminate].
  injection Hscan as <- <-.
  destruct (ordered_scan_ok _ _ _ _ _ _ _ Hrun) as (_ & Hnd & _).
  rewrite map_size_list_to_map in Hfound by exact Hnd.
  rewrite map_size_list_to_map by exact Hnd. rewrite Hfound.
  destruct (save output_file (join 10 diagram_lines)) as [|e|e left_behind].
  - congruence.
  - exists e. eexists. split; [reflexivity|]. cbn [printed disk].
    split_and!.
    + reflexivity.
    + reflexivity.
    + intros e' [= ->]. split; reflexivity.
    + intros e' l [=].
  - exists e. eexists. split; [reflexivity|]. cbn [printed disk].
    split_and!.
    + reflexivity.
    + intros p Hp. rewrite lookup_insert_ne by congruence. reflexivity.
    + intros e' [=].
    + intros e' l [= -> ->]. rewrite lookup_insert_eq. split; reflexivity.
Qed.

(** X15: when the existence test answers that there is no directory [src],
    the standard output has bytes for the marks, and the output file is
    stored, the orchestrator prints five lines, with the warning of the
    scanner and "Found 0 modules" among them and no summary line, and still
    writes the diagram. *)
Theorem missing_source_directory (ast_parse : str -> result node)
    (pf : platform) (save : str -> str -> save_outcome) (fs : filesystem)
    (w : world) :
  path_exists pf fs (py "src") = Ok false ->
  accepted pf [ analyzing_line; found_mark ++ py " Found 0 modules";
                updated_line; summary_header ] ->
  save output_file (join 10 diagram_lines) = Saved ->
  exec (update_architecture_diagram ast_parse pf save fs) w
  = (Ok tt,
     World (printed w
            ++ [ analyzing_line;
                 py "Warning: src directory not found";
                 found_mark ++ py " Found 0 modules";
                 updated_line;
                 summary_header ])
       (<[output_file := join 10 diagram_lines]> (disk w))).
Proof.
  intros [Hnone Hstat]%path_exists_missing Hacc Hsave.
  apply Forall_cons_1 in Hacc as [Hopen Hacc].
  apply Forall_cons_1 in Hacc as [Hfound Hacc].
  rewrite exec_update by exact Hopen.
  rewrite run_analyze_codebase_ordered_missing, Hstat by exact Hnone.
  assert (Hw : py "Warning: " ++ py "src" ++ py " directory not found"
               = py "Warning: src directory not found")
    by (vm_compute; reflexivity).
  assert (Hf : found_line 0 = found_mark ++ py " Found 0 modules")
    by (vm_compute; reflexivity).
  rewrite Hw, after_printing_accepted.
  - cbn [length]. rewrite Hf, Hfound, Hsave. unfold report.
    cbn [fmap list_fmap app]. rewrite after_printing_accepted by exact Hacc.
    cbn [fst snd]. rewrite <- !app_assoc. reflexivity.
  - constructor; [|constructor]. apply stdout_accepts_ascii.
    apply (bool_decide_unpack _). vm_compute. exact I.
Qed.

(** X16: when the files of [src] that are read and parsed have distinct
    stems, the standard output has bytes for every line and the output
    file is stored, the summary has one line for each of these files, in
    the order of the directory listing. *)
Theorem summary_in_listing_order (ast_parse : str -> result node)
    (pf : platform) (save : str -> str -> save_outcome) (fs : filesystem)
    (w : world) :
  path_exists pf fs (py "src") = Ok true ->
  NoDup ((stem ∘ name)
           <$> filter (analysed ast_parse) (py_files fs (py "src"))) ->
  save output_file (join 10 diagram_lines) = Saved ->
  accepted pf
    ([analyzing_line]
     ++ omap (warning_of ast_parse (py "src")) (py_files fs (py "src"))
     ++ [ found_line (length (filter (analysed ast_parse)
                                (py_files fs (py "src"))));
          updated_line; summary_header ]
     ++ (summary_line
           <$> omap (scanned ast_parse) (py_files fs (py "src")))) ->
  exists w',
    exec (update_architecture_diagram ast_parse pf save fs) w = (Ok tt, w') /\
    printed w'
    = printed w ++ [analyzing_line]
      ++ omap (warning_of ast_parse (py "src")) (py_files fs (py "src"))
      ++ [ found_line (length (filter (analysed ast_parse)
                                 (py_files fs (py "src"))));
           updated_line; summary_header ]
      ++ (summary_line
            <$> omap (scanned ast_parse) (py_files fs (py "src"))) /\
    (omap (scanned ast_parse) (py_files fs (py "src"))).*1
    = (stem ∘ name) <$> filter (analysed ast_parse) (py_files fs (py "src")).
Proof.
  intros Hfs%path_exists_found Hnd Hsave Hacc.
  rewrite <- scanned_keys in Hnd.
  assert (Hlen : length (omap (scanned ast_parse) (py_files fs (py "src")))
                 = length (filter (analysed ast_parse) (py_files fs (py "src")))).
  { rewrite <- (length_fmap fst (omap (scanned ast_parse) (py_files fs (py "src")))).
    rewrite scanned_keys. apply length_fmap. }
  rewrite <- Hlen in *.
  apply Forall_app in Hacc as [[Hopen _]%Forall_cons_1 Hacc].
  apply Forall_app in Hacc as [Hwarn [Hfound Hrest]%Forall_cons_1].
  rewrite exec_update by exact Hopen.
  rewrite run_analyze_codebase_ordered by exact Hfs.
  rewrite foldl_store_ordered_fresh by exact Hnd.
  rewrite after_printing_accepted by exact Hwarn. cbn [app].
  rewrite Hfound, Hsave. unfold report.
  rewrite after_printing_accepted by exact Hrest. cbn [fst snd].
  eexists. split; [reflexivity|]. cbn [printed].
  split; [|apply scanned_keys]. rewrite <- !app_assoc. reflexivity.
Qed.

(** X23: on a standard output that has no bytes for the mark of the
    opening line, as one that prints ASCII, the orchestrator raises at
    once: nothing is printed, the directory is not scanned and no file is
    written. *)
Theorem unprintable_mark_stops (ast_parse : str -> result node)
    (pf : platform) (save : str -> str -> save_outcome) (fs : filesystem)
    (w : world) :
  stdout_accepts pf analyzing_line = false ->
  exec (update_architecture_diagram ast_parse pf save fs) w
  = (Raise (encode_error pf analyzing_line), w).
Proof. apply exec_update_refused. Qed.

(** * The configuration module *)

Section ConfigLemmas.

Variable load_dotenv : str -> gmap str str -> result bool * gmap str str.
Variable pf : platform.

Lemma key_warnings_accepted : accepted pf key_warnings.
Proof.
  unfold key_warnings.
  repeat (constructor;
          [apply stdout_accepts_ascii, (bool_decide_unpack _); vm_compute;
           exact I|]).
  constructor.
Qed.

(** The loading: its warnings, and the environment it leaves. *)
Lemma run_load_environment (environ : gmap str str) (out : list str) :
  run (load_environment load_dotenv pf environ) out
  = after_printing pf (dotenv_warnings load_dotenv environ) out
      (environ_after load_dotenv environ).
Proof.
  unfold load_environment, dotenv_warnings, environ_after.
  destruct (load_dotenv (py "utf-8") environ) as [[b|e] environ1]; [done|].
  cbn [run try_except lift mbind io_bind mret io_ret].
  rewrite run_bind, run_print. fold (utf8_warning e).
  rewrite !(after_printing_cons pf (utf8_warning e)).
  destruct (stdout_accepts pf (utf8_warning e)); [|done].
  rewrite after_printing_nil.
  destruct (load_dotenv (py "latin-1") environ1) as [[b|e2] environ2]; [done|].
  cbn [run try_except lift mbind io_bind mret io_ret snd].
  rewrite run_bind, run_print. fold (latin1_warning e2).
  rewrite !(after_printing_cons pf (latin1_warning e2)).
  by destruct (stdout_accepts pf (latin1_warning e2)).
Qed.

(** The values the module defines, from the environment after loading. *)
Lemma run_config_after (environ environ' : gmap str str) (out out' : list str) :
  run (load_environment load_dotenv pf environ) out = (Ok environ', out') ->
  run (config load_dotenv pf environ) out
  = (Ok (config_of environ', environ'),
     out' ++ key_lines (GOOGLE_API_KEY (config_of environ'))).
Proof.
  intros Hload. unfold config. rewrite run_bind, Hload. rewrite run_bind.
  unfold config_of. cbn [GOOGLE_API_KEY].
  destruct (falsy (environ' !! py "GOOGLE_API_KEY")) eqn:Hkey.
  - rewrite run_bind, run_print, after_printing_accepted;
      [|constructor; [|constructor];
        apply (Forall_cons_1 _ _ _ key_warnings_accepted)].
    rewrite run_bind, run_print, after_printing_accepted;
      [|constructor; [|constructor];
        apply (Forall_cons_1 _ _ _
                 (proj2 (Forall_cons_1 _ _ _ key_warnings_accepted)))].
    cbn [run mret io_ret key_lines]. unfold key_warnings.
    by rewrite <- app_assoc.
  - destruct (environ' !! py "GOOGLE_API_KEY") as [key|] eqn:Hget; [|done].
    cbn [run mret io_ret key_lines]. by rewrite app_nil_r.
Qed.

Lemma run_config_raise (environ : gmap str str) (out out' : list str) (e : exn) :
  run (load_environment load_dotenv pf environ) out = (Raise e, out') ->
  run (config load_dotenv pf environ) out = (Raise e, out').
Proof. intros Hload. unfold config. by rewrite run_bind, Hload. Qed.

Lemma dotenv_warnings_shape (environ : gmap str str) :
  length (dotenv_warnings load_dotenv environ) <= 2 /\
  Forall (fun w => startswith (py "Warning: ") w = true)
    (dotenv_warnings load_dotenv environ).
Proof.
  unfold dotenv_warnings.
  destruct (load_dotenv (py "utf-8") environ) as [[b|e] environ1].
  - split; [simpl; lia | constructor].
  - destruct (load_dotenv (py "latin-1") environ1) as [[b|e2] environ2];
      (split; [simpl; lia|]); repeat constructor; apply startswith_app.
Qed.

Lemma config_of_key (environ : gmap str str) :
  GOOGLE_API_KEY (config_of environ) = None
  \/ exists key, key <> [] /\ GOOGLE_API_KEY (config_of environ) = Some key /\
                 environ !! py "GOOGLE_API_KEY" = Some key.
Proof.
  unfold config_of. cbn [GOOGLE_API_KEY].
  destruct (environ !! py "GOOGLE_API_KEY") as [[|c key]|]; simpl;
    [by left | right | by left].
  by exists (c :: key).
Qed.

End ConfigLemmas.

(** X17: an exception that [load_dotenv] raises, with either encoding,
    never leaves the import. The import returns when the standard output
    has bytes for the warnings about the [.env] file, and the key it
    defines is then [None] or a string that is not empty, the one the
    environment holds after the loading; otherwise it raises the error of
    the warning that could not be printed. *)
Theorem config_import_outcome
    (load_dotenv : str -> gmap str str -> result bool * gmap str str)
    (pf : platform) (environ : gmap str str) (out : list str) :
  (accepted pf (dotenv_warnings load_dotenv environ) ->
   exists cfg environ',
     run (config load_dotenv pf environ) out
     = (Ok (cfg, environ'),
        out ++ dotenv_warnings load_dotenv environ
        ++ key_lines (GOOGLE_API_KEY cfg)) /\
     (GOOGLE_API_KEY cfg = None
      \/ exists key, key <> [] /\ GOOGLE_API_KEY cfg = Some key /\
                     environ' !! py "GOOGLE_API_KEY" = Some key)) /\
  (forall before w after,
     dotenv_warnings load_dotenv environ = before ++ w :: after ->
     accepted pf before -> stdout_accepts pf w = false ->
     run (config load_dotenv pf environ) out
     = (Raise (encode_error pf w), out ++ before)) /\
  (forall e out',
     run (config load_dotenv pf environ) out = (Raise e, out') ->
     exists w, w ∈ dotenv_warnings load_dotenv environ /\
               stdout_accepts pf w = false /\ e = encode_error pf w).
Proof.
  pose proof (run_load_environment load_dotenv pf environ out) as Hload.
  split_and!.
  - intros Hacc. rewrite after_printing_accepted in Hload by done.
    exists (config_of (environ_after load_dotenv environ)),
           (environ_after load_dotenv environ).
    rewrite (run_config_after _ _ _ _ _ _ Hload), <- app_assoc.
    split; [done|]. apply config_of_key.
  - intros before w after Heq Hb Hw. rewrite Heq in Hload.
    rewrite after_printing_refused in Hload by done.
    by apply run_config_raise.
  - intros e out' Hrun.
    destruct (emit_cases pf (dotenv_warnings load_dotenv environ))
      as [Hacc|(before & w & after & Heq & Hb & Hw)].
    + rewrite after_printing_accepted in Hload by done.
      rewrite (run_config_after _ _ _ _ _ _ Hload) in Hrun. done.
    + rewrite Heq in Hload. rewrite after_printing_refused in Hload by done.
      rewrite (run_config_raise _ _ _ _ _ _ Hload) in Hrun.
      injection Hrun as <- <-. exists w. split_and!; [|done..].
      rewrite Heq. apply elem_of_app. right. by left.
Qed.

(** X18: the two lines about the key are the last lines the import prints
    exactly when the key is missing from the environment or empty; before
    them come at most two lines, warnings about the [.env] file. *)
Theorem missing_key_warned
    (load_dotenv : str -> gmap str str -> result bool * gmap str str)
    (pf : platform) (environ environ' : gmap str str) (out out' : list str)
    (cfg : Config) :
  run (config load_dotenv pf environ) out = (Ok (cfg, environ'), out') ->
  (GOOGLE_API_KEY cfg = None <-> falsy (environ' !! py "GOOGLE_API_KEY") = true) /\
  exists loading,
    out' = out ++ loading ++ key_lines (GOOGLE_API_KEY cfg) /\
    length loading <= 2 /\
    Forall (fun w => startswith (py "Warning: ") w = true) loading.
Proof.
  intros Hrun.
  pose proof (run_load_environment load_dotenv pf environ out) as Hload.
  destruct (emit_cases pf (dotenv_warnings load_dotenv environ))
    as [Hacc|(before & w & after & Heq & Hb & Hw)].
  - rewrite after_printing_accepted in Hload by done.
    rewrite (run_config_after _ _ _ _ _ _ Hload) in Hrun.
    injection Hrun as <- <- <-. split.
    + unfold config_of. cbn [GOOGLE_API_KEY].
      destruct (environ_after load_dotenv environ !! py "GOOGLE_API_KEY")
        as [[|c key]|]; simpl; split; done.
    + exists (dotenv_warnings load_dotenv environ).
      split; [by rewrite app_assoc|]. apply dotenv_warnings_shape.
  - rewrite Heq in Hload. rewrite after_printing_refused in Hload by done.
    rewrite (run_config_raise _ _ _ _ _ _ Hload) in Hrun. done.
Qed.

(** X19: when loading the [.env] file as UTF-8 succeeds, latin-1 is not
    tried: the environment is the one that load left and no line about the
    [.env] file is printed. *)
Theorem utf8_load_suffices
    (load_dotenv : str -> gmap str str -> result bool * gmap str str)
    (pf : platform) (environ environ1 : gmap str str) (loaded : bool)
    (out : list str) :
  load_dotenv (py "utf-8") environ = (Ok loaded, environ1) ->
  exists cfg,
    run (config load_dotenv pf environ) out
    = (Ok (cfg, environ1), out ++ key_lines (GOOGLE_API_KEY cfg)).
Proof.
  intros Hutf8.
  pose proof (run_load_environment load_dotenv pf environ out) as Hload.
  unfold dotenv_warnings, environ_after in Hload. rewrite Hutf8 in Hload.
  rewrite after_printing_nil in Hload.
  exists (config_of environ1). by apply run_config_after.
Qed.

(** X20: when loading the [.env] file as UTF-8 raises, one warning names
    the exception and latin-1 is tried on the environment that attempt
    left; if it raises too, a second warning names its exception and the
    import goes on with the environment as it is. This is the run on a
    standard output that has bytes for the warnings; on another one the
    warning that cannot be printed raises, and a first warning that cannot
    be printed leaves latin-1 untried. *)
Theorem latin1_fallback
    (load_dotenv : str -> gmap str str -> result bool * gmap str str)
    (pf : platform) (environ environ1 : gmap str str) (e : exn)
    (out : list str) :
  load_dotenv (py "utf-8") environ = (Raise e, environ1) ->
  (accepted pf ([utf8_warning e]
                ++ match (load_dotenv (py "latin-1") environ1).1 with
                   | Ok _ => []
                   | Raise e2 => [latin1_warning e2]
                   end) ->
   exists cfg,
     run (config load_dotenv pf environ) out
     = (Ok (cfg, (load_dotenv (py "latin-1") environ1).2),
        out ++ [utf8_warning e]
        ++ match (load_dotenv (py "latin-1") environ1).1 with
           | Ok _ => []
           | Raise e2 => [latin1_warning e2]
           end
        ++ key_lines (GOOGLE_API_KEY cfg))) /\
  (stdout_accepts pf (utf8_warning e) = false ->
   run (config load_dotenv pf environ) out
   = (Raise (encode_error pf (utf8_warning e)), out)) /\
  (forall e2,
     stdout_accepts pf (utf8_warning e) = true ->
     (load_dotenv (py "latin-1") environ1).1 = Raise e2 ->
     stdout_accepts pf (latin1_warning e2) = false ->
     run (config load_dotenv pf environ) out
     = (Raise (encode_error pf (latin1_warning e2)), out ++ [utf8_warning e])).
Proof.
  intros Hutf8.
  pose proof (run_load_environment load_dotenv pf environ out) as Hload.
  unfold dotenv_warnings, environ_after in Hload. rewrite Hutf8 in Hload.
  destruct (load_dotenv (py "latin-1") environ1) as [[b|e2] environ2];
    cbn [fst snd] in *; split_and!.
  - intros Hacc. rewrite after_printing_accepted in Hload by done.
    exists (config_of environ2).
    rewrite (run_config_after _ _ _ _ _ _ Hload). by rewrite <- !app_assoc.
  - intros Hw. rewrite after_printing_cons, Hw in Hload.
    by apply run_config_raise.
  - intros e2 _ [=].
  - intros Hacc. rewrite after_printing_accepted in Hload by done.
    exists (config_of environ2).
    rewrite (run_config_after _ _ _ _ _ _ Hload). by rewrite <- !app_assoc.
  - intros Hw. rewrite after_printing_cons, Hw in Hload.
    by apply run_config_raise.
  - intros e3 Hw [= <-] Hw2.
    rewrite after_printing_cons, Hw, after_printing_cons, Hw2 in Hload.
    by apply run_config_raise.
Qed.


(** * The further properties on the sample inputs *)

Lemma entries_well_formed_witness :
  run (analyze_codebase sample_parser utf8_terminal sample_fs (py "lib")) []
  = (Ok {[ py "a" := lib_info ]}, []) /\
  ({[ py "a" := lib_info ]} : gmap str ModuleInfo) !! py "a" = Some lib_info /\
  startswith (py "__") (py "a") = false /\ py "a" <> [] /\
  (file lib_info = py "src/" ++ py "a" ++ py ".py"
   \/ py "a" = py ".py" /\ file lib_info = py "src/.py") /\
  length (functions lib_info) <= 3 /\ length (classes lib_info) <= 2.
Proof.
  assert (H1 : run (analyze_codebase sample_parser utf8_terminal sample_fs
                      (py "lib")) []
               = (Ok {[ py "a" := lib_info ]}, []))
    by (vm_compute; reflexivity).
  assert (H2 : ({[ py "a" := lib_info ]} : gmap str ModuleInfo) !! py "a"
               = Some lib_info)
    by (vm_compute; reflexivity).
  split; [exact H1|]. split; [exact H2|].
  exact (entries_well_formed sample_parser utf8_terminal sample_fs (py "lib")
           [] [] {[ py "a" := lib_info ]} (py "a") lib_info H1 H2).
Defined.

Lemma keys_are_stems_witness :
  run (analyze_codebase sample_parser utf8_terminal sample_fs (py "lib")) []
  = (Ok {[ py "a" := lib_info ]}, []) /\
  dom ({[ py "a" := lib_info ]} : gmap str ModuleInfo)
  = list_to_set ((stem ∘ name)
                   <$> filter (analysed sample_parser)
                         (py_files sample_fs (py "lib"))).
Proof.
  assert (H1 : run (analyze_codebase sample_parser utf8_terminal sample_fs
                      (py "lib")) []
               = (Ok {[ py "a" := lib_info ]}, []))
    by (vm_compute; reflexivity).
  split; [exact H1|].
  exact (keys_are_stems sample_parser utf8_terminal sample_fs (py "lib") [] []
           {[ py "a" := lib_info ]} H1).
Defined.

Lemma scan_order_independent_witness :
  exists modules warnings warnings',
    run (analyze_codebase sample_parser utf8_terminal cli_fs (py "src")) []
    = (Ok modules, [] ++ warnings) /\
    run (analyze_codebase sample_parser utf8_terminal cli_fs_swapped (py "src")) []
    = (Ok modules, [] ++ warnings') /\
    warnings ≡ₚ warnings'.
Proof.
  refine (scan_order_independent sample_parser utf8_terminal cli_fs
            cli_fs_swapped (py "src")
            [ DirEntry (py "__init__.py") (Ok []);
              DirEntry (py "cli.py") (Ok assign_source) ]
            [ DirEntry (py "cli.py") (Ok assign_source);
              DirEntry (py "__init__.py") (Ok []) ] [] _ _ _ _ _).
  - vm_compute; reflexivity.
  - vm_compute; reflexivity.
  - apply perm_swap.
  - apply (bool_decide_unpack _). vm_compute. exact I.
  - apply (bool_decide_unpack _). vm_compute. exact I.
Defined.

Lemma last_file_wins_witness :
  exists modules out' info,
    run (analyze_codebase sample_parser utf8_terminal dotfile_fs (py "src")) []
    = (Ok modules, out') /\
    modules !! stem (py ".py.py") = Some info /\
    file info = py "src/" ++ py ".py.py" /\
    description info = get_module_description [] (stem (py ".py.py")).
Proof.
  refine (last_file_wins sample_parser utf8_terminal dotfile_fs (py "src")
            [DirEntry (py ".py") (Ok [])] []
            (DirEntry (py ".py.py") (Ok [])) [] (Node OtherNode []) []
            _ _ _ _ _ _).
  - vm_compute; reflexivity.
  - vm_compute; reflexivity.
  - reflexivity.
  - vm_compute; reflexivity.
  - intros g Hg. by apply elem_of_nil in Hg.
  - apply (bool_decide_unpack _). vm_compute. exact I.
Defined.

Lemma scan_reads_candidates_only_witness :
  run (analyze_codebase sample_parser utf8_terminal cli_fs (py "src")) []
  = run (analyze_codebase sample_parser utf8_terminal cli_fs_noise (py "src")) [].
Proof.
  refine (scan_reads_candidates_only sample_parser utf8_terminal cli_fs
            cli_fs_noise (py "src")
            [ DirEntry (py "__init__.py") (Ok []);
              DirEntry (py "cli.py") (Ok assign_source) ]
            [ DirEntry (py "notes.txt") (Ok (text ["to do"%string]));
              DirEntry (py "__init__.py")
                (Raise (Exception (py "[Errno 13] Permission denied: 'src/__init__.py'")));
              DirEntry (py "cli.py") (Ok assign_source) ] [] _ _ _);
    vm_compute; reflexivity.
Defined.

Lemma unprintable_warning_aborts_witness :
  py_files surrogate_fs (py "src")
  = [DirEntry (py "cli.py") (Ok assign_source)]
    ++ DirEntry undecodable_name (Ok (text ["def ("%string]))
    :: [DirEntry (py "util.py") (Ok assign_source)] /\
  stdout_accepts utf8_terminal
    (warning (py "src") (DirEntry undecodable_name (Ok (text ["def ("%string])))
       (Exception (py "invalid syntax (<unknown>, line 1)"))) = false /\
  run (analyze_codebase sample_parser utf8_terminal surrogate_fs (py "src")) []
  = (Raise (Exception (py "'utf-8' codec can't encode character '\udcff' in position 31: surrogates not allowed")),
     []).
Proof.
  assert (H1 : py_files surrogate_fs (py "src")
               = [DirEntry (py "cli.py") (Ok assign_source)]
                 ++ DirEntry undecodable_name (Ok (text ["def ("%string]))
                 :: [DirEntry (py "util.py") (Ok assign_source)])
    by (vm_compute; reflexivity).
  assert (H2 : accepted utf8_terminal
                 (omap (warning_of sample_parser (py "src"))
                    [DirEntry (py "cli.py") (Ok assign_source)]))
    by (apply (bool_decide_unpack _); vm_compute; exact I).
  assert (H3 : excluded (DirEntry undecodable_name (Ok (text ["def ("%string])))
               = false)
    by (vm_compute; reflexivity).
  assert (H4 : failure sample_parser
                 (DirEntry undecodable_name (Ok (text ["def ("%string])))
               = Some (Exception (py "invalid syntax (<unknown>, line 1)")))
    by (vm_compute; reflexivity).
  assert (H5 : stdout_accepts utf8_terminal
                 (warning (py "src")
                    (DirEntry undecodable_name (Ok (text ["def ("%string])))
                    (Exception (py "invalid syntax (<unknown>, line 1)")))
               = false)
    by (vm_compute; reflexivity).
  split; [exact H1|]. split; [exact H5|].
  destruct (unprintable_warning_aborts sample_parser utf8_terminal surrogate_fs
              (py "src") _ _ _ _ [] H1 H2 H3 H4 H5) as [Hrun _].
  rewrite Hrun. vm_compute. reflexivity.
Defined.

Lemma top_level_names_first_witness :
  3 <= length (def_names (children sample_tree)) /\
  async_def_names (children sample_tree) = [py "a"] /\
  exists info,
    run (scan_file sample_parser utf8_terminal (py "src") ∅
           (DirEntry (py "sample.py") (Ok sample_source))) []
    = (Ok (<[stem (py "sample.py") := info]> ∅), []) /\
    functions info = [py "g"; py "k"; py "z"].
Proof.
  assert (H3 : 3 <= length (def_names (children sample_tree)))
    by (vm_compute; lia).
  split; [exact H3|]. split; [vm_compute; reflexivity|].
  destruct (top_level_names_first sample_parser utf8_terminal (py "src") ∅
              (DirEntry (py "sample.py") (Ok sample_source))
              sample_source sample_tree [])
    as (info & Hrun & _ & _ & Hf & _);
    [vm_compute; reflexivity | reflexivity | vm_compute; reflexivity
    | reflexivity |].
  exists info. split; [exact Hrun|]. rewrite (Hf H3). vm_compute. reflexivity.
Defined.

Lemma later_lines_ignored_witness :
  get_module_description (lines_text five_lines ++ example_docstring) (py "cli")
  = get_module_description (lines_text five_lines ++ []) (py "cli").
Proof.
  refine (later_lines_ignored five_lines example_docstring [] (py "cli") _ _).
  - reflexivity.
  - apply (bool_decide_unpack _). vm_compute. exact I.
Defined.


Lemma docstring_description_no_squote_marker_witness :
  marker_line example_docstring = Some example_docstring /\
  contains triple_squote (get_module_description example_docstring (py "cli"))
  = false.
Proof.
  assert (H : marker_line example_docstring = Some example_docstring)
    by (vm_compute; reflexivity).
  split; [exact H|].
  exact (docstring_description_no_squote_marker example_docstring (py "cli")
           example_docstring H).
Defined.

Lemma diagram_written_witness :
  exec (update_architecture_diagram sample_parser utf8_terminal save_ok sample_fs)
    empty_world = (Ok tt, sample_world_after) /\
  save_ok output_file (join 10 diagram_lines) = Saved /\
  disk sample_world_after
  = <[output_file := join 10 diagram_lines]> (disk empty_world) /\
  disk sample_world_after !! output_file = Some (generate_mermaid_diagram ∅) /\
  forall p, p <> output_file ->
            disk sample_world_after !! p = disk empty_world !! p.
Proof.
  assert (H : exec (update_architecture_diagram sample_parser utf8_terminal
                      save_ok sample_fs) empty_world
              = (Ok tt, sample_world_after))
    by (vm_compute; reflexivity).
  split; [exact H|].
  exact (diagram_written sample_parser utf8_terminal save_ok sample_fs
           empty_world sample_world_after H).
Defined.

Lemma summary_matches_count_witness :
  exec (update_architecture_diagram sample_parser utf8_terminal save_ok sample_fs)
    empty_world = (Ok tt, sample_world_after) /\
  exists (items : list (str * ModuleInfo)) warnings modules,
    printed sample_world_after
    = printed empty_world ++ [analyzing_line] ++ warnings
      ++ [found_line (length items); updated_line; summary_header]
      ++ (summary_line <$> items) /\
    run (analyze_codebase sample_parser utf8_terminal sample_fs (py "src"))
      (printed empty_world ++ [analyzing_line])
    = (Ok modules, printed empty_world ++ [analyzing_line] ++ warnings) /\
    length items = size modules /\
    length (summary_line <$> items) = size modules /\
    (forall k info, (k, info) ∈ items <-> modules !! k = Some info).
Proof.
  assert (H : exec (update_architecture_diagram sample_parser utf8_terminal
                      save_ok sample_fs) empty_world
              = (Ok tt, sample_world_after))
    by (vm_compute; reflexivity).
  split; [exact H|].
  exact (summary_matches_count sample_parser utf8_terminal save_ok sample_fs
           empty_world sample_world_after H).
Defined.

Lemma save_failure_propagates_witness :
  stdout_accepts utf8_terminal analyzing_line = true /\
  run (analyze_codebase sample_parser utf8_terminal sample_fs (py "src"))
    (printed empty_world ++ [analyzing_line])
  = (Ok sample_modules, [analyzing_line] ++ sample_warnings) /\
  stdout_accepts utf8_terminal (found_line (size sample_modules)) = true /\
  save_denied output_file (join 10 diagram_lines) <> Saved /\
  exists e w',
    exec (update_architecture_diagram sample_parser utf8_terminal save_denied
            sample_fs) empty_world = (Raise e, w') /\
    printed w'
    = ([analyzing_line] ++ sample_warnings)
      ++ [found_line (size sample_modules)] /\
    (forall p, p <> output_file -> disk w' !! p = disk empty_world !! p) /\
    (forall e',
       save_denied output_file (join 10 diagram_lines) = OpenFailed e' ->
       e = e' /\ disk w' = disk empty_world) /\
    (forall e' left_behind,
       save_denied output_file (join 10 diagram_lines)
       = WriteFailed e' left_behind ->
       e = e' /\ disk w' !! output_file = Some left_behind).
Proof.
  assert (H1 : stdout_accepts utf8_terminal analyzing_line = true)
    by (vm_compute; reflexivity).
  assert (H2 : run (analyze_codebase sample_parser utf8_terminal sample_fs
                      (py "src")) (printed empty_world ++ [analyzing_line])
               = (Ok sample_modules, [analyzing_line] ++ sample_warnings))
    by (vm_compute; reflexivity).
  assert (H3 : stdout_accepts utf8_terminal (found_line (size sample_modules))
               = true)
    by (vm_compute; reflexivity).
  assert (H4 : save_denied output_file (join 10 diagram_lines) <> Saved)
    by (unfold save_denied; discriminate).
  split; [exact H1|]. split; [exact H2|]. split; [exact H3|]. split; [exact H4|].
  exact (save_failure_propagates sample_parser utf8_terminal save_denied
           sample_fs empty_world sample_modules
           ([analyzing_line] ++ sample_warnings) H1 H2 H3 H4).
Defined.

Lemma missing_source_directory_witness :
  path_exists utf8_terminal (∅ : gmap str (list dir_entry)) (py "src")
  = Ok false /\
  accepted utf8_terminal
    [ analyzing_line; found_mark ++ py " Found 0 modules";
      updated_line; summary_header ] /\
  exec (update_architecture_diagram sample_parser utf8_terminal save_ok ∅)
    empty_world
  = (Ok tt,
     World (printed empty_world
            ++ [ analyzing_line;
                 py "Warning: src directory not found";
                 found_mark ++ py " Found 0 modules";
                 updated_line;
                 summary_header ])
       (<[output_file := join 10 diagram_lines]> (disk empty_world))).
Proof.
  assert (H1 : path_exists utf8_terminal (∅ : gmap str (list dir_entry))
                 (py "src") = Ok false)
    by (vm_compute; reflexivity).
  assert (H2 : accepted utf8_terminal
                 [ analyzing_line; found_mark ++ py " Found 0 modules";
                   updated_line; summary_header ])
    by (apply (bool_decide_unpack _); vm_compute; exact I).
  split; [exact H1|]. split; [exact H2|].
  exact (missing_source_directory sample_parser utf8_terminal save_ok ∅
           empty_world H1 H2 eq_refl).
Defined.

Lemma summary_in_listing_order_witness :
  path_exists utf8_terminal sample_fs (py "src") = Ok true /\
  NoDup ((stem ∘ name)
           <$> filter (analysed sample_parser) (py_files sample_fs (py "src"))) /\
  summary_line <$> omap (scanned sample_parser) (py_files sample_fs (py "src"))
  = [ py "  - cli: CLI with argument parsing"; py "  - sample: sample module" ] /\
  exists w',
    exec (update_architecture_diagram sample_parser utf8_terminal save_ok
            sample_fs) empty_world = (Ok tt, w') /\
    printed w'
    = printed empty_world ++ [analyzing_line]
      ++ omap (warning_of sample_parser (py "src"))
           (py_files sample_fs (py "src"))
      ++ [ found_line (length (filter (analysed sample_parser)
                                 (py_files sample_fs (py "src"))));
           updated_line; summary_header ]
      ++ (summary_line
            <$> omap (scanned sample_parser) (py_files sample_fs (py "src"))) /\
    (omap (scanned sample_parser) (py_files sample_fs (py "src"))).*1
    = (stem ∘ name)
        <$> filter (analysed sample_parser) (py_files sample_fs (py "src")).
Proof.
  assert (H1 : path_exists utf8_terminal sample_fs (py "src") = Ok true)
    by (vm_compute; reflexivity).
  assert (H2 : NoDup ((stem ∘ name)
                        <$> filter (analysed sample_parser)
                              (py_files sample_fs (py "src"))))
    by (apply (bool_decide_unpack _); vm_compute; exact I).
  assert (H3 : accepted utf8_terminal
                 ([analyzing_line]
                  ++ omap (warning_of sample_parser (py "src"))
                       (py_files sample_fs (py "src"))
                  ++ [ found_line (length (filter (analysed sample_parser)
                                             (py_files sample_fs (py "src"))));
                       updated_line; summary_header ]
                  ++ (summary_line
                        <$> omap (scanned sample_parser)
                              (py_files sample_fs (py "src")))))
    by (apply (bool_decide_unpack _); vm_compute; exact I).
  split; [exact H1|]. split; [exact H2|]. split; [vm_compute; reflexivity|].
  exact (summary_in_listing_order sample_parser utf8_terminal save_ok sample_fs
           empty_world H1 H2 eq_refl H3).
Defined.

Lemma unprintable_mark_stops_witness :
  stdout_accepts ascii_terminal analyzing_line = false /\
  exec (update_architecture_diagram sample_parser ascii_terminal save_ok
          sample_fs) empty_world
  = (Raise (Exception (py "'ascii' codec can't encode characters in position 0-3: ordinal not in range(128)")),
     empty_world).
Proof.
  assert (H : stdout_accepts ascii_terminal analyzing_line = false)
    by (vm_compute; reflexivity).
  split; [exact H|].
  exact (unprintable_mark_stops sample_parser ascii_terminal save_ok sample_fs
           empty_world H).
Defined.

Lemma config_import_outcome_witness :
  accepted utf8_terminal (dotenv_warnings dotenv_latin1 ∅) /\
  (exists cfg environ',
     run (config dotenv_latin1 utf8_terminal ∅) []
     = (Ok (cfg, environ'),
        [] ++ dotenv_warnings dotenv_latin1 ∅
        ++ key_lines (GOOGLE_API_KEY cfg)) /\
     (GOOGLE_API_KEY cfg = None
      \/ exists key, key <> [] /\ GOOGLE_API_KEY cfg = Some key /\
                     environ' !! py "GOOGLE_API_KEY" = Some key)) /\
  stdout_accepts ascii_terminal (utf8_warning denied_error) = false /\
  run (config dotenv_denied ascii_terminal ∅) []
  = (Raise (Exception (py "'ascii' codec can't encode character '\xe9' in position 85: ordinal not in range(128)")),
     []).
Proof.
  assert (H1 : accepted utf8_terminal (dotenv_warnings dotenv_latin1 ∅))
    by (apply (bool_decide_unpack _); vm_compute; exact I).
  assert (H2 : stdout_accepts ascii_terminal
                 (utf8_warning denied_error) = false)
    by (vm_compute; reflexivity).
  destruct (config_import_outcome dotenv_latin1 utf8_terminal ∅ [])
    as (Hok & _ & _).
  destruct (config_import_outcome dotenv_denied ascii_terminal ∅ [])
    as (_ & Hraise & _).
  split; [exact H1|]. split; [exact (Hok H1)|]. split; [exact H2|].
  rewrite (Hraise [] (utf8_warning denied_error)
             [latin1_warning denied_error]);
    [vm_compute; reflexivity | vm_compute; reflexivity | constructor | exact H2].
Defined.

Lemma missing_key_warned_witness :
  run (config dotenv_latin1 utf8_terminal ∅) []
  = (Ok (no_key_config, ∅), utf8_warning decode_error :: key_warnings) /\
  (GOOGLE_API_KEY no_key_config = None
   <-> falsy ((∅ : gmap str str) !! py "GOOGLE_API_KEY") = true) /\
  exists loading,
    utf8_warning decode_error :: key_warnings
    = [] ++ loading ++ key_lines (GOOGLE_API_KEY no_key_config) /\
    length loading <= 2 /\
    Forall (fun w => startswith (py "Warning: ") w = true) loading.
Proof.
  assert (H : run (config dotenv_latin1 utf8_terminal ∅) []
              = (Ok (no_key_config, ∅), utf8_warning decode_error :: key_warnings))
    by (vm_compute; reflexivity).
  split; [exact H|].
  exact (missing_key_warned dotenv_latin1 utf8_terminal ∅ ∅ []
           (utf8_warning decode_error :: key_warnings) no_key_config H).
Defined.

Lemma utf8_load_suffices_witness :
  exists cfg,
    run (config dotenv_sets_key utf8_terminal ∅) []
    = (Ok (cfg, <[py "GOOGLE_API_KEY" := py "secret"]> ∅),
       [] ++ key_lines (GOOGLE_API_KEY cfg)).
Proof.
  exact (utf8_load_suffices dotenv_sets_key utf8_terminal ∅
           (<[py "GOOGLE_API_KEY" := py "secret"]> ∅) true [] eq_refl).
Defined.

Lemma latin1_fallback_witness :
  dotenv_latin1 (py "utf-8") ∅ = (Raise decode_error, ∅) /\
  accepted utf8_terminal
    ([utf8_warning decode_error]
     ++ match (dotenv_latin1 (py "latin-1") ∅).1 with
        | Ok _ => []
        | Raise e2 => [latin1_warning e2]
        end) /\
  exists cfg,
    run (config dotenv_latin1 utf8_terminal ∅) []
    = (Ok (cfg, (dotenv_latin1 (py "latin-1") ∅).2),
       [] ++ [utf8_warning decode_error]
       ++ match (dotenv_latin1 (py "latin-1") ∅).1 with
          | Ok _ => []
          | Raise e2 => [latin1_warning e2]
          end
       ++ key_lines (GOOGLE_API_KEY cfg)).
Proof.
  assert (H1 : dotenv_latin1 (py "utf-8") ∅ = (Raise decode_error, ∅))
    by (vm_compute; reflexivity).
  assert (H2 : accepted utf8_terminal
                 ([utf8_warning decode_error]
                  ++ match (dotenv_latin1 (py "latin-1") ∅).1 with
                     | Ok _ => []
                     | Raise e2 => [latin1_warning e2]
                     end))
    by (apply (bool_decide_unpack _); vm_compute; exact I).
  split; [exact H1|]. split; [exact H2|].
  destruct (latin1_fallback dotenv_latin1 utf8_terminal ∅ ∅ decode_error [] H1)
    as (Hok & _ & _).
  exact (Hok H2).
Defined.

